(** * agent-interview (py_version): the tool-resolution loop, the OpenAI
      schema adapter and the FSA/HSA calculator, embedded in Rocq

    The Python sources are translated function by function:

    - [Py]          the fragment of the Python runtime the sources rely on
                    (values, ordered dicts, exceptions, [str] methods,
                    [json.dumps], [round], [min], [max]);
    - [ToolInput], [Tool], [BaseTool]   [tools/base.py];
    - [Converter]   [llm_tool_converters/openai.py];
    - [Tools]       [tools/*.py] and [tools/registry.py];
    - [Provider]    [llm_provider_invocations/openai.py];
    - [Agent], [AgentDefinition]   [schemas.py];
    - [Agents]      [agents/benefits.py], [agents/registry.py] and the agent
                    definitions [main.py] builds;
    - [ToolConverter]   [tool_converter.py];
    - [Activities]  [temporal/activities/invoke_agent.py];
    - [Sample]      an instance of the builtins left abstract in [Py],
                    provider stubs and sample data.

    The properties follow, module by module: [DictFacts],
    [ConverterFacts], [PyFacts], [ToolsFacts], [LoopFacts], [RunFacts],
    [ScriptFacts], [CalculatorFacts], [SchemaFacts], [AgentFacts]. *)

From Stdlib Require Import ZArith List String Ascii Bool Lia Floats DecimalString
  Sorted.
Import ListNotations.

#[local] Set Warnings "-register-all,-inexact-float".
#[local] Open Scope string_scope.

(* ================================================================== *)
(** * The Python runtime fragment *)
(* ================================================================== *)

Module Py.

(** Run-time values: what [json.loads] can produce and what the sources
    pass around as [Any].  A [str] is a sequence of code points below 256;
    a [dict] keeps its insertion order, which [json.dumps] and
    [list(d.keys())] make observable. *)
Inductive value : Type :=
| VNone
| VBool (b : bool)
| VInt (n : Z)
| VFloat (x : float)
| VStr (s : string)
| VList (items : list value)
| VDict (entries : list (string * value)).

Definition dict (V : Type) : Type := list (string * V).

(** [d.get(k)] *)
Fixpoint dict_get {V : Type} (d : dict V) (k : string) : option V :=
  match d with
  | [] => None
  | (k', v) :: rest => if String.eqb k k' then Some v else dict_get rest k
  end.

(** [d.get(k, default)] *)
Definition dict_get_default {V : Type} (d : dict V) (k : string) (default : V) : V :=
  match dict_get d k with
  | Some v => v
  | None => default
  end.

(** [d[k] = v]: an existing key keeps its position and takes the new value,
    a new key goes last. *)
Fixpoint dict_set {V : Type} (d : dict V) (k : string) (v : V) : dict V :=
  match d with
  | [] => [(k, v)]
  | (k', v') :: rest =>
      if String.eqb k k' then (k, v) :: rest else (k', v') :: dict_set rest k v
  end.

(** [list(d.keys())] *)
Definition dict_keys {V : Type} (d : dict V) : list string := map fst d.

(** Truth value of an object, as [if x:] and [x or y] test it. *)
Definition truthy (v : value) : bool :=
  match v with
  | VNone => false
  | VBool b => b
  | VInt n => negb (n =? 0)%Z
  | VFloat x => negb (PrimFloat.eqb x 0%float)
  | VStr s => negb (String.eqb s "")
  | VList l => match l with [] => false | _ => true end
  | VDict d => match d with [] => false | _ => true end
  end.

(** Exceptions below [Exception]: the class name and [str(e)]. *)
Inductive exn : Type :=
| Exception (cls : string) (msg : string).

Definition exn_class (e : exn) : string := let 'Exception c _ := e in c.
Definition exn_str (e : exn) : string := let 'Exception _ m := e in m.

(** The outcome of evaluating an expression that may raise. *)
Inductive exc (A : Type) : Type :=
| Ok (a : A)
| Raise (e : exn).
Arguments Ok {A} a.
Arguments Raise {A} e.

(** ** [str] methods *)

(** [str.isspace] on one code point below 256. *)
Definition isspace (c : ascii) : bool :=
  let n := nat_of_ascii c in
  (((9 <=? n) && (n <=? 13)) || ((28 <=? n) && (n <=? 32))
   || (n =? 133) || (n =? 160))%nat.

Fixpoint lstrip (s : string) : string :=
  match s with
  | String c rest => if isspace c then lstrip rest else s
  | EmptyString => EmptyString
  end.

(** Drops the trailing whitespace: a character is kept when something that
    is kept follows it, or when it is not whitespace itself. *)
Fixpoint rstrip (s : string) : string :=
  match s with
  | EmptyString => EmptyString
  | String c rest =>
      match rstrip rest with
      | EmptyString => if isspace c then EmptyString else String c EmptyString
      | kept => String c kept
      end
  end.

(** [s.strip()] *)
Definition strip (s : string) : string := rstrip (lstrip s).

(** Whether every character of [s] is whitespace. *)
Fixpoint only_whitespace (s : string) : bool :=
  match s with
  | EmptyString => true
  | String c rest => isspace c && only_whitespace rest
  end.

(** [needle in hay] *)
Definition contains (needle hay : string) : Prop :=
  exists before after : string, hay = before ++ needle ++ after.

(** [s.startswith(prefix)] *)
Fixpoint startswith (s prefix : string) : bool :=
  match prefix, s with
  | EmptyString, _ => true
  | String p prefix', String c s' => Ascii.eqb p c && startswith s' prefix'
  | String _ _, EmptyString => false
  end.

(** [needle in hay], decided by trying every position. *)
Fixpoint occurs (needle hay : string) : bool :=
  startswith hay needle
  || match hay with
     | String _ rest => occurs needle rest
     | EmptyString => false
     end.

(** [s.lower()] on code points below 256: A-Z, and the Latin-1 capitals
    192-222 except the multiplication sign 215. *)
Definition lower_char (c : ascii) : ascii :=
  let n := nat_of_ascii c in
  if (((65 <=? n) && (n <=? 90))
      || ((192 <=? n) && (n <=? 222) && negb (n =? 215)))%nat
  then ascii_of_nat (n + 32) else c.

Fixpoint lower (s : string) : string :=
  match s with
  | EmptyString => EmptyString
  | String c rest => String (lower_char c) (lower rest)
  end.

(** [sep.join(parts)] *)
Fixpoint join (sep : string) (parts : list string) : string :=
  match parts with
  | [] => ""
  | [x] => x
  | x :: rest => x ++ sep ++ join sep rest
  end.

(** [str(n)] for an [int] *)
Definition str_of_int (n : Z) : string := NilEmpty.string_of_int (Z.to_int n).

(** ** Floats (binary64) *)

Definition float_nan : float := PrimFloat.nan.
Definition float_inf : float := PrimFloat.infinity.

Definition is_nan (x : float) : bool := negb (PrimFloat.eqb x x).

(** [float(n)] for an [int]: the nearest double, ties to even; an [int]
    beyond the range of doubles raises [OverflowError]. *)
Definition float_of_int (n : Z) : exc float :=
  match binary_normalize prec emax n 0 false with
  | S754_infinity _ =>
      Raise (Exception "OverflowError" "int too large to convert to float")
  | sf => Ok (SF2Prim sf)
  end.

(** The integer nearest to [num / den] ([den] positive), ties to even. *)
Definition div_half_even (num den : Z) : Z :=
  let q := (num / den)%Z in
  match (2 * (num mod den) ?= den)%Z with
  | Lt => q
  | Gt => (q + 1)%Z
  | Eq => if Z.even q then q else (q + 1)%Z
  end.

(** [round(x, ndigits)] for a float and [ndigits >= 0]: NaN and the
    infinities round to themselves; a finite [x = m * 2^e] is rounded, on its
    exact value and with ties to even, to [n / 10^ndigits], and the result is
    the double nearest to that decimal. *)
Definition round_float (x : float) (ndigits : nat) : float :=
  match Prim2SF x with
  | S754_finite s m e =>
      if (0 <=? e)%Z then x
      else
        let p := (10 ^ Z.of_nat ndigits)%Z in
        let n := div_half_even (Zpos m * p) (2 ^ (- e)) in
        if (n =? 0)%Z then SF2Prim (S754_zero s)
        else
          let '(mz, ez, lz) := SFdiv_core_binary prec emax n 0 p 0 in
          SF2Prim (binary_round_aux prec emax s mz ez lz)
  | _ => x
  end.

(** An [int] against a [float], compared on their exact values as Python
    does; [None] for a NaN, against which every comparison is false. *)
Definition int_float_compare (n : Z) (x : float) : option comparison :=
  match Prim2SF x with
  | S754_nan => None
  | S754_infinity s => Some (if s then Gt else Lt)
  | S754_zero _ => Some (n ?= 0)%Z
  | S754_finite s m e =>
      let m' := if s then Zneg m else Zpos m in
      Some (if (0 <=? e)%Z then (n ?= m' * 2 ^ e)%Z
            else (n * 2 ^ (- e) ?= m')%Z)
  end.

(** The number a value stands for; a [bool] is the [int] 0 or 1. *)
Definition as_number (v : value) : option (Z + float) :=
  match v with
  | VInt n => Some (inl n)
  | VBool b => Some (inl (if b then 1 else 0)%Z)
  | VFloat x => Some (inr x)
  | _ => None
  end.

(** [a < b] on numbers; [None] when an operand is not a number (the
    comparison raises [TypeError]). *)
Definition lt (a b : value) : option bool :=
  match as_number a, as_number b with
  | Some (inl m), Some (inl n) => Some (m <? n)%Z
  | Some (inr x), Some (inr y) => Some (PrimFloat.ltb x y)
  | Some (inl m), Some (inr y) =>
      Some (match int_float_compare m y with Some Lt => true | _ => false end)
  | Some (inr x), Some (inl n) =>
      Some (match int_float_compare n x with Some Gt => true | _ => false end)
  | _, _ => None
  end.

(** [min(a, b)]: [b] when [b < a], else [a]. *)
Definition min (a b : value) : exc value :=
  match lt b a with
  | Some true => Ok b
  | Some false => Ok a
  | None => Raise (Exception "TypeError" "'<' not supported between these operands")
  end.

(** [max(a, b)]: [b] when [b > a], else [a]. *)
Definition max (a b : value) : exc value :=
  match lt a b with
  | Some true => Ok b
  | Some false => Ok a
  | None => Raise (Exception "TypeError" "'>' not supported between these operands")
  end.

(** [round(v, ndigits)] with [ndigits >= 0]: an [int] is unchanged. *)
Definition round (v : value) (ndigits : nat) : exc value :=
  match v with
  | VFloat x => Ok (VFloat (round_float x ndigits))
  | VInt n => Ok (VInt n)
  | VBool b => Ok (VInt (if b then 1 else 0))
  | _ => Raise (Exception "TypeError" "type doesn't define __round__ method")
  end.

(** [a - b] on numbers: an [int] operand of a float subtraction is
    converted with [float]. *)
Definition sub (a b : value) : exc value :=
  match as_number a, as_number b with
  | Some (inl m), Some (inl n) => Ok (VInt (m - n))
  | Some (inr x), Some (inr y) => Ok (VFloat (x - y))
  | Some (inl m), Some (inr y) =>
      match float_of_int m with
      | Ok x => Ok (VFloat (x - y))
      | Raise e => Raise e
      end
  | Some (inr x), Some (inl n) =>
      match float_of_int n with
      | Ok y => Ok (VFloat (x - y))
      | Raise e => Raise e
      end
  | _, _ => Raise (Exception "TypeError" "unsupported operand type(s) for -")
  end.

(** ** Builtins taken as given

    The parts of the interpreter and of the [json] module that the sources
    call and that are not re-implemented here. *)
Class Builtins : Type := {
  (** [json.loads(s)] *)
  json_loads : string -> exc value;
  (** [repr(x)] of a finite float: its shortest round-tripping decimal *)
  float_repr : float -> string;
  (** [float(s)] of a [str]; [None] when [s] is not a float literal *)
  float_of_str : string -> option float;
  (** [repr(v)] of a [list] or a [dict] *)
  container_repr : value -> string
}.

Section WithBuiltins.
Context {builtins : Builtins}.

(** [float(v)] *)
Definition float_of_value (v : value) : exc float :=
  match v with
  | VFloat x => Ok x
  | VInt n => float_of_int n
  | VBool b => Ok (if b then 1%float else 0%float)
  | VStr s =>
      match float_of_str s with
      | Some x => Ok x
      | None => Raise (Exception "ValueError" ("could not convert string to float: " ++ s))
      end
  | VNone | VList _ | VDict _ =>
      Raise (Exception "TypeError" "float() argument must be a string or a real number")
  end.

(** [str(x)] of a float *)
Definition str_of_float (x : float) : string :=
  if is_nan x then "nan"
  else if PrimFloat.eqb x float_inf then "inf"
  else if PrimFloat.eqb x (- float_inf)%float then "-inf"
  else float_repr x.

(** [str(v)], which is what an f-string field inserts. *)
Definition str (v : value) : string :=
  match v with
  | VStr s => s
  | VNone => "None"
  | VBool true => "True"
  | VBool false => "False"
  | VInt n => str_of_int n
  | VFloat x => str_of_float x
  | VList _ | VDict _ => container_repr v
  end.

(** *** [json.dumps] with its default options: ASCII output, NaN and the
    infinities allowed, a comma and a colon each followed by a space. *)

Definition hex_digit (n : nat) : ascii :=
  if (n <? 10)%nat then ascii_of_nat (48 + n) else ascii_of_nat (87 + n).

Definition backslash : string := String (ascii_of_nat 92) "".

(** The escape of one code point: the two-character escapes of the quote,
    the backslash, newline, return, tab, form feed and backspace; a
    backslash, [u00] and two hex digits for the other code points outside
    space..tilde; the character itself otherwise. *)
Definition escape_char (c : ascii) : string :=
  let n := nat_of_ascii c in
  if ((n =? 34) || (n =? 92))%nat then backslash ++ String c ""
  else if (n =? 10)%nat then backslash ++ "n"
  else if (n =? 13)%nat then backslash ++ "r"
  else if (n =? 9)%nat then backslash ++ "t"
  else if (n =? 12)%nat then backslash ++ "f"
  else if (n =? 8)%nat then backslash ++ "b"
  else if ((n <? 32) || (126 <? n))%nat then
    backslash ++ "u00" ++ String (hex_digit (n / 16)) (String (hex_digit (n mod 16)) "")
  else String c "".

Fixpoint escape (s : string) : string :=
  match s with
  | EmptyString => ""
  | String c rest => escape_char c ++ escape rest
  end.

Definition quote : string := String (ascii_of_nat 34) "".

Definition encode_str (s : string) : string := quote ++ escape s ++ quote.

Definition encode_float (x : float) : string :=
  if is_nan x then "NaN"
  else if PrimFloat.eqb x float_inf then "Infinity"
  else if PrimFloat.eqb x (- float_inf)%float then "-Infinity"
  else float_repr x.

Fixpoint json_dumps (v : value) : string :=
  match v with
  | VNone => "null"
  | VBool true => "true"
  | VBool false => "false"
  | VInt n => str_of_int n
  | VFloat x => encode_float x
  | VStr s => encode_str s
  | VList items => "[" ++ join ", " (map json_dumps items) ++ "]"
  | VDict entries =>
      "{" ++ join ", " (map (fun kv => encode_str (fst kv) ++ ": " ++ json_dumps (snd kv))
                            entries) ++ "}"
  end.

End WithBuiltins.

(** Sequencing of expressions that may raise. *)
Definition exc_bind {A B : Type} (r : exc A) (k : A -> exc B) : exc B :=
  match r with
  | Ok a => k a
  | Raise e => Raise e
  end.

Declare Scope exc_scope.
Delimit Scope exc_scope with exc.
Notation "x <- e ;; k" := (exc_bind e (fun x => k))
  (at level 61, e at next level, right associativity) : exc_scope.

(** Which exceptions an [except] clause catches: [except Exception] catches
    every exception of the model, [except (A, B)] those of the classes
    named. *)
Definition any_exception (e : exn) : bool := true.

Definition of_classes (classes : list string) (e : exn) : bool :=
  existsb (String.eqb (exn_class e)) classes.

(** [try: body  except <catches> as e: handler] *)
Definition try_except {A : Type} (body : exc A) (catches : exn -> bool)
    (handler : exn -> exc A) : exc A :=
  match body with
  | Ok a => Ok a
  | Raise e => if catches e then handler e else Raise e
  end.

End Py.
Export Py.

(* ================================================================== *)
(** * tools/base.py *)
(* ================================================================== *)

(** Modelled from the spec: [enums.InputType] is imported by the sources but
    its file is not among them; its members are the seven kinds of the
    spec's ToolParameter, under the names the converter's table uses. *)
Inductive InputType : Type :=
| STRING | INTEGER | FLOAT | BOOLEAN | LIST | DICT | ANY.

Definition InputType_eqb (a b : InputType) : bool :=
  match a, b with
  | STRING, STRING | INTEGER, INTEGER | FLOAT, FLOAT | BOOLEAN, BOOLEAN
  | LIST, LIST | DICT, DICT | ANY, ANY => true
  | _, _ => false
  end.

Module ToolInput.
Record t : Type := Build {
  name : string;
  type : InputType;
  description : string;
  required : bool
}.
End ToolInput.

Module Tool.
Record t : Type := Build {
  name : string;
  description : string;
  inputs : list ToolInput.t
}.
End Tool.

(** [BaseTool]: the abstract [__call__], from keyword arguments to a [str],
    is the field [call]. *)
Module BaseTool.
Record t : Type := Build {
  name : string;
  description : string;
  inputs : list ToolInput.t;
  call : dict value -> exc string
}.
End BaseTool.

(* ================================================================== *)
(** * llm_tool_converters/openai.py *)
(* ================================================================== *)

Module Converter.

Definition mapping : list (InputType * string) :=
  [ (STRING, "string");
    (INTEGER, "integer");
    (FLOAT, "number");
    (BOOLEAN, "boolean");
    (LIST, "array");
    (DICT, "object");
    (ANY, "string") ].

(** [mapping.get(input_type, "string")] *)
Definition input_type_to_openai_type (input_type : InputType) : string :=
  match find (fun entry => InputType_eqb input_type (fst entry)) mapping with
  | Some (_, openai_type) => openai_type
  | None => "string"
  end.

(** The body of the inner loop: the [property_data] of one [tool_input]. *)
Definition property_data (tool_input : ToolInput.t) : dict value :=
  let openai_type := input_type_to_openai_type (ToolInput.type tool_input) in
  let property_data :=
    [ ("type", VStr openai_type);
      ("description", VStr (ToolInput.description tool_input)) ] in
  if String.eqb openai_type "object" then
    let property_data := dict_set property_data "additionalProperties" (VBool false) in
    dict_set property_data "properties" (VDict [])
  else if String.eqb openai_type "array" then
    dict_set property_data "items" (VDict [("type", VStr "string")])
  else property_data.

(** [properties[tool_input.name] = property_data] *)
Definition set_property (properties : dict value) (tool_input : ToolInput.t) : dict value :=
  dict_set properties (ToolInput.name tool_input) (VDict (property_data tool_input)).

(** The inner loop, from the empty [properties]. *)
Definition properties_of (inputs : list ToolInput.t) : dict value :=
  fold_left set_property inputs [].

Definition parameters_of (tool : Tool.t) : dict value :=
  let properties := properties_of (Tool.inputs tool) in
  let required_fields := dict_keys properties in
  [ ("type", VStr "object");
    ("properties", VDict properties);
    ("required", VList (map VStr required_fields));
    ("additionalProperties", VBool false) ].

(** The body of the outer loop: the [openai_function] of one [tool]. *)
Definition openai_function (tool : Tool.t) : dict value :=
  let parameters := parameters_of tool in
  [ ("type", VStr "function");
    ("function",
      VDict [ ("name", VStr (Tool.name tool));
              ("description", VStr (Tool.description tool));
              ("parameters", VDict parameters) ]);
    ("name", VStr (Tool.name tool));
    ("description", VStr (Tool.description tool));
    ("parameters", VDict parameters);
    ("strict", VBool true) ].

Definition convert_tools_to_openai (tools : list Tool.t) : list (dict value) :=
  fold_left
    (fun openai_functions tool => openai_functions ++ [openai_function tool])%list
    tools [].

End Converter.

(* ================================================================== *)
(** * tools/*.py and tools/registry.py *)
(* ================================================================== *)

Module Tools.
Section WithBuiltins.
Context {builtins : Builtins}.
#[local] Open Scope exc_scope.

(** The call protocol of [def __call__(self, **kwargs)], which every tool
    shares: the instance is bound to [self], so a keyword argument of that
    name collides with it and the call raises [TypeError] before the body
    runs; every other keyword goes to [kwargs]. *)
Definition bind_kwargs (qualname : string) (kwargs : dict value) : exc (dict value) :=
  match dict_get kwargs "self" with
  | Some _ =>
      Raise (Exception "TypeError"
               (qualname ++ ".__call__() got multiple values for argument 'self'"))
  | None => Ok kwargs
  end.

(** ** tools/calculate_pension.py *)
Definition CalculatePensionTool_call (kwargs : dict value) : exc string :=
  kwargs <- bind_kwargs "CalculatePensionTool" kwargs ;;
  let result :=
    [ ("input", VDict kwargs);
      ("note", VStr "Stub calculate_pension implementation. Replace with real logic.") ] in
  Ok (json_dumps (VDict result)).

Definition calculate_pension_tool : BaseTool.t :=
  {| BaseTool.name := "calculate_pension";
     BaseTool.description :=
       "Calculate pension benefits based on salary, years of service, and retirement age";
     BaseTool.inputs :=
       [ ToolInput.Build "current_salary" FLOAT "Current annual salary in USD" true;
         ToolInput.Build "years_of_service" INTEGER
           "Number of years of service with the company" true;
         ToolInput.Build "retirement_age" INTEGER "Planned retirement age" true;
         ToolInput.Build "pension_plan_type" STRING
           "Type of pension plan (defined_benefit, defined_contribution, hybrid)" false ];
     BaseTool.call := CalculatePensionTool_call |}.

(** ** tools/health_insurance_lookup.py *)
Definition HealthInsuranceLookupTool_call (kwargs : dict value) : exc string :=
  kwargs <- bind_kwargs "HealthInsuranceLookupTool" kwargs ;;
  let result :=
    [ ("input", VDict kwargs);
      ("note", VStr "Stub health_insurance_lookup implementation. Replace with real logic.") ] in
  Ok (json_dumps (VDict result)).

Definition health_insurance_lookup_tool : BaseTool.t :=
  {| BaseTool.name := "health_insurance_lookup";
     BaseTool.description := "Look up health insurance plan details, coverage, and costs";
     BaseTool.inputs :=
       [ ToolInput.Build "plan_id" STRING "Health insurance plan identifier" true;
         ToolInput.Build "employee_tier" STRING
           "Employee tier (individual, family, employee_spouse, employee_children)" true;
         ToolInput.Build "state" STRING "State where the employee is located" false ];
     BaseTool.call := HealthInsuranceLookupTool_call |}.

(** ** tools/pto_balance_lookup.py *)
Definition PtoBalanceLookupTool_call (kwargs : dict value) : exc string :=
  kwargs <- bind_kwargs "PtoBalanceLookupTool" kwargs ;;
  let result :=
    [ ("input", VDict kwargs);
      ("note", VStr "Stub pto_balance_lookup implementation. Replace with real logic.") ] in
  Ok (json_dumps (VDict result)).

Definition pto_balance_tool : BaseTool.t :=
  {| BaseTool.name := "pto_balance_lookup";
     BaseTool.description := "Check paid time off balance and accrual information";
     BaseTool.inputs :=
       [ ToolInput.Build "employee_id" STRING "Employee identification number" true;
         ToolInput.Build "balance_type" STRING
           "Type of PTO balance to check (vacation, sick, personal, total)" false ];
     BaseTool.call := PtoBalanceLookupTool_call |}.

(** ** tools/benefits_enrollment.py *)
Definition BenefitsEnrollmentTool_call (kwargs : dict value) : exc string :=
  kwargs <- bind_kwargs "BenefitsEnrollmentTool" kwargs ;;
  let result :=
    [ ("input", VDict kwargs);
      ("note", VStr "Stub benefits_enrollment implementation. Replace with real logic.") ] in
  Ok (json_dumps (VDict result)).

Definition benefits_enrollment_tool : BaseTool.t :=
  {| BaseTool.name := "benefits_enrollment";
     BaseTool.description :=
       "Help with benefits enrollment during open enrollment or life events";
     BaseTool.inputs :=
       [ ToolInput.Build "employee_id" STRING "Employee identification number" true;
         ToolInput.Build "enrollment_type" STRING
           "Type of enrollment (open_enrollment, new_hire, life_event)" true;
         ToolInput.Build "benefits_selections" DICT
           "Dictionary of benefit selections and choices" true ];
     BaseTool.call := BenefitsEnrollmentTool_call |}.

(** ** tools/fsa_hsa_calculator.py *)

Definition target_ratio : float := 0.8%float.
Definition FSA_CAP : float := 3150%float.
Definition HSA_CAP_INDIVIDUAL : float := 4150%float.

(** [expenses < 0], a float against the [int] zero. *)
Definition negative (expenses : float) : bool :=
  match Py.lt (VFloat expenses) (VInt 0) with
  | Some b => b
  | None => false
  end.

(** The [try] around [float(kwargs.get("expected_medical_expenses", 0))],
    then the guardrail [if expenses < 0: expenses = 0.0]. *)
Definition expenses_of (kwargs : dict value) : exc float :=
  expenses <-
    try_except
      (float_of_value (dict_get_default kwargs "expected_medical_expenses" (VInt 0)))
      (of_classes ["TypeError"; "ValueError"])
      (fun _ => Ok 0%float) ;;
  Ok (if negative expenses then 0%float else expenses).

(** The [if]/[elif] chain that fills [recommendations] and [rationale]. *)
Definition recommend (expenses : float) (account_type : string)
    : exc (dict value * dict value) :=
  let recommendations : dict value := [] in
  let rationale : dict value := [] in
  if String.eqb account_type "fsa" then
    rec <- Py.min (VFloat (expenses * target_ratio)) (VFloat FSA_CAP) ;;
    rounded <- Py.round rec 2 ;;
    let recommendations := dict_set recommendations "fsa" rounded in
    let rationale := dict_set rationale "fsa" (VStr
      "Recommend ~80% of expected expenses up to the FSA cap to reduce forfeiture risk.") in
    Ok (recommendations, rationale)
  else if String.eqb account_type "hsa" then
    rec <- Py.min (VFloat (expenses * target_ratio)) (VFloat HSA_CAP_INDIVIDUAL) ;;
    rounded <- Py.round rec 2 ;;
    let recommendations := dict_set recommendations "hsa" rounded in
    let rationale := dict_set rationale "hsa" (VStr
      "Recommend ~80% of expected expenses up to the HSA cap. Consider catch-up if eligible.") in
    Ok (recommendations, rationale)
  else if String.eqb account_type "both" then
    hsa_target <- Py.min (VFloat (expenses * 0.5)) (VFloat HSA_CAP_INDIVIDUAL) ;;
    difference <- Py.sub (VFloat (expenses * target_ratio)) hsa_target ;;
    remaining <- Py.max difference (VInt 0) ;;
    fsa_target <- Py.min remaining (VFloat FSA_CAP) ;;
    rounded_hsa <- Py.round hsa_target 2 ;;
    rounded_fsa <- Py.round fsa_target 2 ;;
    let recommendations := dict_set recommendations "hsa" rounded_hsa in
    let recommendations := dict_set recommendations "fsa" rounded_fsa in
    let rationale := dict_set rationale "hsa" (VStr
      "Prioritize HSA for tax efficiency and rollover; allocate ~50% of target there first.") in
    let rationale := dict_set rationale "fsa" (VStr
      "Allocate remaining target to FSA up to the cap; avoid exceeding likely expenses.") in
    Ok (recommendations, rationale)
  else
    cap <- Py.max (VFloat FSA_CAP) (VFloat HSA_CAP_INDIVIDUAL) ;;
    neutral <- Py.min (VFloat (expenses * target_ratio)) cap ;;
    rounded <- Py.round neutral 2 ;;
    let recommendations := dict_set recommendations "suggested_contribution" rounded in
    let rationale := dict_set rationale "note" (VStr
      "Unknown account_type; suggested a single neutral target based on expected expenses.") in
    Ok (recommendations, rationale).

(** The [result] dictionary of [FsaHsaCalculatorTool.__call__]. *)
Definition FsaHsaCalculatorTool_result (kwargs : dict value) : exc (dict value) :=
  expenses <- expenses_of kwargs ;;
  let account_type :=
    lower (strip (str (dict_get_default kwargs "account_type" (VStr "")))) in
  let current_age := dict_get_default kwargs "current_age" VNone in
  let retirement_age := dict_get_default kwargs "retirement_age" VNone in
  filled <- recommend expenses account_type ;;
  let '(recommendations, rationale) := filled in
  Ok [ ("input",
          VDict [ ("expected_medical_expenses", VFloat expenses);
                  ("account_type", VStr account_type);
                  ("current_age", current_age);
                  ("retirement_age", retirement_age) ]);
       ("recommendations", VDict recommendations);
       ("assumptions",
          VDict [ ("target_ratio", VFloat target_ratio);
                  ("fsa_cap", VFloat FSA_CAP);
                  ("hsa_cap_individual", VFloat HSA_CAP_INDIVIDUAL) ]);
       ("rationale", VDict rationale);
       ("disclaimer", VStr
          "This is a non-binding illustrative calculation. Consult plan documents and a tax advisor.") ].

Definition FsaHsaCalculatorTool_call (kwargs : dict value) : exc string :=
  kwargs <- bind_kwargs "FsaHsaCalculatorTool" kwargs ;;
  result <- FsaHsaCalculatorTool_result kwargs ;;
  Ok (json_dumps (VDict result)).

Definition fsa_hsa_calculator_tool : BaseTool.t :=
  {| BaseTool.name := "fsa_hsa_calculator";
     BaseTool.description :=
       "Calculate optimal FSA/HSA contributions based on expected medical expenses";
     BaseTool.inputs :=
       [ ToolInput.Build "expected_medical_expenses" FLOAT
           "Expected annual medical expenses in USD" true;
         ToolInput.Build "account_type" STRING "Type of account (FSA, HSA, both)" true;
         ToolInput.Build "current_age" INTEGER "Employee's current age" false;
         ToolInput.Build "retirement_age" INTEGER "Expected retirement age" false ];
     BaseTool.call := FsaHsaCalculatorTool_call |}.

(** ** tools/registry.py *)

(** The dictionary display of [_TOOL_REGISTRY], entry by entry. *)
Definition _TOOL_REGISTRY : dict BaseTool.t :=
  fold_left (fun registry tool => dict_set registry (BaseTool.name tool) tool)
    [ calculate_pension_tool;
      health_insurance_lookup_tool;
      pto_balance_tool;
      benefits_enrollment_tool;
      fsa_hsa_calculator_tool ]
    [].

Definition get_tool (name : string) : option BaseTool.t :=
  dict_get _TOOL_REGISTRY name.

End WithBuiltins.
End Tools.

(* ================================================================== *)
(** * llm_provider_invocations/openai.py *)
(* ================================================================== *)

Module Provider.

(** ** What the SDK hands over

    The objects of a response are read with [getattr] only.  An attribute
    that is missing or [None] is [None] here, except where the source gives
    [getattr] another default ([arguments], [input]). *)

Module ContentPart.
Record t : Type := Build {
  type : option string;
  id : option string;
  name : option string;
  input : option value
}.
End ContentPart.

Module OutputItem.
Record t : Type := Build {
  type : option string;
  name : option string;
  arguments : option value;
  call_id : option string;
  content : list ContentPart.t;
  (** what [json.dumps] writes for the item when the item is of a type the
      encoder knows (a [dict], a [list], a [str], ...); [None] for any
      other object, the SDK's own response models among them *)
  as_json : option value
}.
End OutputItem.

Module Response.
Record t : Type := Build {
  output : list OutputItem.t;
  output_text : value
}.
End Response.

(** An element of the input list: a dictionary built by the caller or by
    the loop, or an output item of the model put back. *)
Inductive InputItem : Type :=
| Entry (d : dict value)
| Item (item : OutputItem.t).

(** [response_kwargs] *)
Module Request.
Record t : Type := Build {
  model : string;
  input : list InputItem;
  tools : option (list (dict value));
  tool_choice : option string
}.
End Request.

(** ** What [invoke_openai] returns *)

Module FunctionCall.
Record t : Type := Build {
  name : option string;
  arguments : value;
  call_id : option string
}.
End FunctionCall.

Module ToolUse.
Record t : Type := Build {
  id : option string;
  name : option string;
  input : value
}.
End ToolUse.

Module Result.
Record t : Type := Build {
  output_items : list OutputItem.t;
  function_calls : list FunctionCall.t;
  tool_uses : list ToolUse.t;
  output_text : value
}.
End Result.

(** What one pass of the loop body ends in: a [return], or the input list
    the next pass starts from. *)
Inductive Step : Type :=
| Return (text : string)
| Continue (loop_input : list InputItem).

Definition opt_str (s : option string) : value :=
  match s with
  | Some s => VStr s
  | None => VNone
  end.

(** [x == s] for a [str] or [None] *)
Definition is_str (x : option string) (s : string) : bool :=
  match x with
  | Some x => String.eqb x s
  | None => false
  end.

(** [if not x] for a [str] or [None] *)
Definition blank (s : option string) : bool :=
  match s with
  | Some s => String.eqb s ""
  | None => true
  end.

Section Loop.

Context {builtins : Builtins}.

(** The provider: [client.responses.create], given [response_kwargs], as a
    state machine over whatever the remote side remembers. *)
Variable Client : Type.
Variable responses_create : Client -> Request.t -> Client * exc Response.t.

(** [os.environ] once [load_dotenv] has run. *)
Variable environ : dict string.

(** [tools.registry.get_tool] *)
Variable get_tool : string -> option BaseTool.t.

(** ** State and exceptions

    The world outside the function: the provider, the requests sent to it
    so far (oldest first), and what was printed. *)
Record World : Type := MkWorld {
  client : Client;
  sent : list Request.t;
  stdout : list string
}.

Definition M (A : Type) : Type := World -> World * exc A.

Definition ret {A : Type} (a : A) : M A := fun w => (w, Ok a).

Definition raise {A : Type} (e : exn) : M A := fun w => (w, Raise e).

Definition bind {A B : Type} (m : M A) (k : A -> M B) : M B :=
  fun w =>
    match m w with
    | (w', Ok a) => k a w'
    | (w', Raise e) => (w', Raise e)
    end.

Definition lift {A : Type} (r : exc A) : M A := fun w => (w, r).

(** [try: body  except <catches> as e: handler]; what the body did to the
    world before it raised stays done. *)
Definition try_catch {A : Type} (body : M A) (catches : exn -> bool)
    (handler : exn -> M A) : M A :=
  fun w =>
    match body w with
    | (w', Ok a) => (w', Ok a)
    | (w', Raise e) => if catches e then handler e w' else (w', Raise e)
    end.

(** [for x in xs: acc = body(acc, x)] *)
Fixpoint for_each {A S : Type} (xs : list A) (acc : S) (body : S -> A -> M S) : M S :=
  match xs with
  | [] => ret acc
  | x :: rest => bind (body acc x) (fun acc' => for_each rest acc' body)
  end.

Declare Scope m_scope.
Delimit Scope m_scope with m.
Notation "x <- e ;; k" := (bind e (fun x => k))
  (at level 61, e at next level, right associativity) : m_scope.
#[local] Open Scope m_scope.

Definition getenv (key : string) : option string := dict_get environ key.

Definition print (line : string) : M unit :=
  fun w => (MkWorld (client w) (sent w) (stdout w ++ [line])%list, Ok tt).

Definition create (response_kwargs : Request.t) : M Response.t :=
  fun w =>
    let '(c, r) := responses_create (client w) response_kwargs in
    (MkWorld c (sent w ++ [response_kwargs])%list (stdout w), r).

Definition missing_key : exn :=
  Exception "ValueError" "OPENAI_API_KEY environment variable is required".

(** ** [invoke_openai] *)

(** The [for item in output_items] loop with its inner
    [for c in contents]. *)
Definition collect (output_items : list OutputItem.t)
    : list FunctionCall.t * list ToolUse.t :=
  fold_left
    (fun '(function_calls, tool_uses) item =>
       let function_calls :=
         if is_str (OutputItem.type item) "function_call" then
           (function_calls ++
            [ {| FunctionCall.name := OutputItem.name item;
                 FunctionCall.arguments :=
                   match OutputItem.arguments item with
                   | Some a => a
                   | None => VStr "{}"
                   end;
                 FunctionCall.call_id := OutputItem.call_id item |} ])%list
         else function_calls in
       let tool_uses :=
         fold_left
           (fun tool_uses c =>
              if is_str (ContentPart.type c) "tool_use" then
                (tool_uses ++
                 [ {| ToolUse.id := ContentPart.id c;
                      ToolUse.name := ContentPart.name c;
                      ToolUse.input :=
                        match ContentPart.input c with
                        | Some i => i
                        | None => VDict []
                        end |} ])%list
              else tool_uses)
           (OutputItem.content item) tool_uses in
       (function_calls, tool_uses))
    output_items ([], []).

(** [response_kwargs]: [tools] and [tool_choice] are set [if tools]. *)
Definition response_kwargs (input_list : list InputItem)
    (tools : option (list (dict value))) (model : string) : Request.t :=
  match tools with
  | Some (_ :: _) => Request.Build model input_list tools (Some "auto")
  | _ => Request.Build model input_list None None
  end.

(** From [output_items = ...] to the [return]: the response parsed for the
    loop controller. *)
Definition parse_response (response : Response.t) : Result.t :=
  let output_items := Response.output response in
  let '(function_calls, tool_uses) := collect output_items in
  {| Result.output_items := output_items;
     Result.function_calls := function_calls;
     Result.tool_uses := tool_uses;
     Result.output_text := Response.output_text response |}.

Definition invoke_openai (input_list : list InputItem)
    (tools : option (list (dict value))) (model : string) : M Result.t :=
  let openai_api_key := getenv "OPENAI_API_KEY" in
  if blank openai_api_key then raise missing_key
  else
    response <- create (response_kwargs input_list tools model) ;;
    ret (parse_response response).

(** ** [invoke_openai_loop] *)

Definition sentinel : string := "Reached max tool iterations without final answer.".

Definition not_serializable : exn :=
  Exception "TypeError" "Object is not JSON serializable".

(** [json.dumps(result)]: the encoder raises [TypeError] at the first object
    it has no encoding for. *)
Fixpoint items_as_json (output_items : list OutputItem.t) : exc (list value) :=
  match output_items with
  | [] => Ok []
  | item :: rest =>
      match OutputItem.as_json item with
      | Some v =>
          match items_as_json rest with
          | Ok vs => Ok (v :: vs)
          | Raise e => Raise e
          end
      | None => Raise not_serializable
      end
  end.

Definition function_call_dict (fc : FunctionCall.t) : value :=
  VDict [ ("name", opt_str (FunctionCall.name fc));
          ("arguments", FunctionCall.arguments fc);
          ("call_id", opt_str (FunctionCall.call_id fc)) ].

Definition tool_use_dict (tu : ToolUse.t) : value :=
  VDict [ ("id", opt_str (ToolUse.id tu));
          ("name", opt_str (ToolUse.name tu));
          ("input", ToolUse.input tu) ].

Definition dumps_result (result : Result.t) : exc string :=
  match items_as_json (Result.output_items result) with
  | Ok items =>
      Ok (json_dumps
            (VDict [ ("output_items", VList items);
                     ("function_calls",
                        VList (map function_call_dict (Result.function_calls result)));
                     ("tool_uses", VList (map tool_use_dict (Result.tool_uses result)));
                     ("output_text", Result.output_text result) ]))
  | Raise e => Raise e
  end.

(** The branch taken when there are neither function calls nor tool uses. *)
Definition final_answer (result : Result.t) : exc string :=
  match Result.output_text result with
  | VStr output_text =>
      if negb (String.eqb (strip output_text) "") then Ok output_text
      else dumps_result result
  | _ => dumps_result result
  end.

(** [json.loads(args_json) if isinstance(args_json, str) else (args_json or {})]
    inside its [try], with [parsed_args = {}] in the handler. *)
Definition parse_arguments (args_json : value) : exc value :=
  try_except
    (match args_json with
     | VStr s => json_loads s
     | _ => Ok (if truthy args_json then args_json else VDict [])
     end)
    any_exception
    (fun _ => Ok (VDict [])).

(** The call of [tool_impl] on [parsed_args] unpacked into keyword
    arguments: only a mapping can be unpacked. *)
Definition call_tool (tool_impl : BaseTool.t) (parsed_args : value) : exc string :=
  match parsed_args with
  | VDict kwargs => BaseTool.call tool_impl kwargs
  | _ => Raise (Exception "TypeError" "argument after ** must be a mapping")
  end.

Definition error_payload (e : exn) (parsed_args : value) : value :=
  VDict [ ("error", VStr ("Tool execution failed: " ++ exn_str e));
          ("input", parsed_args) ].

Definition placeholder (name : option string) (args_json : value) : value :=
  VDict [ ("result",
           VStr ("Function '" ++ str (opt_str name) ++ "' called with args "
                 ++ str args_json ++ ". Implementation needed.")) ].

(** The statements between [executed = False] and [if not executed]: the
    payload set by the [try] or by its handler, [None] while [executed] is
    still false. *)
Definition execute (name : option string) (parsed_args : value) : M (option value) :=
  if negb (blank name) then
    match get_tool (match name with Some n => n | None => "" end) with
    | Some tool_impl =>
        try_catch
          (output_str <- lift (call_tool tool_impl parsed_args) ;;
           _ <- print output_str ;;
           result_payload <- lift (json_loads output_str) ;;
           ret (Some result_payload))
          any_exception
          (fun e => ret (Some (error_payload e parsed_args)))
    | None => ret None
    end
  else ret None.

(** The dictionary a function call is answered with. *)
Definition output_entry (call_id : option string) (result_payload : value) : dict value :=
  [ ("type", VStr "function_call_output");
    ("call_id", opt_str call_id);
    ("output", VStr (json_dumps result_payload)) ].

(** The body of [for fc in function_calls]: the dictionary appended. *)
Definition function_call_output (fc : FunctionCall.t) : M (dict value) :=
  let name := FunctionCall.name fc in
  let args_json := FunctionCall.arguments fc in
  parsed_args <- lift (parse_arguments args_json) ;;
  executed <- execute name parsed_args ;;
  let result_payload :=
    match executed with
    | Some result_payload => result_payload
    | None => placeholder name args_json
    end in
  ret (output_entry (FunctionCall.call_id fc) result_payload).

(** The body of [for tu in tool_uses]: the dictionary appended. *)
Definition tool_result (tu : ToolUse.t) : dict value :=
  let name := ToolUse.name tu in
  let args := ToolUse.input tu in
  let tool_output :=
    VDict [ ("result",
             VStr ("Tool '" ++ str (opt_str name) ++ "' called with args "
                   ++ str args ++ ". Implementation needed.")) ] in
  [ ("type", VStr "tool_result");
    ("tool_use_id", opt_str (ToolUse.id tu));
    ("content", VStr (json_dumps tool_output)) ].

(** What links a result entry to its request: its type, and the identifier
    it carries under [call_id] or [tool_use_id]. *)
Definition correlation (entry : dict value) : option value * option value :=
  (dict_get entry "type",
   match dict_get entry "call_id" with
   | Some id => Some id
   | None => dict_get entry "tool_use_id"
   end).

(** [loop_input.append(...)] at the end of the two inner loops. *)
Definition append_function_call_output (loop_input : list InputItem)
    (fc : FunctionCall.t) : M (list InputItem) :=
  entry <- function_call_output fc ;;
  ret (loop_input ++ [Entry entry])%list.

Definition append_tool_result (loop_input : list InputItem) (tu : ToolUse.t)
    : M (list InputItem) :=
  ret (loop_input ++ [Entry (tool_result tu)])%list.

(** [if output_items: loop_input += output_items] *)
Definition extend (loop_input : list InputItem) (output_items : list OutputItem.t)
    : list InputItem :=
  match output_items with
  | [] => loop_input
  | _ => (loop_input ++ map Item output_items)%list
  end.

(** How many tool invocations a parsed response asks for. *)
Definition requested (result : Result.t) : nat :=
  (List.length (Result.function_calls result)
   + List.length (Result.tool_uses result))%nat.

(** One pass of the body of [for _ in range(max_iterations)]. *)
Definition iteration (tools : option (list (dict value))) (model : string)
    (loop_input : list InputItem) : M Step :=
  result <- invoke_openai loop_input tools model ;;
  let output_items := Result.output_items result in
  let loop_input := extend loop_input output_items in
  let function_calls := Result.function_calls result in
  let tool_uses := Result.tool_uses result in
  match function_calls, tool_uses with
  | [], [] =>
      text <- lift (final_answer result) ;;
      ret (Return text)
  | _, _ =>
      loop_input <- for_each function_calls loop_input append_function_call_output ;;
      loop_input <- for_each tool_uses loop_input append_tool_result ;;
      ret (Continue loop_input)
  end.

(** The [for] loop, on the passes that are left, and the [return] after
    it. *)
Fixpoint iterate (passes : nat) (tools : option (list (dict value))) (model : string)
    (loop_input : list InputItem) : M string :=
  match passes with
  | O => ret sentinel
  | S passes' =>
      step <- iteration tools model loop_input ;;
      match step with
      | Return text => ret text
      | Continue loop_input' => iterate passes' tools model loop_input'
      end
  end.

(** [range(max_iterations)] has [max(max_iterations, 0)] elements. *)
Definition invoke_openai_loop (input_list : list InputItem)
    (tools : option (list (dict value))) (model : string) (max_iterations : Z)
    : M string :=
  let openai_api_key := getenv "OPENAI_API_KEY" in
  if blank openai_api_key then raise missing_key
  else
    let loop_input := input_list in
    iterate (Z.to_nat max_iterations) tools model loop_input.

End Loop.

(** The defaults of the signature. *)
Definition default_model : string := "gpt-4".
Definition default_max_iterations : Z := 5.

Arguments MkWorld {Client} client sent stdout.
Arguments client {Client} w.
Arguments sent {Client} w.
Arguments stdout {Client} w.
Arguments ret {Client A} a w.
Arguments raise {Client A} e w.
Arguments bind {Client A B} m k w.
Arguments lift {Client A} r w.
Arguments try_catch {Client A} body catches handler w.
Arguments for_each {Client A S} xs acc body w.
Arguments print {Client} line w.
Arguments create {Client} responses_create response_kwargs w.
Arguments invoke_openai {Client} responses_create environ input_list tools model w.
Arguments execute {builtins Client} get_tool name parsed_args w.
Arguments function_call_output {builtins Client} get_tool fc w.
Arguments append_function_call_output {builtins Client} get_tool loop_input fc w.
Arguments append_tool_result {builtins Client} loop_input tu w.
Arguments iteration {builtins Client} responses_create environ get_tool tools model
  loop_input w.
Arguments iterate {builtins Client} responses_create environ get_tool passes tools model
  loop_input w.
Arguments invoke_openai_loop {builtins Client} responses_create environ get_tool
  input_list tools model max_iterations w.

End Provider.

(* ================================================================== *)
(** * schemas.py, agents/*.py and the agent definitions of main.py *)
(* ================================================================== *)

(** [schemas.Agent] *)
Module Agent.
Record t : Type := Build {
  system_prompt : string;
  name : string;
  tools : list BaseTool.t;
  llm_provider : string;
  model : string
}.
End Agent.

(** [schemas.AgentDefinition] *)
Module AgentDefinition.
Record t : Type := Build {
  name : string;
  system_prompt : string;
  tools : list Tool.t;
  llm_provider : string;
  model : string
}.
End AgentDefinition.

Module Agents.
Section WithBuiltins.
Context {builtins : Builtins}.

(** ** agents/benefits.py *)
Definition benefits_agent : Agent.t :=
  {| Agent.system_prompt := "You are a knowledgeable and helpful Employee Benefits Assistant. Your role is to help employees understand, navigate, and optimize their benefits package.

Key responsibilities:
- Answer questions about health insurance, dental, vision, and other benefit plans
- Help calculate retirement benefits and pension projections
- Assist with benefits enrollment and life event changes  
- Explain complex benefits terminology in simple terms
- Provide guidance on FSA/HSA contributions and usage
- Help employees understand PTO policies and balances
- Offer personalized recommendations based on individual circumstances

Guidelines:
- Always be accurate and reference official policy documents when available
- If you're unsure about specific policy details, direct employees to HR or benefits administrators
- Consider the employee's individual situation when making recommendations
- Explain calculations and reasoning behind benefit recommendations
- Be empathetic to employees who may be dealing with stressful life events
- Protect employee privacy and handle all information confidentially
- Stay current with benefit plan changes and enrollment deadlines

Communication style:
- Use clear, jargon-free language
- Be patient and thorough in explanations  
- Provide actionable next steps
- Offer to connect employees with additional resources when needed";
     Agent.name := "Benefits Assistant";
     Agent.llm_provider := "OPENAI";
     Agent.model := "gpt-4";
     Agent.tools :=
       [ Tools.calculate_pension_tool;
         Tools.health_insurance_lookup_tool;
         Tools.pto_balance_tool;
         Tools.benefits_enrollment_tool;
         Tools.fsa_hsa_calculator_tool ] |}.

(** ** agents/registry.py *)

(** [AvailableAgents.BENEFITS.value] is the one key. *)
Definition AGENT_REGISTRY : dict Agent.t :=
  dict_set [] "benefits" benefits_agent.

Definition get_agent (agent_name : string) : exc Agent.t :=
  match dict_get AGENT_REGISTRY agent_name with
  | None =>
      Raise (Exception "ValueError"
               ("Agent '" ++ agent_name ++ "' not found. Available agents: "
                ++ str (VList (map VStr (dict_keys AGENT_REGISTRY)))))
  | Some agent => Ok agent
  end.

(** [[get_agent(name) for name in agent_names]]: the names are looked up
    from left to right and the first failure ends the comprehension. *)
Fixpoint get_agents (agent_names : list string) : exc (list Agent.t) :=
  match agent_names with
  | [] => Ok []
  | name :: rest =>
      match get_agent name with
      | Raise e => Raise e
      | Ok agent =>
          match get_agents rest with
          | Raise e => Raise e
          | Ok agents => Ok (agent :: agents)
          end
      end
  end.

(** ** main.py: the [AgentDefinition] that [call_agent] builds from an
    [Agent], its tools reduced to name, description and inputs. *)
Definition definition_of (agent : Agent.t) : AgentDefinition.t :=
  {| AgentDefinition.name := Agent.name agent;
     AgentDefinition.system_prompt := Agent.system_prompt agent;
     AgentDefinition.tools :=
       map (fun tool =>
              Tool.Build (BaseTool.name tool) (BaseTool.description tool)
                (BaseTool.inputs tool))
           (Agent.tools agent);
     AgentDefinition.llm_provider := Agent.llm_provider agent;
     AgentDefinition.model := Agent.model agent |}.

End WithBuiltins.
End Agents.

(* ================================================================== *)
(** * tool_converter.py *)
(* ================================================================== *)

(** Modelled from the spec: [enums.LLMProvider] is imported by the sources
    but its file is not among them; its members are the three providers the
    sources name, one implemented and two declared. *)
Inductive LLMProvider : Type :=
| OPENAI | ANTHROPIC | GEMINI.

Module ToolConverter.

(** The last [else] of the source, for a provider that is none of the
    three, has no member of the enumeration to reach it. *)
Definition convert_tools (tools : list Tool.t) (target_provider : LLMProvider)
    : exc (list (dict value)) :=
  match target_provider with
  | OPENAI => Ok (Converter.convert_tools_to_openai tools)
  | ANTHROPIC =>
      Raise (Exception "NotImplementedError"
               "Anthropic tool conversion not yet implemented")
  | GEMINI =>
      Raise (Exception "NotImplementedError"
               "Gemini tool conversion not yet implemented")
  end.

End ToolConverter.

(* ================================================================== *)
(** * temporal/activities/invoke_agent.py *)
(* ================================================================== *)

Module Activities.
Import Provider.

Section Activity.

Context {builtins : Builtins}.
Variable Client : Type.
Variable responses_create : Client -> Request.t -> Client * exc Response.t.
Variable environ : dict string.
Variable get_tool : string -> option BaseTool.t.

(** The tables of [enums.py], which is not among the sources: the value of
    each provider, in the order of the enumeration, and the values of the
    three enumerations of models. *)
Variable LLMProvider_values : list (string * LLMProvider).
Variable OpenAIModel_values : list string.
Variable AnthropicModel_values : list string.
Variable GeminiModel_values : list string.

Declare Scope activity_scope.
Notation "x <- e ;; k" := (bind e (fun x => k))
  (at level 61, e at next level, right associativity) : activity_scope.
#[local] Open Scope activity_scope.

(** [LLMProvider(value)]: the first member with that value. *)
Definition provider_of_value (value : string) : option LLMProvider :=
  dict_get LLMProvider_values value.

(** [name in values] *)
Definition member (name : string) (values : list string) : bool :=
  existsb (String.eqb name) values.

(** The [try] around [LLMProvider(agent.llm_provider)] with its handler,
    which raises a [ValueError] of its own. *)
Definition parse_provider (agent : AgentDefinition.t) : exc LLMProvider :=
  match provider_of_value (AgentDefinition.llm_provider agent) with
  | Some provider_enum => Ok provider_enum
  | None =>
      Raise (Exception "ValueError"
               ("Invalid llm_provider '" ++ AgentDefinition.llm_provider agent
                ++ "'. Must be one of "
                ++ str (VList (map (fun entry => VStr (fst entry)) LLMProvider_values))))
  end.

(** [tools = None], then [convert_tools] when the agent has tools. *)
Definition provider_tools (agent : AgentDefinition.t) (provider_enum : LLMProvider)
    : exc (option (list (dict value))) :=
  match AgentDefinition.tools agent with
  | [] => Ok None
  | tools =>
      match ToolConverter.convert_tools tools provider_enum with
      | Ok converted => Ok (Some converted)
      | Raise e => Raise e
      end
  end.

(** The [content] of the user message: the text, then one part per file. *)
Definition user_content (request_text : string) (request_files : option (list string))
    : list value :=
  let content := [ VDict [ ("type", VStr "input_text"); ("text", VStr request_text) ] ] in
  match request_files with
  | Some ((_ :: _) as files) =>
      fold_left
        (fun content file_url =>
           content ++ [ VDict [ ("type", VStr "input_file"); ("file_url", VStr file_url) ] ])%list
        files content
  | _ => content
  end.

(** [input_list], as built in the OpenAI branch. *)
Definition build_input_list (system_prompt : string) (request_text : string)
    (request_files : option (list string)) : list InputItem :=
  let input_list : list InputItem := [] in
  let input_list :=
    if negb (String.eqb system_prompt "") then
      (input_list ++ [ Entry [ ("role", VStr "system"); ("content", VStr system_prompt) ] ])%list
    else input_list in
  (input_list
   ++ [ Entry [ ("role", VStr "user");
                ("content", VList (user_content request_text request_files)) ] ])%list.

Definition unsupported_model (family model_name : string) (valid_models : list string) : exn :=
  Exception "ValueError"
    ("Unsupported " ++ family ++ " model: " ++ model_name ++ ". Supported models: "
     ++ str (VList (map VStr valid_models))).

(** The activity.  It is a coroutine that awaits nothing: its body runs
    from the first statement to the [return] or the [raise]. *)
Definition invoke_agent (request_text : string) (request_files : option (list string))
    (agent : option AgentDefinition.t) : M Client string :=
  match agent with
  | None => raise (Exception "ValueError" "Agent must be provided")
  | Some agent =>
      provider_enum <- lift (parse_provider agent) ;;
      let system_prompt := AgentDefinition.system_prompt agent in
      tools <- lift (provider_tools agent provider_enum) ;;
      let model_name := AgentDefinition.model agent in
      match provider_enum with
      | OPENAI =>
          if negb (member model_name OpenAIModel_values) then
            raise (unsupported_model "OpenAI" model_name OpenAIModel_values)
          else
            invoke_openai_loop responses_create environ get_tool
              (build_input_list system_prompt request_text request_files)
              tools model_name default_max_iterations
      | ANTHROPIC =>
          if negb (member model_name AnthropicModel_values) then
            raise (unsupported_model "Anthropic" model_name AnthropicModel_values)
          else
            raise (Exception "NotImplementedError" "Anthropic provider not yet implemented")
      | GEMINI =>
          if negb (member model_name GeminiModel_values) then
            raise (unsupported_model "Gemini" model_name GeminiModel_values)
          else
            raise (Exception "NotImplementedError" "Gemini provider not yet implemented")
      end
  end.

End Activity.

Arguments invoke_agent {builtins Client} responses_create environ get_tool
  LLMProvider_values OpenAIModel_values AnthropicModel_values GeminiModel_values
  request_text request_files agent w.

End Activities.

(* ================================================================== *)
(** * An instance of the builtins, and provider stubs

    What follows lets the definitions above run on examples.  The decoder
    and the printers cover a fragment of what Python does: every theorem
    below is stated for arbitrary [Builtins] and an arbitrary provider. *)
(* ================================================================== *)

Module Sample.

Definition is_char (c : ascii) (n : nat) : bool := (nat_of_ascii c =? n)%nat.

Definition json_space (c : ascii) : bool :=
  is_char c 32 || is_char c 9 || is_char c 10 || is_char c 13.

Fixpoint skip_ws (s : string) : string :=
  match s with
  | String c rest => if json_space c then skip_ws rest else s
  | EmptyString => EmptyString
  end.

Definition digit (c : ascii) : option Z :=
  let n := nat_of_ascii c in
  if ((48 <=? n) && (n <=? 57))%nat then Some (Z.of_nat (n - 48)) else None.

Fixpoint digits (s : string) (acc : Z) : Z * string :=
  match s with
  | String c rest =>
      match digit c with
      | Some d => digits rest (10 * acc + d)%Z
      | None => (acc, s)
      end
  | EmptyString => (acc, s)
  end.

(** [s] without [prefix], when it starts with it. *)
Fixpoint after (prefix s : string) : option string :=
  match prefix, s with
  | EmptyString, _ => Some s
  | String p prefix', String c rest => if Ascii.eqb p c then after prefix' rest else None
  | String _ _, EmptyString => None
  end.

(** A string, from after its opening quote: no control characters, the
    two-character escapes, no [u] escape. *)
Fixpoint string_body (s : string) : option (string * string) :=
  match s with
  | EmptyString => None
  | String c rest =>
      if is_char c 34 then Some ("", rest)
      else if is_char c 92 then
        match rest with
        | String e rest' =>
            let decoded :=
              if is_char e 34 || is_char e 92 || is_char e 47 then Some e
              else if is_char e 110 then Some (ascii_of_nat 10)
              else if is_char e 114 then Some (ascii_of_nat 13)
              else if is_char e 116 then Some (ascii_of_nat 9)
              else if is_char e 98 then Some (ascii_of_nat 8)
              else if is_char e 102 then Some (ascii_of_nat 12)
              else None in
            match decoded, string_body rest' with
            | Some d, Some (body, rest'') => Some (String d body, rest'')
            | _, _ => None
            end
        | EmptyString => None
        end
      else if (nat_of_ascii c <? 32)%nat then None
      else
        match string_body rest with
        | Some (body, rest') => Some (String c body, rest')
        | None => None
        end
  end.

(** An integer; a fraction or an exponent after it is outside the
    fragment. *)
Definition number (s : string) : option (value * string) :=
  let '(negated, s') :=
    match s with
    | String c rest => if is_char c 45 then (true, rest) else (false, s)
    | EmptyString => (false, s)
    end in
  match s' with
  | String c rest =>
      match digit c with
      | Some d =>
          let '(n, rest') := if (d =? 0)%Z then (0%Z, rest) else digits s' 0%Z in
          let stops :=
            match rest' with
            | String c' _ =>
                match digit c' with
                | Some _ => false
                | None => negb (is_char c' 46 || is_char c' 101 || is_char c' 69)
                end
            | EmptyString => true
            end in
          if stops then Some (VInt (if negated then - n else n)%Z, rest') else None
      | None => None
      end
  | EmptyString => None
  end.

Definition literals : list (string * value) :=
  [ ("null", VNone); ("true", VBool true); ("false", VBool false);
    ("NaN", VFloat float_nan); ("Infinity", VFloat float_inf);
    ("-Infinity", VFloat (- float_inf)%float) ].

Fixpoint literal (table : list (string * value)) (s : string) : option (value * string) :=
  match table with
  | [] => None
  | (word, v) :: table' =>
      match after word s with
      | Some rest => Some (v, rest)
      | None => literal table' s
      end
  end.

Fixpoint element (fuel : nat) (s : string) : option (value * string) :=
  match fuel with
  | O => None
  | S fuel' =>
      match skip_ws s with
      | String c rest =>
          if is_char c 123 then
            match skip_ws rest with
            | String c' rest' =>
                if is_char c' 125 then Some (VDict [], rest')
                else members fuel' (String c' rest') []
            | EmptyString => None
            end
          else if is_char c 91 then
            match skip_ws rest with
            | String c' rest' =>
                if is_char c' 93 then Some (VList [], rest')
                else elements fuel' (String c' rest') []
            | EmptyString => None
            end
          else if is_char c 34 then
            match string_body rest with
            | Some (body, rest') => Some (VStr body, rest')
            | None => None
            end
          else
            match literal literals (String c rest) with
            | Some found => Some found
            | None => number (String c rest)
            end
      | EmptyString => None
      end
  end
with members (fuel : nat) (s : string) (acc : dict value) : option (value * string) :=
  match fuel with
  | O => None
  | S fuel' =>
      match skip_ws s with
      | String c rest =>
          if is_char c 34 then
            match string_body rest with
            | Some (key, rest') =>
                match skip_ws rest' with
                | String colon rest'' =>
                    if is_char colon 58 then
                      match element fuel' rest'' with
                      | Some (v, rest3) =>
                          match skip_ws rest3 with
                          | String sep rest4 =>
                              if is_char sep 44 then members fuel' rest4 (dict_set acc key v)
                              else if is_char sep 125 then
                                Some (VDict (dict_set acc key v), rest4)
                              else None
                          | EmptyString => None
                          end
                      | None => None
                      end
                    else None
                | EmptyString => None
                end
            | None => None
            end
          else None
      | EmptyString => None
      end
  end
with elements (fuel : nat) (s : string) (acc : list value) : option (value * string) :=
  match fuel with
  | O => None
  | S fuel' =>
      match element fuel' s with
      | Some (v, rest) =>
          match skip_ws rest with
          | String sep rest' =>
              if is_char sep 44 then elements fuel' rest' (acc ++ [v])%list
              else if is_char sep 93 then Some (VList (acc ++ [v])%list, rest')
              else None
          | EmptyString => None
          end
      | None => None
      end
  end.

Definition json_loads (s : string) : exc value :=
  match element (S (String.length s)) s with
  | Some (v, rest) =>
      match skip_ws rest with
      | EmptyString => Ok v
      | _ => Raise (Exception "JSONDecodeError" "Extra data")
      end
  | None => Raise (Exception "JSONDecodeError" "Expecting value")
  end.

(** A finite float in full: its exact decimal expansion, with at least one
    digit after the point. *)
Fixpoint pad_zeros (width : nat) (s : string) : string :=
  match width with
  | O => s
  | S width' => if (String.length s <? width)%nat then pad_zeros width' ("0" ++ s) else s
  end.

Fixpoint drop_trailing_zeros (s : string) : string :=
  match s with
  | EmptyString => EmptyString
  | String c rest =>
      match drop_trailing_zeros rest with
      | EmptyString => if is_char c 48 then EmptyString else String c EmptyString
      | kept => String c kept
      end
  end.

Definition float_repr (x : float) : string :=
  match Prim2SF x with
  | S754_finite s m e =>
      let sign := if s then "-" else "" in
      if (0 <=? e)%Z then sign ++ str_of_int (Zpos m * 2 ^ e) ++ ".0"
      else
        let places := Z.to_nat (- e) in
        let scaled := (Zpos m * 5 ^ (- e))%Z in
        let unit := (10 ^ (- e))%Z in
        let fraction :=
          drop_trailing_zeros (pad_zeros places (str_of_int (scaled mod unit))) in
        sign ++ str_of_int (scaled / unit) ++ "."
        ++ (if String.eqb fraction "" then "0" else fraction)
  | S754_zero s => if s then "-0.0" else "0.0"
  | _ => "nan"
  end.

(** [float] of a [str]: an optionally signed run of digits, or [nan], [inf]
    and [infinity] in any case, with blanks around. *)
Definition float_of_str (s : string) : option float :=
  let s := lower (strip s) in
  let '(negated, body) :=
    match s with
    | String c rest =>
        if is_char c 45 then (true, rest)
        else if is_char c 43 then (false, rest) else (false, s)
    | EmptyString => (false, s)
    end in
  let signed (x : float) := if negated then (- x)%float else x in
  if String.eqb body "nan" then Some (signed float_nan)
  else if String.eqb body "inf" || String.eqb body "infinity" then Some (signed float_inf)
  else
    match body with
    | EmptyString => None
    | _ =>
        match digits body 0%Z with
        | (n, EmptyString) =>
            match float_of_int n with
            | Ok x => Some (signed x)
            | Raise _ => Some (signed float_inf)
            end
        | _ => None
        end
    end.

(** [repr] of a [list] or a [dict] whose strings need no escaping. *)
Fixpoint repr (builtins : Builtins) (v : value) : string :=
  match v with
  | VStr s => "'" ++ s ++ "'"
  | VList items => "[" ++ join ", " (map (repr builtins) items) ++ "]"
  | VDict entries =>
      "{" ++ join ", " (map (fun kv => "'" ++ fst kv ++ "': " ++ repr builtins (snd kv))
                            entries) ++ "}"
  | _ => @str builtins v
  end.

Definition scalars : Builtins :=
  {| Py.json_loads := json_loads;
     Py.float_repr := float_repr;
     Py.float_of_str := float_of_str;
     Py.container_repr := fun _ => "" |}.

#[export] Instance builtins : Builtins :=
  {| Py.json_loads := json_loads;
     Py.float_repr := float_repr;
     Py.float_of_str := float_of_str;
     Py.container_repr := repr scalars |}.

(** ** Provider stubs *)

(** A provider that answers from a script, one response per call. *)
Definition scripted (script : list Provider.Response.t) (request : Provider.Request.t)
    : list Provider.Response.t * exc Provider.Response.t :=
  match script with
  | response :: rest => (rest, Ok response)
  | [] => ([], Raise (Exception "APIConnectionError" "Connection error."))
  end.

(** A provider that gives the same response to every call. *)
Definition always (response : Provider.Response.t) (state : unit)
    (request : Provider.Request.t) : unit * exc Provider.Response.t :=
  (state, Ok response).

Definition environ : dict string := [("OPENAI_API_KEY", "sk-test")].

(** ** Sample data *)

(** The FSA/HSA calculator as [main.py] hands it to the workflow: two of
    its four parameters are declared optional. *)
Definition fsa_hsa_tool : Tool.t :=
  let tool := @Tools.fsa_hsa_calculator_tool builtins in
  Tool.Build (BaseTool.name tool) (BaseTool.description tool) (BaseTool.inputs tool).

(** The registry of [tools/registry.py]. *)
Definition get_tool : string -> option BaseTool.t := @Tools.get_tool builtins.

(** Nothing sent, nothing printed. *)
Definition fresh {Client : Type} (c : Client) : Provider.World Client :=
  Provider.MkWorld c [] [].

Definition user_input : list Provider.InputItem :=
  [ Provider.Entry [ ("role", VStr "system"); ("content", VStr "You are a Benefits Assistant.") ];
    Provider.Entry
      [ ("role", VStr "user");
        ("content",
           VList [ VDict [ ("type", VStr "input_text");
                           ("text", VStr "What will my pension be?") ] ]) ] ].

Definition function_call_item (name arguments call_id : string) : Provider.OutputItem.t :=
  {| Provider.OutputItem.type := Some "function_call";
     Provider.OutputItem.name := Some name;
     Provider.OutputItem.arguments := Some (VStr arguments);
     Provider.OutputItem.call_id := Some call_id;
     Provider.OutputItem.content := [];
     Provider.OutputItem.as_json := None |}.

Definition message_item (parts : list Provider.ContentPart.t) : Provider.OutputItem.t :=
  {| Provider.OutputItem.type := Some "message";
     Provider.OutputItem.name := None;
     Provider.OutputItem.arguments := None;
     Provider.OutputItem.call_id := None;
     Provider.OutputItem.content := parts;
     Provider.OutputItem.as_json := None |}.

Definition text_part : Provider.ContentPart.t :=
  Provider.ContentPart.Build (Some "output_text") None None None.

Definition tool_use_part (id name : string) (input : value) : Provider.ContentPart.t :=
  Provider.ContentPart.Build (Some "tool_use") (Some id) (Some name) (Some input).

Definition pension_arguments : value :=
  VDict [ ("current_salary", VInt 90000);
          ("years_of_service", VInt 10);
          ("retirement_age", VInt 65) ].

(** The scenario of the spec: one request for [calculate_pension], then the
    final text. *)
Definition pension_request : Provider.Response.t :=
  {| Provider.Response.output :=
       [ function_call_item "calculate_pension" (json_dumps pension_arguments) "call_1" ];
     Provider.Response.output_text := VNone |}.

Definition pension_answer : Provider.Response.t :=
  {| Provider.Response.output := [ message_item [text_part] ];
     Provider.Response.output_text := VStr "Your projected pension is ..." |}.

(** A function call, then a message that holds a tool use, then a function
    call with malformed arguments for a tool that does not exist. *)
Definition mixed_requests : Provider.Response.t :=
  {| Provider.Response.output :=
       [ function_call_item "calculate_pension" (json_dumps pension_arguments) "call_1";
         message_item
           [ text_part;
             tool_use_part "tu_1" "calculate_pension" pension_arguments ];
         function_call_item "no_such_tool" "{invalid" "call_2" ];
     Provider.Response.output_text := VNone |}.

(** No tool request and a text of one space. *)
Definition blank_answer : Provider.Response.t :=
  {| Provider.Response.output := [];
     Provider.Response.output_text := VStr " " |}.

Fixpoint zeros (n : nat) : string :=
  match n with
  | O => ""
  | S n' => "0" ++ zeros n'
  end.

(** Expenses of 10^400, which no double holds. *)
Definition huge_expenses : Provider.FunctionCall.t :=
  {| Provider.FunctionCall.name := Some "fsa_hsa_calculator";
     Provider.FunctionCall.arguments :=
       VStr ("{" ++ quote ++ "expected_medical_expenses" ++ quote ++ ": 1" ++ zeros 400 ++ "}");
     Provider.FunctionCall.call_id := Some "call_9" |}.



(** Tables for the enumerations of [enums.py], which is not among the
    sources: each provider under its own name, and a few model names. *)
Definition LLMProvider_values : list (string * LLMProvider) :=
  [ ("OPENAI", OPENAI); ("ANTHROPIC", ANTHROPIC); ("GEMINI", GEMINI) ].
Definition OpenAIModel_values : list string := [ "gpt-4"; "gpt-4o" ].
Definition AnthropicModel_values : list string := [ "claude-3-opus" ].
Definition GeminiModel_values : list string := [ "gemini-pro" ].

(** A tool that answers in plain text, and a registry that holds it. *)
Definition plain_tool : BaseTool.t :=
  {| BaseTool.name := "plain";
     BaseTool.description := "Answers in plain text";
     BaseTool.inputs := [];
     BaseTool.call := fun _ => Ok "done" |}.

Definition plain_registry (name : string) : option BaseTool.t :=
  if String.eqb name "plain" then Some plain_tool else None.

(** A call of the tool that answers in plain text. *)
Definition plain_call : Provider.FunctionCall.t :=
  {| Provider.FunctionCall.name := Some "plain";
     Provider.FunctionCall.arguments := VStr "{}";
     Provider.FunctionCall.call_id := Some "call_5" |}.

(** A call of [calculate_pension] whose arguments are a JSON array. *)
Definition array_arguments : Provider.FunctionCall.t :=
  {| Provider.FunctionCall.name := Some "calculate_pension";
     Provider.FunctionCall.arguments := VStr "[1, 2]";
     Provider.FunctionCall.call_id := Some "call_6" |}.

(** The enrollment tool as [main.py] hands it to the workflow: the one tool
    of the registry with a map-kind parameter. *)
Definition enrollment_tool : Tool.t :=
  let tool := @Tools.benefits_enrollment_tool builtins in
  Tool.Build (BaseTool.name tool) (BaseTool.description tool) (BaseTool.inputs tool).

(** A tool that declares the name [plan] twice, and a list-kind parameter. *)
Definition repeating_tool : Tool.t :=
  Tool.Build "plan_lookup" "Look up a plan"
    [ ToolInput.Build "plan" STRING "Plan identifier" true;
      ToolInput.Build "plan" DICT "Plan details" false;
      ToolInput.Build "states" LIST "States to search" false ].

(** The benefits agent as [main.py] hands it to the workflow. *)
Definition benefits_definition : AgentDefinition.t :=
  Agents.definition_of Agents.benefits_agent.

(** The same agent on a provider that is declared only, with a model that
    provider does not have. *)
Definition anthropic_definition : AgentDefinition.t :=
  {| AgentDefinition.name := AgentDefinition.name benefits_definition;
     AgentDefinition.system_prompt := AgentDefinition.system_prompt benefits_definition;
     AgentDefinition.tools := AgentDefinition.tools benefits_definition;
     AgentDefinition.llm_provider := "ANTHROPIC";
     AgentDefinition.model := "gpt-4" |}.

(** The benefits agent with a model that is no OpenAI model. *)
Definition unknown_model_definition : AgentDefinition.t :=
  {| AgentDefinition.name := AgentDefinition.name benefits_definition;
     AgentDefinition.system_prompt := AgentDefinition.system_prompt benefits_definition;
     AgentDefinition.tools := AgentDefinition.tools benefits_definition;
     AgentDefinition.llm_provider := "OPENAI";
     AgentDefinition.model := "gpt-2" |}.

End Sample.

(* ================================================================== *)
(** * Properties of the dictionaries *)
(* ================================================================== *)

Module DictFacts.
Section Dict.
Context {V : Type}.
Implicit Types (d : dict V) (k : string) (v : V).

Lemma keys_set_old d k k' v :
  In k' (dict_keys d) -> In k' (dict_keys (dict_set d k v)).
Proof.
  induction d as [| [k0 v0] d IH]; simpl; [tauto |].
  destruct (String.eqb_spec k k0) as [-> | Hne]; simpl; intuition.
Qed.

Lemma keys_set_new d k v : In k (dict_keys (dict_set d k v)).
Proof.
  induction d as [| [k0 v0] d IH]; simpl; [auto |].
  destruct (String.eqb k k0); simpl; auto.
Qed.

Lemma keys_set_inv d k k' v :
  In k' (dict_keys (dict_set d k v)) -> k' = k \/ In k' (dict_keys d).
Proof.
  induction d as [| [k0 v0] d IH]; simpl.
  - intros [-> | []]; auto.
  - destruct (String.eqb_spec k k0) as [-> | Hne]; simpl.
    + intros [<- | H]; auto.
    + intros [<- | H]; auto. destruct (IH H); auto.
Qed.

Lemma get_set_same d k v : dict_get (dict_set d k v) k = Some v.
Proof.
  induction d as [| [k0 v0] d IH]; simpl.
  - now rewrite String.eqb_refl.
  - destruct (String.eqb_spec k k0) as [-> | Hne]; simpl.
    + now rewrite String.eqb_refl.
    + destruct (String.eqb_spec k k0); [contradiction | exact IH].
Qed.

Lemma get_set_other d k k' v :
  k' <> k -> dict_get (dict_set d k v) k' = dict_get d k'.
Proof.
  intros Hne. induction d as [| [k0 v0] d IH]; simpl.
  - destruct (String.eqb_spec k' k); [contradiction | reflexivity].
  - destruct (String.eqb_spec k k0) as [-> | Hne0]; simpl.
    + destruct (String.eqb_spec k' k0); [contradiction | reflexivity].
    + destruct (String.eqb k' k0); [reflexivity | exact IH].
Qed.

Lemma keys_set_nodup d k v :
  NoDup (dict_keys d) -> NoDup (dict_keys (dict_set d k v)).
Proof.
  induction d as [| [k0 v0] d IH]; simpl; intros Hd.
  - constructor; [intros [] | constructor].
  - inversion Hd as [| ? ? Hnotin Hd']; subst.
    destruct (String.eqb_spec k k0) as [-> | Hne]; simpl.
    + constructor; assumption.
    + constructor; [| auto].
      intros Hin. apply keys_set_inv in Hin. destruct Hin; [congruence | contradiction].
Qed.

End Dict.
End DictFacts.

(* ================================================================== *)
(** * Properties of the schema adapter *)
(* ================================================================== *)

Module ConverterFacts.
Import Converter.

Lemma convert_tools_to_openai_from acc tools :
  fold_left (fun fs tool => fs ++ [openai_function tool])%list tools acc
  = (acc ++ map openai_function tools)%list.
Proof.
  revert acc. induction tools as [| tool tools IH]; intros acc; simpl.
  - now rewrite app_nil_r.
  - rewrite IH, <- app_assoc. reflexivity.
Qed.

(** The outer loop builds one function per tool, in the order of the
    tools. *)
Lemma convert_tools_to_openai_map tools :
  convert_tools_to_openai tools = map openai_function tools.
Proof. unfold convert_tools_to_openai. now rewrite convert_tools_to_openai_from. Qed.

Lemma properties_keys_from inputs acc name :
  In name (dict_keys (fold_left set_property inputs acc))
  <-> In name (dict_keys acc) \/ In name (map ToolInput.name inputs).
Proof.
  revert acc. induction inputs as [| i inputs IH]; intros acc; simpl.
  - tauto.
  - rewrite IH. unfold set_property. split.
    + intros [H | H]; [| tauto].
      apply DictFacts.keys_set_inv in H. destruct H as [-> | H]; auto.
    + intros [H | [<- | H]]; auto.
      * left. now apply DictFacts.keys_set_old.
      * left. apply DictFacts.keys_set_new.
Qed.

(** The keys of [properties] are the declared names, each once. *)
Lemma properties_keys inputs name :
  In name (dict_keys (properties_of inputs)) <-> In name (map ToolInput.name inputs).
Proof.
  unfold properties_of.
  rewrite properties_keys_from. simpl. tauto.
Qed.

(** No name comes twice in the keys of [properties], even when two
    parameters share a name. *)
Lemma properties_keys_nodup inputs : NoDup (dict_keys (properties_of inputs)).
Proof.
  unfold properties_of.
  assert (H : forall acc, NoDup (dict_keys acc) ->
                          NoDup (dict_keys (fold_left set_property inputs acc))).
  { induction inputs as [| i inputs IH]; intros acc Hacc; simpl; [assumption |].
    apply IH. now apply DictFacts.keys_set_nodup. }
  apply H. constructor.
Qed.

Lemma properties_values_from inputs acc name p :
  dict_get (fold_left set_property inputs acc) name = Some p ->
  dict_get acc name = Some p
  \/ exists tool_input, In tool_input inputs
       /\ ToolInput.name tool_input = name
       /\ p = VDict (property_data tool_input).
Proof.
  revert acc. induction inputs as [| i inputs IH]; intros acc; simpl; [auto |].
  intros H. apply IH in H. destruct H as [H | (ti & Hin & Hname & Hp)].
  - unfold set_property in H.
    destruct (String.eqb_spec name (ToolInput.name i)) as [-> | Hne].
    + rewrite DictFacts.get_set_same in H. injection H as <-.
      right. exists i. auto.
    + rewrite DictFacts.get_set_other in H by assumption. auto.
  - right. exists ti. auto.
Qed.

(** Every property of the schema is the [property_data] of a declared
    parameter of that name. *)
Lemma properties_values inputs name p :
  dict_get (properties_of inputs) name = Some p ->
  exists tool_input, In tool_input inputs
    /\ ToolInput.name tool_input = name
    /\ p = VDict (property_data tool_input).
Proof.
  unfold properties_of. intros H.
  apply properties_values_from in H. destruct H as [H | H]; [discriminate | exact H].
Qed.

Lemma properties_get_other inputs acc name :
  ~ In name (map ToolInput.name inputs) ->
  dict_get (fold_left set_property inputs acc) name = dict_get acc name.
Proof.
  revert acc. induction inputs as [| i inputs IH]; intros acc Hnotin; [reflexivity |].
  cbn [fold_left]. rewrite IH by (intros H; apply Hnotin; now right).
  unfold set_property. apply DictFacts.get_set_other.
  intros ->. apply Hnotin. now left.
Qed.

(** When no two parameters share a name, each is found under its name. *)
Lemma properties_get inputs tool_input :
  NoDup (map ToolInput.name inputs) ->
  In tool_input inputs ->
  dict_get (properties_of inputs) (ToolInput.name tool_input)
  = Some (VDict (property_data tool_input)).
Proof.
  unfold properties_of. generalize (@nil (string * value)).
  induction inputs as [| i inputs IH]; intros acc Hnodup Hin; [destruct Hin |].
  cbn [map] in Hnodup. inversion Hnodup as [| ? ? Hnotin Hnodup']; subst.
  cbn [fold_left]. destruct Hin as [-> | Hin].
  - rewrite properties_get_other by assumption.
    unfold set_property. apply DictFacts.get_set_same.
  - now apply IH.
Qed.

(** C8.  Every tool converted to the OpenAI strict function schema gets, at
    its position in the output, a function whose [parameters] (the same
    object at top level and under [function]) have [additionalProperties]
    false and a [required] array that lists every declared parameter name,
    whatever the parameter's own [required] flag: the array is exactly the
    keys of [properties], and a name is in it if and only if a parameter of
    the tool declares it. *)
Theorem required_lists_every_parameter :
  forall (tools : list Tool.t) (i : nat) (tool : Tool.t),
    nth_error tools i = Some tool ->
    exists (f parameters properties : dict value) (required_fields : list string),
      nth_error (convert_tools_to_openai tools) i = Some f
      /\ dict_get f "strict" = Some (VBool true)
      /\ dict_get f "parameters" = Some (VDict parameters)
      /\ dict_get f "function"
         = Some (VDict [ ("name", VStr (Tool.name tool));
                         ("description", VStr (Tool.description tool));
                         ("parameters", VDict parameters) ])
      /\ dict_get parameters "additionalProperties" = Some (VBool false)
      /\ dict_get parameters "properties" = Some (VDict properties)
      /\ dict_get parameters "required" = Some (VList (map VStr required_fields))
      /\ required_fields = dict_keys properties
      /\ (forall tool_input : ToolInput.t,
             In tool_input (Tool.inputs tool) ->
             In (ToolInput.name tool_input) required_fields)
      /\ (forall name : string,
             In name required_fields ->
             exists tool_input, In tool_input (Tool.inputs tool)
                                /\ ToolInput.name tool_input = name).
Proof.
  intros tools i tool Hnth.
  exists (openai_function tool), (parameters_of tool),
         (properties_of (Tool.inputs tool)),
         (dict_keys (properties_of (Tool.inputs tool))).
  rewrite convert_tools_to_openai_map.
  repeat split; try reflexivity.
  - now apply map_nth_error.
  - intros tool_input Hin. apply properties_keys. now apply in_map.
  - intros name Hin. apply properties_keys in Hin.
    apply in_map_iff in Hin. destruct Hin as (ti & Hname & Hin). eauto.
Qed.

Lemma required_lists_every_parameter_witness :
  exists (f parameters properties : dict value) (required_fields : list string),
    nth_error (convert_tools_to_openai [Sample.fsa_hsa_tool]) 0 = Some f
    /\ dict_get f "strict" = Some (VBool true)
    /\ dict_get f "parameters" = Some (VDict parameters)
    /\ dict_get f "function"
       = Some (VDict [ ("name", VStr (Tool.name Sample.fsa_hsa_tool));
                       ("description", VStr (Tool.description Sample.fsa_hsa_tool));
                       ("parameters", VDict parameters) ])
    /\ dict_get parameters "additionalProperties" = Some (VBool false)
    /\ dict_get parameters "properties" = Some (VDict properties)
    /\ dict_get parameters "required" = Some (VList (map VStr required_fields))
    /\ required_fields = dict_keys properties
    /\ (forall tool_input : ToolInput.t,
           In tool_input (Tool.inputs Sample.fsa_hsa_tool) ->
           In (ToolInput.name tool_input) required_fields)
    /\ (forall name : string,
           In name required_fields ->
           exists tool_input, In tool_input (Tool.inputs Sample.fsa_hsa_tool)
                              /\ ToolInput.name tool_input = name).
Proof.
  apply (required_lists_every_parameter [Sample.fsa_hsa_tool] 0 Sample.fsa_hsa_tool).
  reflexivity.
Defined.

(** X6.  In the function converted from a tool, the [required] array and
    the keys of [properties] are one list, which holds every declared
    parameter name, holds nothing else, and holds no name twice, even when
    the tool declares a name more than once. *)
Theorem required_names_each_once :
  forall (tools : list Tool.t) (i : nat) (tool : Tool.t),
    nth_error tools i = Some tool ->
    exists (f parameters properties : dict value) (required_fields : list string),
      nth_error (convert_tools_to_openai tools) i = Some f
      /\ dict_get f "parameters" = Some (VDict parameters)
      /\ dict_get parameters "properties" = Some (VDict properties)
      /\ dict_get parameters "required" = Some (VList (map VStr required_fields))
      /\ dict_keys properties = required_fields
      /\ NoDup required_fields
      /\ (forall name : string,
             In name required_fields
             <-> In name (map ToolInput.name (Tool.inputs tool))).
Proof.
  intros tools i tool Hnth.
  exists (openai_function tool), (parameters_of tool),
         (properties_of (Tool.inputs tool)),
         (dict_keys (properties_of (Tool.inputs tool))).
  rewrite convert_tools_to_openai_map.
  split; [now apply map_nth_error |].
  split; [reflexivity |]. split; [reflexivity |]. split; [reflexivity |].
  split; [reflexivity |].
  split; [apply properties_keys_nodup |].
  intros name. apply properties_keys.
Qed.

(** A tool that declares [plan] twice: the name is required once. *)
Lemma required_names_each_once_witness :
  exists (f parameters properties : dict value) (required_fields : list string),
    nth_error (convert_tools_to_openai [Sample.fsa_hsa_tool; Sample.repeating_tool]) 1
    = Some f
    /\ dict_get f "parameters" = Some (VDict parameters)
    /\ dict_get parameters "properties" = Some (VDict properties)
    /\ dict_get parameters "required" = Some (VList (map VStr required_fields))
    /\ dict_keys properties = required_fields
    /\ NoDup required_fields
    /\ (forall name : string,
           In name required_fields
           <-> In name (map ToolInput.name (Tool.inputs Sample.repeating_tool))).
Proof.
  apply (required_names_each_once [Sample.fsa_hsa_tool; Sample.repeating_tool] 1
           Sample.repeating_tool).
  reflexivity.
Defined.

(** The [required] array of the calculator, optional parameters
    included. *)
Example fsa_hsa_required :
  dict_get (parameters_of Sample.fsa_hsa_tool) "required"
  = Some (VList [ VStr "expected_medical_expenses"; VStr "account_type";
                  VStr "current_age"; VStr "retirement_age" ]).
Proof. reflexivity. Qed.

(** X5.  The [required] flags play no part in the conversion: two tools
    that differ in them only are converted alike. *)
Lemma required_flag_ignored tool tool' :
  Tool.name tool = Tool.name tool' ->
  Tool.description tool = Tool.description tool' ->
  map (fun i => (ToolInput.name i, ToolInput.type i, ToolInput.description i))
      (Tool.inputs tool)
  = map (fun i => (ToolInput.name i, ToolInput.type i, ToolInput.description i))
        (Tool.inputs tool') ->
  openai_function tool = openai_function tool'.
Proof.
  intros Hn Hd Hi.
  assert (Hp : properties_of (Tool.inputs tool) = properties_of (Tool.inputs tool')).
  { unfold properties_of. generalize (@nil (string * value)).
    revert Hi. generalize (Tool.inputs tool'). generalize (Tool.inputs tool).
    induction l as [| a l IH]; intros [| b l'] Hi acc; simpl in *;
      try discriminate; [reflexivity |].
    injection Hi as Hname Htype Hdesc Hrest.
    assert (Hpd : property_data a = property_data b).
    { unfold property_data. now rewrite Htype, Hdesc. }
    assert (Hset : set_property acc a = set_property acc b).
    { unfold set_property. now rewrite Hname, Hpd. }
    rewrite Hset. now apply IH. }
  unfold openai_function, parameters_of. now rewrite Hn, Hd, Hp.
Qed.

Lemma required_flag_ignored_witness :
  Converter.openai_function Sample.fsa_hsa_tool
  = Converter.openai_function
      (Tool.Build (Tool.name Sample.fsa_hsa_tool) (Tool.description Sample.fsa_hsa_tool)
         (map (fun i => ToolInput.Build (ToolInput.name i) (ToolInput.type i)
                          (ToolInput.description i) true)
              (Tool.inputs Sample.fsa_hsa_tool))).
Proof.
  apply (required_flag_ignored Sample.fsa_hsa_tool
           (Tool.Build (Tool.name Sample.fsa_hsa_tool)
              (Tool.description Sample.fsa_hsa_tool)
              (map (fun i => ToolInput.Build (ToolInput.name i) (ToolInput.type i)
                               (ToolInput.description i) true)
                   (Tool.inputs Sample.fsa_hsa_tool))));
    reflexivity.
Defined.

(** The schema the specification gives a parameter, by its kind: the type
    of the fixed table, the description, and for a map an explicit empty
    [properties] map with [additionalProperties] false, for a list an
    [items] schema of type string. *)
Definition schema_by_kind (kind : InputType) (description : string) : dict value :=
  match kind with
  | STRING => [ ("type", VStr "string"); ("description", VStr description) ]
  | INTEGER => [ ("type", VStr "integer"); ("description", VStr description) ]
  | FLOAT => [ ("type", VStr "number"); ("description", VStr description) ]
  | BOOLEAN => [ ("type", VStr "boolean"); ("description", VStr description) ]
  | LIST =>
      [ ("type", VStr "array"); ("description", VStr description);
        ("items", VDict [ ("type", VStr "string") ]) ]
  | DICT =>
      [ ("type", VStr "object"); ("description", VStr description);
        ("additionalProperties", VBool false); ("properties", VDict []) ]
  | ANY => [ ("type", VStr "string"); ("description", VStr description) ]
  end.

(** What the inner loop builds for a parameter is the schema of its kind. *)
Lemma property_data_by_kind (tool_input : ToolInput.t) :
  property_data tool_input
  = schema_by_kind (ToolInput.type tool_input) (ToolInput.description tool_input).
Proof. destruct tool_input as [n [] d r]; reflexivity. Qed.

Lemma keys_get {V : Type} (d : dict V) (k : string) :
  In k (dict_keys d) -> exists v, dict_get d k = Some v.
Proof.
  induction d as [| [k0 v0] d IH]; cbn [dict_keys map fst In dict_get]; [intros [] |].
  intros [<- | Hin].
  - rewrite String.eqb_refl. eauto.
  - destruct (String.eqb k k0); [eauto | now apply IH].
Qed.

(** Every declared name has a property, built from a declaration of that
    name. *)
Lemma properties_get_declared inputs tool_input :
  In tool_input inputs ->
  exists declared, In declared inputs
    /\ ToolInput.name declared = ToolInput.name tool_input
    /\ dict_get (properties_of inputs) (ToolInput.name tool_input)
       = Some (VDict (property_data declared)).
Proof.
  intros Hin.
  assert (Hkey : In (ToolInput.name tool_input) (dict_keys (properties_of inputs))).
  { apply properties_keys. now apply in_map. }
  destruct (keys_get _ _ Hkey) as [p Hp].
  destruct (properties_values inputs _ p Hp) as (declared & Hdeclared & Hname & ->).
  exists declared. auto.
Qed.

(** C9.  The provider type of a parameter is read off the fixed table
    string -> string, integer -> integer, float -> number, boolean ->
    boolean, list -> array, map -> object, any -> string, and what the
    converter builds for a parameter is the schema of its kind: that type
    and the description, for a map-kind parameter also an explicit empty
    [properties] map and [additionalProperties] false, for a list-kind
    parameter an [items] schema of type string.  These schemas are what the
    converter emits: in the function converted from a tool, at the tool's
    position in the output, the [properties] of the [parameters] (the same
    object at top level and under [function]) hold under every declared
    name the schema of the kind of a parameter declared with that name, and
    hold no other property; when no two parameters of the tool share a
    name, each parameter's own schema is stored under its name. *)
Theorem parameter_schema_by_kind :
  forall (tools : list Tool.t) (i : nat) (tool : Tool.t),
    nth_error tools i = Some tool ->
    (input_type_to_openai_type STRING = "string"
     /\ input_type_to_openai_type INTEGER = "integer"
     /\ input_type_to_openai_type FLOAT = "number"
     /\ input_type_to_openai_type BOOLEAN = "boolean"
     /\ input_type_to_openai_type LIST = "array"
     /\ input_type_to_openai_type DICT = "object"
     /\ input_type_to_openai_type ANY = "string")
    /\ (forall tool_input : ToolInput.t,
           property_data tool_input
           = schema_by_kind (ToolInput.type tool_input)
               (ToolInput.description tool_input)
           /\ dict_get (property_data tool_input) "type"
              = Some (VStr (input_type_to_openai_type (ToolInput.type tool_input))))
    /\ exists (f parameters properties : dict value),
         nth_error (convert_tools_to_openai tools) i = Some f
         /\ dict_get f "parameters" = Some (VDict parameters)
         /\ dict_get f "function"
            = Some (VDict [ ("name", VStr (Tool.name tool));
                            ("description", VStr (Tool.description tool));
                            ("parameters", VDict parameters) ])
         /\ dict_get parameters "properties" = Some (VDict properties)
         /\ (forall tool_input : ToolInput.t,
                In tool_input (Tool.inputs tool) ->
                exists declared : ToolInput.t,
                  In declared (Tool.inputs tool)
                  /\ ToolInput.name declared = ToolInput.name tool_input
                  /\ dict_get properties (ToolInput.name tool_input)
                     = Some (VDict (schema_by_kind (ToolInput.type declared)
                                      (ToolInput.description declared))))
         /\ (forall (name : string) (p : value),
                dict_get properties name = Some p ->
                exists declared : ToolInput.t,
                  In declared (Tool.inputs tool)
                  /\ ToolInput.name declared = name
                  /\ p = VDict (schema_by_kind (ToolInput.type declared)
                                  (ToolInput.description declared)))
         /\ (NoDup (map ToolInput.name (Tool.inputs tool)) ->
             forall tool_input : ToolInput.t,
               In tool_input (Tool.inputs tool) ->
               dict_get properties (ToolInput.name tool_input)
               = Some (VDict (schema_by_kind (ToolInput.type tool_input)
                                (ToolInput.description tool_input)))).
Proof.
  intros tools i tool Hnth.
  split; [repeat split |].
  split.
  { intros tool_input. split; [apply property_data_by_kind |].
    destruct tool_input as [n [] d r]; reflexivity. }
  exists (openai_function tool), (parameters_of tool),
         (properties_of (Tool.inputs tool)).
  rewrite convert_tools_to_openai_map.
  split; [now apply map_nth_error |].
  split; [reflexivity |]. split; [reflexivity |]. split; [reflexivity |].
  split.
  { intros tool_input Hin.
    destruct (properties_get_declared _ _ Hin) as (declared & Hdeclared & Hname & Hget).
    exists declared. rewrite <- property_data_by_kind. auto. }
  split.
  { intros name p Hp.
    destruct (properties_values _ _ _ Hp) as (declared & Hdeclared & Hname & ->).
    exists declared. rewrite <- property_data_by_kind. auto. }
  intros Hnodup tool_input Hin. rewrite <- property_data_by_kind.
  now apply properties_get.
Qed.

(** The enrollment tool, whose [benefits_selections] is a map, and the tool
    with a list-kind parameter. *)
Lemma parameter_schema_by_kind_witness :
  (exists (f parameters properties : dict value),
      nth_error (convert_tools_to_openai [Sample.fsa_hsa_tool; Sample.enrollment_tool]) 1
      = Some f
      /\ dict_get f "parameters" = Some (VDict parameters)
      /\ dict_get parameters "properties" = Some (VDict properties)
      /\ dict_get properties "benefits_selections"
         = Some (VDict [ ("type", VStr "object");
                         ("description",
                            VStr "Dictionary of benefit selections and choices");
                         ("additionalProperties", VBool false);
                         ("properties", VDict []) ]))
  /\ property_data (ToolInput.Build "states" LIST "States to search" false)
     = [ ("type", VStr "array"); ("description", VStr "States to search");
         ("items", VDict [ ("type", VStr "string") ]) ].
Proof.
  split.
  - destruct (parameter_schema_by_kind [Sample.fsa_hsa_tool; Sample.enrollment_tool] 1
                Sample.enrollment_tool eq_refl)
      as (_ & _ & f & parameters & properties & Hnth & Hparameters & _ & Hproperties
          & _ & _ & Hown).
    exists f, parameters, properties.
    split; [exact Hnth |]. split; [exact Hparameters |]. split; [exact Hproperties |].
    apply (Hown ltac:(repeat constructor; cbn; intuition discriminate)
             (ToolInput.Build "benefits_selections" DICT
                "Dictionary of benefit selections and choices" true)).
    cbn. tauto.
  - destruct (parameter_schema_by_kind [Sample.repeating_tool] 0 Sample.repeating_tool
                eq_refl) as (_ & Hdata & _).
    exact (proj1 (Hdata (ToolInput.Build "states" LIST "States to search" false))).
Defined.

(** The schema of the one map-kind parameter of the registry,
    [benefits_selections]. *)
Example benefits_selections_schema :
  dict_get
    (properties_of (BaseTool.inputs (@Tools.benefits_enrollment_tool Sample.builtins)))
    "benefits_selections"
  = Some (VDict [ ("type", VStr "object");
                  ("description", VStr "Dictionary of benefit selections and choices");
                  ("additionalProperties", VBool false);
                  ("properties", VDict []) ]).
Proof. reflexivity. Qed.

End ConverterFacts.

(* ================================================================== *)
(** * Properties of the runtime fragment *)
(* ================================================================== *)

Module PyFacts.


Lemma lstrip_only_whitespace s : only_whitespace s = true -> lstrip s = "".
Proof.
  induction s as [| c s IH]; simpl; [reflexivity |].
  destruct (isspace c); simpl; [exact IH | discriminate].
Qed.

Lemma lstrip_head s :
  only_whitespace s = false ->
  exists c rest, lstrip s = String c rest /\ isspace c = false.
Proof.
  induction s as [| c s IH]; simpl; [discriminate |].
  destruct (isspace c) eqn:Hc; simpl; [exact IH | eauto].
Qed.

Lemma rstrip_head c rest : isspace c = false -> rstrip (String c rest) <> "".
Proof.
  intros Hc. simpl. destruct (rstrip rest); [rewrite Hc |]; discriminate.
Qed.

(** [s.strip()] is empty exactly when [s] has nothing but whitespace. *)
Lemma strip_empty_iff s : strip s = "" <-> only_whitespace s = true.
Proof.
  unfold strip. split.
  - intros H. destruct (only_whitespace s) eqn:Hs; [reflexivity |].
    destruct (lstrip_head s Hs) as (c & rest & Heq & Hc).
    rewrite Heq in H. now apply rstrip_head in H.
  - intros H. now rewrite lstrip_only_whitespace.
Qed.

Lemma startswith_append s prefix :
  startswith s prefix = true -> exists rest, s = prefix ++ rest.
Proof.
  revert s. induction prefix as [| p prefix IH]; intros s H; simpl in *.
  - now exists s.
  - destruct s as [| c s]; [discriminate |].
    apply andb_prop in H. destruct H as [Hc Hs].
    apply Ascii.eqb_eq in Hc. subst c.
    destruct (IH s Hs) as [rest ->]. now exists rest.
Qed.

(** The decision procedure finds only real occurrences. *)
Lemma occurs_contains needle hay : occurs needle hay = true -> contains needle hay.
Proof.
  induction hay as [| c hay IH]; cbn [occurs]; intros H.
  - rewrite orb_false_r in H. apply startswith_append in H.
    destruct H as [rest Heq]. now exists "", rest.
  - apply orb_prop in H. destruct H as [H | H].
    + apply startswith_append in H. destruct H as [rest Heq].
      exists "", rest. exact Heq.
    + destruct (IH H) as (before & after & ->).
      now exists (String c before), after.
Qed.

Section WithBuiltins.
Context {builtins : Builtins}.




(** The encoding of a dictionary is never the empty string. *)
Lemma dumps_dict_nonempty (entries : dict value) : json_dumps (VDict entries) <> "".
Proof. cbn [json_dumps]. discriminate. Qed.

End WithBuiltins.
End PyFacts.

(* ================================================================== *)
(** * Properties of the tools *)
(* ================================================================== *)

Module ToolsFacts.
Section WithBuiltins.
Context {builtins : Builtins}.

(** X7.  The guardrail sends negative expenses to zero. *)
Lemma negative_expenses_are_clamped (kwargs : dict value) (x : float) :
  dict_get kwargs "expected_medical_expenses" = Some (VFloat x) ->
  PrimFloat.ltb x 0 = true ->
  Tools.expenses_of kwargs = Ok 0%float.
Proof.
  intros Hget Hneg. unfold Tools.expenses_of, dict_get_default. rewrite Hget.
  cbn [float_of_value try_except exc_bind]. unfold Tools.negative. cbn [Py.lt as_number].
  unfold int_float_compare.
  pose proof (FloatAxioms.ltb_spec x 0) as Hspec. rewrite Hneg in Hspec.
  change (Prim2SF 0) with (S754_zero false) in Hspec.
  destruct (Prim2SF x) as [s | s | | s m e]; cbn in Hspec |- *;
    try destruct s; try discriminate; try reflexivity.
  destruct (0 <=? e)%Z eqn:He; [| reflexivity].
  apply Z.leb_le in He.
  assert (Hpow : (0 < 2 ^ e)%Z) by (apply Z.pow_pos_nonneg; lia).
  destruct (Z.neg m * 2 ^ e)%Z eqn:Hprod; try reflexivity; nia.
Qed.

(** X8.  Expenses given as a string that is no float literal count as
    zero. *)
Lemma unparseable_expenses_are_zero (kwargs : dict value) (s : string) :
  dict_get kwargs "expected_medical_expenses" = Some (VStr s) ->
  float_of_str s = None ->
  Tools.expenses_of kwargs = Ok 0%float.
Proof.
  intros Hget Hparse. unfold Tools.expenses_of, dict_get_default. rewrite Hget.
  cbn [float_of_value]. rewrite Hparse. reflexivity.
Qed.

(** C10, where the code departs from it.  Expenses that are not a number
    (the JSON literal NaN, which [json.loads] accepts) pass the guardrail,
    since a NaN is not below zero, and pass [min], since the cap is not
    below a NaN: the FSA recommendation is NaN, which is neither
    nonnegative nor at most 3150.0. *)
Theorem nan_expenses_give_nan_recommendation :
  exists result : dict value,
    Tools.FsaHsaCalculatorTool_result
      [ ("expected_medical_expenses", VFloat float_nan); ("account_type", VStr "fsa") ]
    = Ok result
    /\ dict_get result "recommendations" = Some (VDict [("fsa", VFloat float_nan)])
    /\ PrimFloat.leb 0 float_nan = false
    /\ PrimFloat.leb float_nan Tools.FSA_CAP = false.
Proof.
  eexists. split; [vm_compute; reflexivity |].
  repeat split; reflexivity.
Qed.

End WithBuiltins.

#[local] Existing Instance Sample.builtins.

Lemma negative_expenses_are_clamped_witness :
  Tools.expenses_of [("expected_medical_expenses", VFloat (-250.5))] = Ok 0%float.
Proof.
  apply (negative_expenses_are_clamped
           [("expected_medical_expenses", VFloat (-250.5))] (-250.5)%float);
    reflexivity.
Defined.

Lemma unparseable_expenses_are_zero_witness :
  float_of_str "a lot" = None
  /\ Tools.expenses_of [("expected_medical_expenses", VStr "a lot")] = Ok 0%float.
Proof.
  split; [reflexivity |].
  apply (unparseable_expenses_are_zero
           [("expected_medical_expenses", VStr "a lot")] "a lot");
    reflexivity.
Defined.

(** The same through the tool's entry point, from the raw arguments of a
    function call to the JSON text the loop would append. *)
Example nan_expenses_end_to_end :
  exists kwargs output : _,
    Sample.json_loads
      ("{" ++ quote ++ "expected_medical_expenses" ++ quote ++ ": NaN, "
           ++ quote ++ "account_type" ++ quote ++ ": " ++ quote ++ "both" ++ quote ++ "}")
    = Ok (VDict kwargs)
    /\ Tools.FsaHsaCalculatorTool_call kwargs = Ok output
    /\ contains ("{" ++ quote ++ "hsa" ++ quote ++ ": NaN, " ++ quote ++ "fsa" ++ quote ++ ": NaN}")
         output.
Proof.
  eexists. eexists. split; [vm_compute; reflexivity |].
  split; [vm_compute; reflexivity |].
  apply PyFacts.occurs_contains. vm_compute. reflexivity.
Qed.

(** An [int] too large for a double raises [OverflowError], which is
    not among the exceptions the tool catches. *)
Example huge_expenses_raise :
  Tools.FsaHsaCalculatorTool_call [("expected_medical_expenses", VInt (10 ^ 400))]
  = Raise (Exception "OverflowError" "int too large to convert to float").
Proof. vm_compute. reflexivity. Qed.

(** Expenses of 1234.567 split over both accounts. *)
Example both_accounts :
  exists result,
    Tools.FsaHsaCalculatorTool_result
      [ ("expected_medical_expenses", VFloat 1234.567); ("account_type", VStr " Both ") ]
    = Ok result
    /\ dict_get result "recommendations"
       = Some (VDict [("hsa", VFloat 617.28); ("fsa", VFloat 370.37)]).
Proof. eexists. split; vm_compute; reflexivity. Qed.

End ToolsFacts.

(* ================================================================== *)
(** * Properties of the tool-resolution loop *)
(* ================================================================== *)

Module LoopFacts.
Import Provider.

(** Steps of a computation in [M], one layer at a time. *)
Ltac step_m :=
  unfold bind, ret, lift, raise, print, try_catch, any_exception; cbn beta iota.

Section Loop.

Context {builtins : Builtins}.
Variable Client : Type.
Variable responses_create : Client -> Request.t -> Client * exc Response.t.
Variable environ : dict string.
Variable get_tool : string -> option BaseTool.t.

Implicit Types (w : World Client) (fc : FunctionCall.t) (tu : ToolUse.t)
  (loop_input : list InputItem) (tools : option (list (dict value)))
  (model : string) (result : Result.t).

(** ** The arguments *)

Lemma parse_arguments_total (args_json : value) :
  exists parsed_args, parse_arguments args_json = Ok parsed_args.
Proof.
  unfold parse_arguments, try_except, any_exception.
  destruct args_json; try (eexists; reflexivity).
  destruct (json_loads s); eexists; reflexivity.
Qed.


Lemma parse_arguments_well_formed (raw : string) (v : value) :
  json_loads raw = Ok v -> parse_arguments (VStr raw) = Ok v.
Proof. intros H. unfold parse_arguments, try_except. now rewrite H. Qed.

(** ** One function call *)

(** The four ways through [execute]. *)
Lemma execute_skipped (name : option string) (parsed_args : value) w :
  blank name = true -> execute get_tool name parsed_args w = (w, Ok None).
Proof. intros H. unfold execute. rewrite H. reflexivity. Qed.

Lemma execute_unknown (name : string) (parsed_args : value) w :
  get_tool name = None -> execute get_tool (Some name) parsed_args w = (w, Ok None).
Proof.
  intros H. unfold execute. destruct (blank (Some name)); [reflexivity |].
  cbn [negb]. rewrite H. reflexivity.
Qed.

Lemma execute_raised (name : string) (tool_impl : BaseTool.t) (parsed_args : value)
    (e : exn) w :
  name <> "" -> get_tool name = Some tool_impl ->
  call_tool tool_impl parsed_args = Raise e ->
  execute get_tool (Some name) parsed_args w = (w, Ok (Some (error_payload e parsed_args))).
Proof.
  intros Hname Hget Hcall. unfold execute, blank.
  destruct (String.eqb_spec name ""); [contradiction |].
  cbn [negb]. rewrite Hget. step_m. rewrite Hcall. reflexivity.
Qed.

Lemma execute_returned (name : string) (tool_impl : BaseTool.t) (parsed_args : value)
    (output_str : string) w :
  name <> "" -> get_tool name = Some tool_impl ->
  call_tool tool_impl parsed_args = Ok output_str ->
  execute get_tool (Some name) parsed_args w
  = (MkWorld (client w) (sent w) (stdout w ++ [output_str]),
     Ok (Some (match json_loads output_str with
               | Ok result_payload => result_payload
               | Raise e => error_payload e parsed_args
               end))).
Proof.
  intros Hname Hget Hcall. unfold execute, blank.
  destruct (String.eqb_spec name ""); [contradiction |].
  cbn [negb]. rewrite Hget. step_m. rewrite Hcall. cbn [client sent stdout].
  destruct (json_loads output_str); reflexivity.
Qed.

(** [execute] never raises, and leaves the provider alone. *)
Lemma execute_total (name : option string) (parsed_args : value) w :
  exists w' executed,
    execute get_tool name parsed_args w = (w', Ok executed)
    /\ client w' = client w /\ sent w' = sent w.
Proof.
  destruct (blank name) eqn:Hblank.
  { exists w, None. now rewrite execute_skipped. }
  destruct name as [name |]; [| discriminate]. cbn [blank] in Hblank.
  assert (Hname : name <> "") by (intros ->; discriminate).
  destruct (get_tool name) as [tool_impl |] eqn:Hget.
  - destruct (call_tool tool_impl parsed_args) as [output_str | e] eqn:Hcall.
    + eexists _, _. rewrite (execute_returned name tool_impl parsed_args output_str w)
        by assumption. repeat split.
    + eexists _, _. rewrite (execute_raised name tool_impl parsed_args e w)
        by assumption. repeat split.
  - exists w, None. now rewrite execute_unknown.
Qed.

(** [function_call_output] in terms of its two stages. *)
Lemma function_call_output_unfold fc (parsed_args : value) w :
  parse_arguments (FunctionCall.arguments fc) = Ok parsed_args ->
  function_call_output get_tool fc w
  = match execute get_tool (FunctionCall.name fc) parsed_args w with
    | (w', Ok executed) =>
        (w', Ok (output_entry (FunctionCall.call_id fc)
                   match executed with
                   | Some result_payload => result_payload
                   | None => placeholder (FunctionCall.name fc) (FunctionCall.arguments fc)
                   end))
    | (w', Raise e) => (w', Raise e)
    end.
Proof.
  intros Hparse. unfold function_call_output. step_m. rewrite Hparse.
  destruct (execute get_tool (FunctionCall.name fc) parsed_args w) as [w' [executed | e]];
    reflexivity.
Qed.

(** A function call always ends in a result entry, of the type
    [function_call_output] and with the call's own [call_id]; the provider
    is not called meanwhile. *)
Lemma function_call_output_total fc w :
  exists w' (result_payload : value),
    function_call_output get_tool fc w
    = (w', Ok (output_entry (FunctionCall.call_id fc) result_payload))
    /\ client w' = client w /\ sent w' = sent w.
Proof.
  destruct (parse_arguments_total (FunctionCall.arguments fc)) as [parsed_args Hparse].
  rewrite (function_call_output_unfold fc parsed_args w Hparse).
  destruct (execute_total (FunctionCall.name fc) parsed_args w)
    as (w' & executed & Hexec & Hclient & Hsent).
  rewrite Hexec. eexists _, _. repeat split; assumption.
Qed.

Lemma correlation_output_entry (call_id : option string) (result_payload : value) :
  correlation (output_entry call_id result_payload)
  = (Some (VStr "function_call_output"), Some (opt_str call_id)).
Proof. reflexivity. Qed.

Lemma correlation_tool_result tu :
  correlation (tool_result tu) = (Some (VStr "tool_result"), Some (opt_str (ToolUse.id tu))).
Proof. reflexivity. Qed.

(** ** The two inner loops *)

(** What an entry of the input list must be to answer a given function
    call: the entry [function_call_output] returns for it in some world. *)
Definition answers fc (entry : dict value) : Prop :=
  exists (result_payload : value) w w',
    function_call_output get_tool fc w
    = (w', Ok (output_entry (FunctionCall.call_id fc) result_payload))
    /\ entry = output_entry (FunctionCall.call_id fc) result_payload.

Lemma resolve_function_calls (function_calls : list FunctionCall.t) :
  forall loop_input w,
  exists w' (entries : list (dict value)),
    for_each function_calls loop_input (append_function_call_output get_tool) w
    = (w', Ok (loop_input ++ map Entry entries)%list)
    /\ client w' = client w /\ sent w' = sent w
    /\ Forall2 answers function_calls entries.
Proof.
  induction function_calls as [| fc function_calls IH]; intros loop_input w.
  - exists w, []. cbn [for_each map]. rewrite app_nil_r. repeat split. constructor.
  - cbn [for_each]. unfold append_function_call_output at 1. step_m.
    destruct (function_call_output_total fc w)
      as (w1 & result_payload & Hout & Hclient & Hsent).
    rewrite Hout.
    destruct (IH (loop_input ++ [Entry (output_entry (FunctionCall.call_id fc) result_payload)])%list w1)
      as (w2 & entries & Hrest & Hclient2 & Hsent2 & Hall).
    exists w2, (output_entry (FunctionCall.call_id fc) result_payload :: entries).
    rewrite Hrest, <- app_assoc. cbn [map app].
    repeat split; try congruence.
    constructor; [| exact Hall].
    exists result_payload, w, w1. split; [exact Hout | reflexivity].
Qed.

Lemma resolve_tool_uses (tool_uses : list ToolUse.t) :
  forall loop_input w,
    for_each tool_uses loop_input append_tool_result w
    = (w, Ok (loop_input ++ map (fun tu => Entry (tool_result tu)) tool_uses)%list).
Proof.
  induction tool_uses as [| tu tool_uses IH]; intros loop_input w.
  - cbn [for_each map]. now rewrite app_nil_r.
  - cbn [for_each]. unfold append_tool_result at 1. step_m.
    rewrite IH, <- app_assoc. reflexivity.
Qed.

Lemma answers_correlation fc (entry : dict value) :
  answers fc entry ->
  correlation entry = (Some (VStr "function_call_output"),
                       Some (opt_str (FunctionCall.call_id fc))).
Proof. intros (result_payload & w & w' & _ & ->). reflexivity. Qed.

Lemma answers_all_correlation (function_calls : list FunctionCall.t)
    (entries : list (dict value)) :
  Forall2 answers function_calls entries ->
  map correlation entries
  = map (fun fc => (Some (VStr "function_call_output"),
                    Some (opt_str (FunctionCall.call_id fc)))) function_calls.
Proof.
  induction 1 as [| fc entry fcs entries Hans _ IH]; [reflexivity |].
  cbn [map]. now rewrite (answers_correlation fc entry Hans), IH.
Qed.

(** ** One provider call *)

Lemma extend_append loop_input (output_items : list OutputItem.t) :
  extend loop_input output_items = (loop_input ++ map Item output_items)%list.
Proof. destruct output_items; [cbn; now rewrite app_nil_r | reflexivity]. Qed.

(** With a credential, [invoke_openai] sends exactly one request, whose
    input is the input list it was given, and parses what comes back. *)
Lemma invoke_openai_calls_once loop_input tools model w :
  blank (getenv environ "OPENAI_API_KEY") = false ->
  invoke_openai responses_create environ loop_input tools model w
  = let request := response_kwargs loop_input tools model in
    let '(c, r) := responses_create (client w) request in
    (MkWorld c (sent w ++ [request]) (stdout w),
     match r with
     | Ok response => Ok (parse_response response)
     | Raise e => Raise e
     end).
Proof.
  intros Hkey. unfold invoke_openai. rewrite Hkey. step_m. unfold create.
  cbn zeta.
  destruct (responses_create (client w) (response_kwargs loop_input tools model))
    as [c [response | e]]; reflexivity.
Qed.

Lemma response_kwargs_input loop_input tools model :
  Request.input (response_kwargs loop_input tools model) = loop_input.
Proof. unfold response_kwargs. destruct tools as [[| ? ?] |]; reflexivity. Qed.

(** Without one, it raises before any request. *)
Lemma invoke_openai_without_key loop_input tools model w :
  blank (getenv environ "OPENAI_API_KEY") = true ->
  invoke_openai responses_create environ loop_input tools model w = (w, Raise missing_key).
Proof. intros Hkey. unfold invoke_openai. now rewrite Hkey. Qed.

(** ** One pass of the loop *)

(** A pass whose response asks for tools ends with every request answered
    in the input list, and in no exception. *)
Lemma iteration_resolves tools model loop_input w w1 result :
  invoke_openai responses_create environ loop_input tools model w = (w1, Ok result) ->
  requested result <> 0%nat ->
  exists w2 (entries : list (dict value)),
    iteration responses_create environ get_tool tools model loop_input w
    = (w2, Ok (Continue
                 (loop_input
                  ++ map Item (Result.output_items result)
                  ++ map Entry entries
                  ++ map (fun tu => Entry (tool_result tu)) (Result.tool_uses result))%list))
    /\ client w2 = client w1 /\ sent w2 = sent w1
    /\ Forall2 answers (Result.function_calls result) entries.
Proof.
  intros Hinvoke Hrequested. unfold iteration. unfold bind at 1. rewrite Hinvoke.
  cbn zeta.
  destruct (resolve_function_calls (Result.function_calls result)
              (extend loop_input (Result.output_items result)) w1)
    as (w2 & entries & Hfcs & Hclient & Hsent & Hall).
  exists w2, entries.
  assert (Hgoal :
    bind (for_each (Result.function_calls result)
            (extend loop_input (Result.output_items result))
            (append_function_call_output get_tool))
         (fun loop_input0 =>
            bind (for_each (Result.tool_uses result) loop_input0 append_tool_result)
                 (fun loop_input1 => ret (Continue loop_input1))) w1
    = (w2, Ok (Continue
                 (loop_input
                  ++ map Item (Result.output_items result)
                  ++ map Entry entries
                  ++ map (fun tu => Entry (tool_result tu)) (Result.tool_uses result))%list))).
  { unfold bind at 1. rewrite Hfcs. unfold bind. rewrite resolve_tool_uses.
    unfold ret. rewrite extend_append, <- !app_assoc. reflexivity. }
  repeat split; try assumption.
  unfold requested in Hrequested.
  destruct (Result.function_calls result) as [| fc fcs];
    [destruct (Result.tool_uses result) as [| tu tus]; [contradiction | exact Hgoal]
    | exact Hgoal].
Qed.

(** C1.  When the response handled in one pass of the loop asks for n tool
    invocations (n > 0: with none the function returns), the pass goes on
    with the input list extended by the output items and then by exactly n
    result entries.  Each carries the identifier of its request, in the
    order: the results of all function calls in the order of the calls,
    then the results of all tool uses in the order of the uses.  No request
    goes to the provider meanwhile, and the next pass starts from that
    list. *)
Theorem results_follow_requests :
  forall tools model loop_input w w1 result,
    invoke_openai responses_create environ loop_input tools model w = (w1, Ok result) ->
    requested result <> 0%nat ->
    exists w2 (results : list (dict value)),
      let transcript :=
        (loop_input ++ map Item (Result.output_items result) ++ map Entry results)%list in
      iteration responses_create environ get_tool tools model loop_input w
      = (w2, Ok (Continue transcript))
      /\ List.length results = requested result
      /\ map correlation results
         = (map (fun fc => (Some (VStr "function_call_output"),
                            Some (opt_str (FunctionCall.call_id fc))))
                (Result.function_calls result)
            ++ map (fun tu => (Some (VStr "tool_result"),
                               Some (opt_str (ToolUse.id tu))))
                   (Result.tool_uses result))%list
      /\ sent w2 = sent w1
      /\ client w2 = client w1
      /\ (forall passes,
             iterate responses_create environ get_tool (S passes) tools model loop_input w
             = iterate responses_create environ get_tool passes tools model transcript w2).
Proof.
  intros tools model loop_input w w1 result Hinvoke Hrequested.
  destruct (iteration_resolves tools model loop_input w w1 result Hinvoke Hrequested)
    as (w2 & entries & Hiter & Hclient & Hsent & Hall).
  exists w2, (entries ++ map tool_result (Result.tool_uses result))%list.
  cbn zeta.
  assert (Hshape :
    (map Entry (entries ++ map tool_result (Result.tool_uses result))
     = map Entry entries
       ++ map (fun tu => Entry (tool_result tu)) (Result.tool_uses result))%list).
  { now rewrite map_app, map_map. }
  rewrite Hshape.
  split; [exact Hiter |].
  split.
  { rewrite length_app, length_map. unfold requested.
    now rewrite (Forall2_length Hall). }
  split.
  { rewrite map_app, map_map, (answers_all_correlation _ _ Hall). reflexivity. }
  split; [exact Hsent |].
  split; [exact Hclient |].
  intros passes. cbn [iterate]. unfold bind at 1. rewrite Hiter. reflexivity.
Qed.

(** ** Exhaustion *)

Section Exhaustion.

(** Every response of the provider asks for at least one tool. *)
Hypothesis always_requests :
  forall (c : Client) (request : Request.t),
  exists c' response,
    responses_create c request = (c', Ok response)
    /\ requested (parse_response response) <> 0%nat.

Hypothesis has_key : blank (getenv environ "OPENAI_API_KEY") = false.

Lemma iteration_continues tools model loop_input w :
  exists w' loop_input',
    iteration responses_create environ get_tool tools model loop_input w
    = (w', Ok (Continue loop_input'))
    /\ List.length (sent w') = S (List.length (sent w)).
Proof.
  pose proof (invoke_openai_calls_once loop_input tools model w has_key) as Hcall.
  cbn zeta in Hcall.
  destruct (always_requests (client w) (response_kwargs loop_input tools model))
    as (c' & response & Hcreate & Hrequested).
  rewrite Hcreate in Hcall.
  destruct (iteration_resolves tools model loop_input w _ _ Hcall Hrequested)
    as (w2 & entries & Hiter & _ & Hsent & _).
  eexists _, _. split; [exact Hiter |].
  rewrite Hsent. cbn [sent]. rewrite length_app. cbn [List.length]. lia.
Qed.

Lemma iterate_exhausts passes :
  forall tools model loop_input w,
  exists w',
    iterate responses_create environ get_tool passes tools model loop_input w
    = (w', Ok sentinel)
    /\ List.length (sent w') = (List.length (sent w) + passes)%nat.
Proof.
  induction passes as [| passes IH]; intros tools model loop_input w.
  - exists w. cbn [iterate]. split; [reflexivity | lia].
  - destruct (iteration_continues tools model loop_input w)
      as (w1 & loop_input' & Hiter & Hsent).
    destruct (IH tools model loop_input' w1) as (w' & Hrest & Hsent').
    exists w'. cbn [iterate]. unfold bind at 1. rewrite Hiter.
    split; [exact Hrest | lia].
Qed.

End Exhaustion.

(** C2.  With a credential configured and a provider every response of
    which asks for at least one tool, [invoke_openai_loop] returns the
    sentinel string, raising nothing, after exactly [max_iterations]
    provider calls, not one more. *)
Theorem exhaustion_after_max_iterations :
  forall input_list tools model (max_iterations : Z) w,
    blank (getenv environ "OPENAI_API_KEY") = false ->
    (0 <= max_iterations)%Z ->
    (forall (c : Client) (request : Request.t),
      exists c' response,
        responses_create c request = (c', Ok response)
        /\ requested (parse_response response) <> 0%nat) ->
    exists w',
      invoke_openai_loop responses_create environ get_tool input_list tools model
        max_iterations w
      = (w', Ok "Reached max tool iterations without final answer.")
      /\ Z.of_nat (List.length (sent w'))
         = (Z.of_nat (List.length (sent w)) + max_iterations)%Z.
Proof.
  intros input_list tools model max_iterations w Hkey Hpos Hprovider.
  destruct (iterate_exhausts Hprovider Hkey (Z.to_nat max_iterations) tools model
              input_list w) as (w' & Hloop & Hsent).
  exists w'. unfold invoke_openai_loop. rewrite Hkey. cbn zeta.
  split; [exact Hloop | lia].
Qed.

(** X4.  Without the credential [invoke_openai_loop] raises [ValueError]
    before any provider call. *)
Lemma loop_without_key input_list tools model (max_iterations : Z) w :
  blank (getenv environ "OPENAI_API_KEY") = true ->
  invoke_openai_loop responses_create environ get_tool input_list tools model
    max_iterations w
  = (w, Raise missing_key).
Proof. intros Hkey. unfold invoke_openai_loop. now rewrite Hkey. Qed.

(** ** The final answer *)

Lemma iteration_returns tools model loop_input w w1 result (text : string) :
  invoke_openai responses_create environ loop_input tools model w = (w1, Ok result) ->
  requested result = 0%nat ->
  final_answer result = Ok text ->
  iteration responses_create environ get_tool tools model loop_input w
  = (w1, Ok (Return text))
  /\ forall passes,
       iterate responses_create environ get_tool (S passes) tools model loop_input w
       = (w1, Ok text).
Proof.
  intros Hinvoke Hrequested Hfinal.
  assert (Hiter : iteration responses_create environ get_tool tools model loop_input w
                  = (w1, Ok (Return text))).
  { unfold iteration. unfold bind at 1. rewrite Hinvoke. cbn zeta.
    unfold requested in Hrequested.
    destruct (Result.function_calls result); [| discriminate].
    destruct (Result.tool_uses result); [| discriminate].
    step_m. rewrite Hfinal. reflexivity. }
  split; [exact Hiter |].
  intros passes. cbn [iterate]. unfold bind at 1. rewrite Hiter. reflexivity.
Qed.

(** C4, as the code has it.  When the response asks for no tool, the loop
    ends in that pass.  It returns the response's text when that text is a
    string with at least one character that is not whitespace.  Otherwise,
    when every output item is of a type [json.dumps] can encode, it returns
    the JSON text of the whole parsed result, which is not the empty
    string. *)
Theorem final_answer_without_tool_requests :
  forall tools model loop_input w w1 result,
    invoke_openai responses_create environ loop_input tools model w = (w1, Ok result) ->
    requested result = 0%nat ->
    (forall text : string,
        Result.output_text result = VStr text ->
        only_whitespace text = false ->
        iteration responses_create environ get_tool tools model loop_input w
        = (w1, Ok (Return text))
        /\ forall passes,
             iterate responses_create environ get_tool (S passes) tools model loop_input w
             = (w1, Ok text))
    /\ (forall items : list value,
          (forall text : string,
              Result.output_text result = VStr text -> only_whitespace text = true) ->
          items_as_json (Result.output_items result) = Ok items ->
          let serialized :=
            json_dumps
              (VDict [ ("output_items", VList items);
                       ("function_calls", VList []);
                       ("tool_uses", VList []);
                       ("output_text", Result.output_text result) ]) in
          serialized <> ""
          /\ iteration responses_create environ get_tool tools model loop_input w
             = (w1, Ok (Return serialized))
          /\ forall passes,
               iterate responses_create environ get_tool (S passes) tools model
                 loop_input w
               = (w1, Ok serialized)).
Proof.
  intros tools model loop_input w w1 result Hinvoke Hrequested. split.
  - intros text Htext Hvisible.
    apply (iteration_returns tools model loop_input w w1 result text Hinvoke Hrequested).
    unfold final_answer. rewrite Htext.
    destruct (String.eqb_spec (strip text) "") as [Hstrip | _]; [| reflexivity].
    apply PyFacts.strip_empty_iff in Hstrip. congruence.
  - intros items Hblank Hitems. cbn zeta.
    split; [apply PyFacts.dumps_dict_nonempty |].
    apply (iteration_returns tools model loop_input w w1 result _ Hinvoke Hrequested).
    assert (Hdumps : dumps_result result
                     = Ok (json_dumps
                             (VDict [ ("output_items", VList items);
                                      ("function_calls", VList []);
                                      ("tool_uses", VList []);
                                      ("output_text", Result.output_text result) ]))).
    { unfold dumps_result. rewrite Hitems. unfold requested in Hrequested.
      destruct (Result.function_calls result); [| discriminate].
      destruct (Result.tool_uses result); [| discriminate]. reflexivity. }
    unfold final_answer.
    destruct (Result.output_text result) as [| | | | text | |] eqn:Htext;
      try exact Hdumps.
    specialize (Hblank text eq_refl).
    apply PyFacts.strip_empty_iff in Hblank. rewrite Hblank. exact Hdumps.
Qed.


(** ** Function calls, case by case *)

Lemma answers_unique fc (entry expected : dict value) :
  (forall w, function_call_output get_tool fc w = (w, Ok expected)) ->
  answers fc entry -> entry = expected.
Proof.
  intros Hfixed (result_payload & w & w' & Hout & ->).
  rewrite Hfixed in Hout. now injection Hout as _ <-.
Qed.

Lemma answered_in_order (function_calls : list FunctionCall.t)
    (entries : list (dict value)) fc :
  Forall2 answers function_calls entries ->
  In fc function_calls ->
  exists entry, In entry entries /\ answers fc entry.
Proof.
  induction 1 as [| fc0 entry0 fcs entries Hans _ IH]; [intros [] |].
  intros [-> | Hin].
  - exists entry0. split; [now left | exact Hans].
  - destruct (IH Hin) as (entry & Hentry & Hanswers).
    exists entry. split; [now right | exact Hanswers].
Qed.

(** C5.  When the execution of a tool raises inside the loop, the exception
    goes no further: the function call is answered by the entry of type
    [function_call_output] that carries the call's [call_id] and, under
    [output], the JSON text of the payload
    [{error: "Tool execution failed: <description>", input: <parsed
    arguments>}]; and a pass in which this happens goes on to the next with
    that entry in the input list. *)
Theorem tool_exception_becomes_error_payload :
  forall fc (name : string) (tool_impl : BaseTool.t) (parsed_args : value) (e : exn),
    FunctionCall.name fc = Some name ->
    name <> "" ->
    get_tool name = Some tool_impl ->
    parse_arguments (FunctionCall.arguments fc) = Ok parsed_args ->
    call_tool tool_impl parsed_args = Raise e ->
    let answer :=
      [ ("type", VStr "function_call_output");
        ("call_id", opt_str (FunctionCall.call_id fc));
        ("output",
           VStr (json_dumps
                   (VDict [ ("error", VStr ("Tool execution failed: " ++ exn_str e));
                            ("input", parsed_args) ]))) ] in
    (forall w, function_call_output get_tool fc w = (w, Ok answer))
    /\ (forall tools model loop_input w w1 result,
          invoke_openai responses_create environ loop_input tools model w
          = (w1, Ok result) ->
          In fc (Result.function_calls result) ->
          exists w2 loop_input',
            iteration responses_create environ get_tool tools model loop_input w
            = (w2, Ok (Continue loop_input'))
            /\ In (Entry answer) loop_input').
Proof.
  intros fc name tool_impl parsed_args e Hname Hnonempty Hget Hparse Hcall. cbn zeta.
  assert (Hfixed : forall w,
    function_call_output get_tool fc w
    = (w, Ok (output_entry (FunctionCall.call_id fc) (error_payload e parsed_args)))).
  { intros w. rewrite (function_call_output_unfold fc parsed_args w Hparse), Hname.
    now rewrite (execute_raised name tool_impl parsed_args e w Hnonempty Hget Hcall). }
  split; [exact Hfixed |].
  intros tools model loop_input w w1 result Hinvoke Hin.
  assert (Hrequested : requested result <> 0%nat).
  { unfold requested. destruct (Result.function_calls result); [destruct Hin | discriminate]. }
  destruct (iteration_resolves tools model loop_input w w1 result Hinvoke Hrequested)
    as (w2 & entries & Hiter & _ & _ & Hall).
  destruct (answered_in_order _ _ fc Hall Hin) as (entry & Hentry & Hanswers).
  apply (answers_unique fc entry _ Hfixed) in Hanswers. subst entry.
  eexists _, _. split; [exact Hiter |].
  apply in_or_app. right. apply in_or_app. right. apply in_or_app. left.
  now apply in_map.
Qed.



(** ** The two channels *)

(** A function call that names a registered tool runs it: the tool's output
    is printed, decoded and encoded again as the result. *)
Lemma registered_function_call_is_executed fc (name : string) (tool_impl : BaseTool.t)
    (kwargs : dict value) (output_str : string) (decoded : value) w :
  FunctionCall.name fc = Some name ->
  name <> "" ->
  get_tool name = Some tool_impl ->
  parse_arguments (FunctionCall.arguments fc) = Ok (VDict kwargs) ->
  BaseTool.call tool_impl kwargs = Ok output_str ->
  json_loads output_str = Ok decoded ->
  function_call_output get_tool fc w
  = (MkWorld (client w) (sent w) (stdout w ++ [output_str]),
     Ok (output_entry (FunctionCall.call_id fc) decoded)).
Proof.
  intros Hname Hnonempty Hget Hparse Hcall Hdecode.
  rewrite (function_call_output_unfold fc (VDict kwargs) w Hparse), Hname.
  rewrite (execute_returned name tool_impl (VDict kwargs) output_str w Hnonempty Hget Hcall).
  now rewrite Hdecode.
Qed.

(** A tool use is answered without any lookup in the catalog and without
    running anything, whatever its name: the world is left as it was and the
    entry appended is the placeholder. *)
Lemma tool_use_gets_placeholder tu loop_input w :
  append_tool_result loop_input tu w
  = (w, Ok (loop_input
            ++ [Entry
                  [ ("type", VStr "tool_result");
                    ("tool_use_id", opt_str (ToolUse.id tu));
                    ("content",
                       VStr (json_dumps
                               (VDict
                                  [ ("result",
                                     VStr ("Tool '" ++ str (opt_str (ToolUse.name tu))
                                           ++ "' called with args "
                                           ++ str (ToolUse.input tu)
                                           ++ ". Implementation needed.")) ]))) ]])%list).
Proof. reflexivity. Qed.

(** C3, where the code departs from it.  Take a tool registered under
    [name] that returns, on the arguments [kwargs], a text that decodes to
    [decoded].  Asked for through a function call, the tool runs: its output
    is printed and [decoded] is the result appended.  Asked for through a
    tool use, with the same name and the same arguments, it does not run:
    nothing is printed and the result appended is the placeholder. *)
Theorem tool_use_skips_registered_tool :
  forall (name id : string) (tool_impl : BaseTool.t) (kwargs : dict value)
         (output_str : string) (decoded : value) loop_input w,
    name <> "" ->
    get_tool name = Some tool_impl ->
    BaseTool.call tool_impl kwargs = Ok output_str ->
    json_loads output_str = Ok decoded ->
    append_function_call_output get_tool loop_input
      (FunctionCall.Build (Some name) (VDict kwargs) (Some id)) w
    = (MkWorld (client w) (sent w) (stdout w ++ [output_str]),
       Ok (loop_input
           ++ [Entry [ ("type", VStr "function_call_output");
                       ("call_id", VStr id);
                       ("output", VStr (json_dumps decoded)) ]])%list)
    /\ append_tool_result loop_input
         (ToolUse.Build (Some id) (Some name) (VDict kwargs)) w
       = (w, Ok (loop_input
                 ++ [Entry
                       [ ("type", VStr "tool_result");
                         ("tool_use_id", VStr id);
                         ("content",
                            VStr (json_dumps
                                    (VDict
                                       [ ("result",
                                          VStr ("Tool '" ++ name ++ "' called with args "
                                                ++ str (VDict kwargs)
                                                ++ ". Implementation needed.")) ]))) ]])%list).
Proof.
  intros name id tool_impl kwargs output_str decoded loop_input w
         Hname Hget Hcall Hdecode.
  split; [| reflexivity].
  assert (Hparse : parse_arguments (VDict kwargs) = Ok (VDict kwargs)).
  { unfold parse_arguments, try_except. destruct kwargs; reflexivity. }
  unfold append_function_call_output. unfold bind at 1.
  rewrite (registered_function_call_is_executed
             (FunctionCall.Build (Some name) (VDict kwargs) (Some id))
             name tool_impl kwargs output_str decoded w eq_refl Hname Hget Hparse Hcall
             Hdecode).
  reflexivity.
Qed.

(** ** Caps that are not positive *)

(** X3.  With [max_iterations] zero or negative the range is empty: no
    provider call, and the sentinel. *)
Lemma no_pass_without_budget input_list tools model (max_iterations : Z) w :
  blank (getenv environ "OPENAI_API_KEY") = false ->
  (max_iterations <= 0)%Z ->
  invoke_openai_loop responses_create environ get_tool input_list tools model
    max_iterations w
  = (w, Ok sentinel).
Proof.
  intros Hkey Hcap. unfold invoke_openai_loop. rewrite Hkey. cbn zeta.
  replace (Z.to_nat max_iterations) with 0%nat by lia. reflexivity.
Qed.

End Loop.
(** ** The loop on the sample provider *)

#[local] Existing Instance Sample.builtins.

(** One pass over a response that asks for three tools: two function calls
    around a tool use.  The results come in the order call_1, call_2,
    tu_1. *)
Lemma results_follow_requests_witness :
  requested (parse_response Sample.mixed_requests) = 3%nat
  /\ exists (w2 : World unit) (results : list (dict value)),
       iteration (Sample.always Sample.mixed_requests) Sample.environ Sample.get_tool
         None default_model Sample.user_input (Sample.fresh tt)
       = (w2, Ok (Continue
                    (Sample.user_input
                     ++ map Item (Response.output Sample.mixed_requests)
                     ++ map Entry results)%list))
       /\ List.length results = 3%nat
       /\ map correlation results
          = [ (Some (VStr "function_call_output"), Some (VStr "call_1"));
              (Some (VStr "function_call_output"), Some (VStr "call_2"));
              (Some (VStr "tool_result"), Some (VStr "tu_1")) ]
       /\ List.length (sent w2) = 1%nat.
Proof.
  split; [reflexivity |].
  assert (Hinvoke :
    invoke_openai (Sample.always Sample.mixed_requests) Sample.environ Sample.user_input
      None default_model (Sample.fresh tt)
    = (MkWorld tt [response_kwargs Sample.user_input None default_model] [],
       Ok (parse_response Sample.mixed_requests))) by reflexivity.
  assert (Hrequested : requested (parse_response Sample.mixed_requests) <> 0%nat)
    by discriminate.
  destruct (results_follow_requests unit (Sample.always Sample.mixed_requests)
              Sample.environ Sample.get_tool None default_model Sample.user_input
              (Sample.fresh tt) _ _ Hinvoke Hrequested)
    as (w2 & results & Hiter & Hlength & Hcorrelation & Hsent & _).
  exists w2, results.
  split; [exact Hiter |].
  split; [exact Hlength |].
  split; [exact Hcorrelation |].
  rewrite Hsent. reflexivity.
Defined.

Lemma always_requests_tools :
  forall (c : unit) (request : Request.t),
  exists c' response,
    Sample.always Sample.mixed_requests c request = (c', Ok response)
    /\ requested (parse_response response) <> 0%nat.
Proof.
  intros c request. exists c, Sample.mixed_requests.
  split; [reflexivity | discriminate].
Defined.

(** A provider that asks for tools for ever, under the default cap: five
    calls, then the sentinel. *)
Lemma exhaustion_after_max_iterations_witness :
  blank (getenv Sample.environ "OPENAI_API_KEY") = false
  /\ (0 <= default_max_iterations)%Z
  /\ exists w' : World unit,
       invoke_openai_loop (Sample.always Sample.mixed_requests) Sample.environ
         Sample.get_tool Sample.user_input None default_model default_max_iterations
         (Sample.fresh tt)
       = (w', Ok "Reached max tool iterations without final answer.")
       /\ Z.of_nat (List.length (sent w')) = 5%Z.
Proof.
  assert (Hkey : blank (getenv Sample.environ "OPENAI_API_KEY") = false) by reflexivity.
  assert (Hcap : (0 <= default_max_iterations)%Z) by (unfold default_max_iterations; lia).
  split; [exact Hkey |]. split; [exact Hcap |].
  destruct (exhaustion_after_max_iterations unit (Sample.always Sample.mixed_requests)
              Sample.environ Sample.get_tool Sample.user_input None default_model
              default_max_iterations (Sample.fresh tt) Hkey Hcap always_requests_tools)
    as (w' & Hrun & Hcount).
  exists w'. split; [exact Hrun | exact Hcount].
Defined.

(** The same run, computed: the five requests of the log carry input lists
    of 2, 8, 14, 20 and 26 elements, each pass adding three output items
    and three results. *)
Example exhaustion_computed :
  let '(w', returned) :=
    invoke_openai_loop (Sample.always Sample.mixed_requests) Sample.environ
      Sample.get_tool Sample.user_input None default_model default_max_iterations
      (Sample.fresh tt) in
  returned = Ok sentinel
  /\ map (fun request => List.length (Request.input request)) (sent w')
     = [2; 8; 14; 20; 26]%nat.
Proof. vm_compute. split; reflexivity. Qed.

(** The scenario of the spec: a request for [calculate_pension], then
    the final text.  Two provider calls, the text returned as it is, and the
    second request carries the call and its result. *)
Example pension_scenario :
  exists (w' : World (list Response.t)) (second : Request.t) (answer : dict value),
    invoke_openai_loop Sample.scripted Sample.environ Sample.get_tool Sample.user_input
      None default_model default_max_iterations
      (Sample.fresh [Sample.pension_request; Sample.pension_answer])
    = (w', Ok "Your projected pension is ...")
    /\ List.length (sent w') = 2%nat
    /\ nth_error (sent w') 1 = Some second
    /\ Request.input second
       = (Sample.user_input
          ++ map Item (Response.output Sample.pension_request)
          ++ [Entry answer])%list
    /\ correlation answer = (Some (VStr "function_call_output"), Some (VStr "call_1"))
    /\ dict_get answer "output"
       = Some (VStr (json_dumps
                       (VDict [ ("input", Sample.pension_arguments);
                                ("note", VStr
                                   "Stub calculate_pension implementation. Replace with real logic.") ]))).
Proof.
  eexists. eexists. eexists.
  split; [vm_compute; reflexivity |].
  split; [reflexivity |].
  split; [reflexivity |].
  split; [vm_compute; reflexivity |].
  split; vm_compute; reflexivity.
Qed.

(** C4, as the spec states it, fails on a text of one space: the text is
    not empty, there is no tool request, and what comes back is the
    serialized result, not the text. *)
Lemma blank_text_is_not_returned :
  requested (parse_response Sample.blank_answer) = 0%nat
  /\ Result.output_text (parse_response Sample.blank_answer) = VStr " "
  /\ " " <> ""
  /\ exists (w' : World unit) (returned : string),
       invoke_openai_loop (Sample.always Sample.blank_answer) Sample.environ
         Sample.get_tool Sample.user_input None default_model default_max_iterations
         (Sample.fresh tt)
       = (w', Ok returned)
       /\ returned <> " "
       /\ returned
          = json_dumps (VDict [ ("output_items", VList []);
                                ("function_calls", VList []);
                                ("tool_uses", VList []);
                                ("output_text", VStr " ") ]).
Proof.
  split; [reflexivity |]. split; [reflexivity |]. split; [discriminate |].
  eexists. eexists. split; [vm_compute; reflexivity |].
  split; [discriminate | vm_compute; reflexivity].
Qed.

(** The final text of the pension scenario, and the fallback on the blank
    answer. *)
Lemma final_answer_without_tool_requests_witness :
  (exists w1 : World unit,
     iteration (Sample.always Sample.pension_answer) Sample.environ Sample.get_tool
       None default_model Sample.user_input (Sample.fresh tt)
     = (w1, Ok (Return "Your projected pension is ...")))
  /\ (exists (w1 : World unit) (serialized : string),
        iteration (Sample.always Sample.blank_answer) Sample.environ Sample.get_tool
          None default_model Sample.user_input (Sample.fresh tt)
        = (w1, Ok (Return serialized))
        /\ serialized <> "").
Proof.
  split.
  - assert (Hinvoke :
      invoke_openai (Sample.always Sample.pension_answer) Sample.environ
        Sample.user_input None default_model (Sample.fresh tt)
      = (MkWorld tt [response_kwargs Sample.user_input None default_model] [],
         Ok (parse_response Sample.pension_answer))) by reflexivity.
    destruct (final_answer_without_tool_requests unit
                (Sample.always Sample.pension_answer) Sample.environ Sample.get_tool
                None default_model Sample.user_input (Sample.fresh tt) _ _ Hinvoke eq_refl)
      as [Htext _].
    destruct (Htext "Your projected pension is ..." eq_refl eq_refl) as [Hiter _].
    eexists. exact Hiter.
  - assert (Hinvoke :
      invoke_openai (Sample.always Sample.blank_answer) Sample.environ
        Sample.user_input None default_model (Sample.fresh tt)
      = (MkWorld tt [response_kwargs Sample.user_input None default_model] [],
         Ok (parse_response Sample.blank_answer))) by reflexivity.
    destruct (final_answer_without_tool_requests unit
                (Sample.always Sample.blank_answer) Sample.environ Sample.get_tool
                None default_model Sample.user_input (Sample.fresh tt) _ _ Hinvoke eq_refl)
      as [_ Hfallback].
    assert (Hblank : forall text : string,
               Result.output_text (parse_response Sample.blank_answer) = VStr text ->
               only_whitespace text = true).
    { intros text Heq. injection Heq as <-. reflexivity. }
    destruct (Hfallback [] Hblank eq_refl) as (Hnonempty & Hiter & _).
    eexists. eexists. split; [exact Hiter | exact Hnonempty].
Defined.


Lemma no_pass_without_budget_witness :
  invoke_openai_loop (Sample.always Sample.mixed_requests) Sample.environ Sample.get_tool
    Sample.user_input None default_model (-1) (Sample.fresh tt)
  = (Sample.fresh tt, Ok sentinel).
Proof.
  apply (no_pass_without_budget unit (Sample.always Sample.mixed_requests)
           Sample.environ Sample.get_tool Sample.user_input None default_model (-1)%Z
           (Sample.fresh tt)); [reflexivity | lia].
Defined.

Lemma loop_without_key_witness :
  invoke_openai_loop (Sample.always Sample.mixed_requests) [("OPENAI_API_KEY", "")]
    Sample.get_tool Sample.user_input None default_model default_max_iterations
    (Sample.fresh tt)
  = (Sample.fresh tt, Raise missing_key).
Proof.
  apply (loop_without_key unit (Sample.always Sample.mixed_requests)
           [("OPENAI_API_KEY", "")] Sample.get_tool Sample.user_input None default_model
           default_max_iterations (Sample.fresh tt)).
  reflexivity.
Defined.

(** An SDK message with no text: the fallback raises. *)
Example fallback_raises :
  let silent :=
    {| Response.output := [Sample.message_item [Sample.text_part]];
       Response.output_text := VNone |} in
  exists w' : World unit,
    invoke_openai_loop (Sample.always silent) Sample.environ Sample.get_tool
      Sample.user_input None default_model default_max_iterations (Sample.fresh tt)
    = (w', Raise not_serializable).
Proof. eexists. vm_compute. reflexivity. Qed.

(** The calculator on expenses of 10^400: its [OverflowError] ends up in
    the payload. *)
Lemma tool_exception_becomes_error_payload_witness :
  let parsed_args := VDict [("expected_medical_expenses", VInt (10 ^ 400))] in
  Sample.get_tool "fsa_hsa_calculator" = Some Tools.fsa_hsa_calculator_tool
  /\ parse_arguments (FunctionCall.arguments Sample.huge_expenses) = Ok parsed_args
  /\ call_tool Tools.fsa_hsa_calculator_tool parsed_args
     = Raise (Exception "OverflowError" "int too large to convert to float")
  /\ forall w : World unit,
       function_call_output Sample.get_tool Sample.huge_expenses w
       = (w, Ok [ ("type", VStr "function_call_output");
                  ("call_id", VStr "call_9");
                  ("output",
                     VStr (json_dumps
                             (VDict [ ("error", VStr
                                         "Tool execution failed: int too large to convert to float");
                                      ("input", parsed_args) ]))) ]).
Proof.
  cbn zeta.
  assert (Hget : Sample.get_tool "fsa_hsa_calculator" = Some Tools.fsa_hsa_calculator_tool)
    by reflexivity.
  assert (Hparse : parse_arguments (FunctionCall.arguments Sample.huge_expenses)
                   = Ok (VDict [("expected_medical_expenses", VInt (10 ^ 400))]))
    by (vm_compute; reflexivity).
  assert (Hcall : call_tool Tools.fsa_hsa_calculator_tool
                    (VDict [("expected_medical_expenses", VInt (10 ^ 400))])
                  = Raise (Exception "OverflowError" "int too large to convert to float"))
    by (vm_compute; reflexivity).
  assert (Hname : "fsa_hsa_calculator" <> "") by discriminate.
  split; [exact Hget |]. split; [exact Hparse |]. split; [exact Hcall |].
  destruct (tool_exception_becomes_error_payload unit
              (Sample.always Sample.mixed_requests) Sample.environ Sample.get_tool
              Sample.huge_expenses "fsa_hsa_calculator" Tools.fsa_hsa_calculator_tool
              _ _ eq_refl Hname Hget Hparse Hcall) as [Hfixed _].
  exact Hfixed.
Defined.



(** [calculate_pension] on the arguments of the scenario, asked for through
    either channel. *)
Lemma tool_use_skips_registered_tool_witness :
  let output_str :=
    json_dumps
      (VDict [ ("input", Sample.pension_arguments);
               ("note", VStr
                  "Stub calculate_pension implementation. Replace with real logic.") ]) in
  Sample.get_tool "calculate_pension" = Some Tools.calculate_pension_tool
  /\ (exists executed : dict value,
        append_function_call_output Sample.get_tool Sample.user_input
          (FunctionCall.Build (Some "calculate_pension") Sample.pension_arguments
             (Some "call_1"))
          (Sample.fresh tt)
        = (MkWorld tt [] [output_str], Ok (Sample.user_input ++ [Entry executed])%list)
        /\ dict_get executed "output" = Some (VStr output_str))
  /\ (exists (ignored : dict value) (content : string),
        append_tool_result Sample.user_input
          (ToolUse.Build (Some "call_1") (Some "calculate_pension") Sample.pension_arguments)
          (Sample.fresh tt)
        = (Sample.fresh tt, Ok (Sample.user_input ++ [Entry ignored])%list)
        /\ dict_get ignored "content" = Some (VStr content)
        /\ occurs "Tool 'calculate_pension' called with args" content = true
        /\ occurs "Stub calculate_pension implementation" content = false).
Proof.
  cbn zeta.
  assert (Hget : Sample.get_tool "calculate_pension" = Some Tools.calculate_pension_tool)
    by reflexivity.
  assert (Hname : "calculate_pension" <> "") by discriminate.
  assert (Hdecode :
    json_loads
      (json_dumps
         (VDict [ ("input", Sample.pension_arguments);
                  ("note", VStr
                     "Stub calculate_pension implementation. Replace with real logic.") ]))
    = Ok (VDict [ ("input", Sample.pension_arguments);
                  ("note", VStr
                     "Stub calculate_pension implementation. Replace with real logic.") ]))
    by (vm_compute; reflexivity).
  destruct (tool_use_skips_registered_tool (builtins := Sample.builtins) unit
              Sample.get_tool "calculate_pension" "call_1" Tools.calculate_pension_tool
              [ ("current_salary", VInt 90000);
                ("years_of_service", VInt 10);
                ("retirement_age", VInt 65) ]
              _ _ Sample.user_input (Sample.fresh tt) Hname Hget eq_refl Hdecode)
    as [Hcall Huse].
  split; [exact Hget |]. split.
  - eexists. split; [exact Hcall |]. vm_compute. reflexivity.
  - eexists. eexists. split; [exact Huse |].
    split; [reflexivity |]. split; vm_compute; reflexivity.
Defined.

(** The two channels on one response: the function call for
    [calculate_pension] runs the tool, the tool use for the same tool with
    the same arguments does not; one line is printed, not two. *)
Example channels_differ :
  exists (w' : World unit) (executed unknown ignored : dict value)
         (output content : string),
    iteration (Sample.always Sample.mixed_requests) Sample.environ Sample.get_tool
      None default_model Sample.user_input (Sample.fresh tt)
    = (w', Ok (Continue
                 (Sample.user_input
                  ++ map Item (Response.output Sample.mixed_requests)
                  ++ [Entry executed; Entry unknown; Entry ignored])%list))
    /\ List.length (stdout w') = 1%nat
    /\ correlation executed = (Some (VStr "function_call_output"), Some (VStr "call_1"))
    /\ dict_get executed "output" = Some (VStr output)
    /\ occurs "Stub calculate_pension implementation" output = true
    /\ correlation ignored = (Some (VStr "tool_result"), Some (VStr "tu_1"))
    /\ dict_get ignored "content" = Some (VStr content)
    /\ occurs "Tool 'calculate_pension' called with args {'current_salary': 90000" content
       = true
    /\ occurs "Implementation needed." content = true.
Proof.
  do 6 eexists.
  split; [vm_compute; reflexivity |].
  repeat split; vm_compute; reflexivity.
Qed.

End LoopFacts.

(* ================================================================== *)
(** * Further properties of the provider call and of the loop *)
(* ================================================================== *)

Module RunFacts.
Import Provider.




(** One input list continues another. *)
Definition extends (earlier later : list InputItem) : Prop :=
  exists suffix, later = (earlier ++ suffix)%list.




Section Run.

Context {builtins : Builtins}.
Variable Client : Type.
Variable responses_create : Client -> Request.t -> Client * exc Response.t.
Variable environ : dict string.
Variable get_tool : string -> option BaseTool.t.

Implicit Types (w : World Client) (loop_input : list InputItem)
  (tools : option (list (dict value))) (model : string).

(** What a pass does to the log of requests, whatever the provider does:
    without a credential nothing is sent; with one, exactly the request for
    the current input list, and a pass that goes on does so from a list that
    continues the current one. *)
Lemma iteration_sends tools model loop_input w :
  forall w' outcome,
    iteration responses_create environ get_tool tools model loop_input w = (w', outcome) ->
    (sent w' = sent w /\ outcome = Raise missing_key)
    \/ (sent w' = (sent w ++ [response_kwargs loop_input tools model])%list
        /\ forall loop_input', outcome = Ok (Continue loop_input') ->
                               extends loop_input loop_input').
Proof.
  intros w' outcome Hiter.
  destruct (blank (getenv environ "OPENAI_API_KEY")) eqn:Hkey.
  - left. unfold iteration in Hiter. unfold bind at 1 in Hiter.
    rewrite (LoopFacts.invoke_openai_without_key Client responses_create environ
               loop_input tools model w Hkey) in Hiter.
    injection Hiter as <- <-. split; reflexivity.
  - right.
    pose proof (LoopFacts.invoke_openai_calls_once Client responses_create environ
                  loop_input tools model w Hkey) as Hcall.
    cbn zeta in Hcall.
    destruct (responses_create (client w) (response_kwargs loop_input tools model))
      as [c [response | e]].
    + destruct (Nat.eq_dec (requested (parse_response response)) 0) as [Hnone | Hsome].
      * unfold iteration in Hiter. unfold bind at 1 in Hiter. rewrite Hcall in Hiter.
        cbn zeta in Hiter. unfold requested in Hnone.
        destruct (Result.function_calls (parse_response response)); [| discriminate].
        destruct (Result.tool_uses (parse_response response)); [| discriminate].
        unfold bind, lift, ret in Hiter.
        destruct (final_answer (parse_response response));
          injection Hiter as <- <-; (split; [reflexivity | discriminate]).
      * destruct (LoopFacts.iteration_resolves Client responses_create environ get_tool
                    tools model loop_input w _ _ Hcall Hsome)
          as (w2 & entries & Hres & _ & Hsent & _).
        rewrite Hres in Hiter. injection Hiter as <- <-.
        split; [exact Hsent |].
        intros loop_input' Heq. injection Heq as <-. eexists. reflexivity.
    + unfold iteration in Hiter. unfold bind at 1 in Hiter. rewrite Hcall in Hiter.
      injection Hiter as <- <-. split; [reflexivity | discriminate].
Qed.

Lemma extends_trans (a b c : list InputItem) : extends a b -> extends b c -> extends a c.
Proof. intros [s ->] [t ->]. exists (s ++ t)%list. now rewrite app_assoc. Qed.

(** The requests of a run of the loop body: at most one per pass, each for
    the given tools and model and for an input list that continues the first
    one, every later input list continuing every earlier one. *)
Lemma iterate_sends (passes : nat) tools model :
  forall loop_input w w' outcome,
    iterate responses_create environ get_tool passes tools model loop_input w
    = (w', outcome) ->
    exists new : list Request.t,
      sent w' = (sent w ++ new)%list
      /\ (List.length new <= passes)%nat
      /\ Forall (fun request =>
                   exists later, extends loop_input later
                                 /\ request = response_kwargs later tools model) new
      /\ StronglySorted extends (map Request.input new).
Proof.
  induction passes as [| passes IH]; intros loop_input w w' outcome Hrun.
  - cbn [iterate] in Hrun. injection Hrun as <- <-. exists [].
    rewrite app_nil_r. repeat split; [cbn; lia | constructor | constructor].
  - cbn [iterate] in Hrun. unfold bind at 1 in Hrun.
    destruct (iteration responses_create environ get_tool tools model loop_input w)
      as [w1 step] eqn:Hiter.
    destruct (iteration_sends tools model loop_input w w1 step Hiter)
      as [[Hsent ->] | [Hsent Hnext]].
    + injection Hrun as <- <-. exists []. rewrite app_nil_r.
      repeat split; [exact Hsent | cbn; lia | constructor | constructor].
    + assert (Hone :
        exists new : list Request.t,
          sent w1 = (sent w ++ new)%list /\ (List.length new <= S passes)%nat
          /\ Forall (fun request =>
                       exists later, extends loop_input later
                                     /\ request = response_kwargs later tools model) new
          /\ StronglySorted extends (map Request.input new)).
      { exists [response_kwargs loop_input tools model].
        repeat split; [exact Hsent | cbn; lia | | ].
        - constructor; [| constructor]. exists loop_input. split; [| reflexivity].
          exists []. now rewrite app_nil_r.
        - cbn [map]. constructor; constructor. }
      destruct step as [[text | loop_input'] | e].
      * injection Hrun as <- <-. exact Hone.
      * destruct (IH loop_input' w1 w' outcome Hrun)
          as (new & Hsent' & Hlen & Hall & Hsorted).
        pose proof (Hnext loop_input' eq_refl) as Hext.
        exists (response_kwargs loop_input tools model :: new).
        split; [rewrite Hsent', Hsent, <- app_assoc; reflexivity |].
        split; [cbn; lia |].
        split.
        { constructor.
          - exists loop_input. split; [exists []; now rewrite app_nil_r | reflexivity].
          - eapply Forall_impl; [| exact Hall].
            intros request (later & Hlater & ->). exists later.
            split; [eapply extends_trans; eassumption | reflexivity]. }
        { cbn [map]. constructor; [exact Hsorted |].
          rewrite LoopFacts.response_kwargs_input. apply Forall_map.
          eapply Forall_impl; [| exact Hall].
          intros request (later & Hlater & ->).
          rewrite LoopFacts.response_kwargs_input.
          eapply extends_trans; eassumption. }
      * injection Hrun as <- <-. exact Hone.
Qed.

(** X11.  Whatever the provider answers and however the run ends, a call
    of [invoke_openai_loop] sends at most [max_iterations] requests.  Each
    carries the model and the tools it was given, and an input list that
    starts with the caller's [input_list]; the input list of every later
    request starts with that of every earlier one, so nothing put into the
    transcript is taken out or rewritten. *)
Theorem requests_are_bounded_and_grow :
  forall input_list tools model (max_iterations : Z) w w' outcome,
    invoke_openai_loop responses_create environ get_tool input_list tools model
      max_iterations w
    = (w', outcome) ->
    exists new : list Request.t,
      sent w' = (sent w ++ new)%list
      /\ (Z.of_nat (List.length new) <= Z.max 0 max_iterations)%Z
      /\ Forall (fun request =>
                   exists later, extends input_list later
                                 /\ request = response_kwargs later tools model) new
      /\ StronglySorted extends (map Request.input new).
Proof.
  intros input_list tools model max_iterations w w' outcome Hrun.
  unfold invoke_openai_loop in Hrun.
  destruct (blank (getenv environ "OPENAI_API_KEY")).
  - injection Hrun as <- <-. exists []. rewrite app_nil_r.
    repeat split; [cbn; lia | constructor | constructor].
  - cbn zeta in Hrun.
    destruct (iterate_sends (Z.to_nat max_iterations) tools model input_list w w' outcome
                Hrun) as (new & Hsent & Hlen & Hall & Hsorted).
    exists new. repeat split; try assumption. lia.
Qed.

(** X12.  A failure of the provider is neither retried nor swallowed: when
    the first call raises, [invoke_openai_loop] raises the same exception,
    with that one request sent. *)
Theorem provider_failure_propagates :
  forall input_list tools model (max_iterations : Z) w (c : Client) (e : exn),
    blank (getenv environ "OPENAI_API_KEY") = false ->
    (0 < max_iterations)%Z ->
    responses_create (client w) (response_kwargs input_list tools model) = (c, Raise e) ->
    invoke_openai_loop responses_create environ get_tool input_list tools model
      max_iterations w
    = (MkWorld c (sent w ++ [response_kwargs input_list tools model]) (stdout w), Raise e).
Proof.
  intros input_list tools model max_iterations w c e Hkey Hcap Hfail.
  unfold invoke_openai_loop. rewrite Hkey. cbn zeta.
  destruct (Z.to_nat max_iterations) as [| passes] eqn:Hpasses; [lia |].
  cbn [iterate]. unfold bind at 1. unfold iteration. unfold bind at 1.
  rewrite (LoopFacts.invoke_openai_calls_once Client responses_create environ
             input_list tools model w Hkey).
  cbn zeta. rewrite Hfail. reflexivity.
Qed.

(** X13.  A registered tool whose output is not JSON has run, and its
    output is printed, but the call is answered as a failed execution: the
    payload holds the decoder's message under [error] and the arguments
    under [input]. *)
Theorem output_that_is_not_json_is_an_error :
  forall (fc : FunctionCall.t) (name : string) (tool_impl : BaseTool.t)
         (kwargs : dict value) (output_str : string) (e : exn) w,
    FunctionCall.name fc = Some name ->
    name <> "" ->
    get_tool name = Some tool_impl ->
    parse_arguments (FunctionCall.arguments fc) = Ok (VDict kwargs) ->
    BaseTool.call tool_impl kwargs = Ok output_str ->
    json_loads output_str = Raise e ->
    function_call_output get_tool fc w
    = (MkWorld (client w) (sent w) (stdout w ++ [output_str]),
       Ok [ ("type", VStr "function_call_output");
            ("call_id", opt_str (FunctionCall.call_id fc));
            ("output",
               VStr (json_dumps
                       (VDict [ ("error", VStr ("Tool execution failed: " ++ exn_str e));
                                ("input", VDict kwargs) ]))) ]).
Proof.
  intros fc name tool_impl kwargs output_str e w Hname Hnonempty Hget Hparse Hcall Hjson.
  rewrite (LoopFacts.function_call_output_unfold Client get_tool fc (VDict kwargs) w Hparse).
  rewrite Hname.
  rewrite (LoopFacts.execute_returned Client get_tool name tool_impl (VDict kwargs)
             output_str w Hnonempty Hget Hcall).
  rewrite Hjson. reflexivity.
Qed.

(** X14.  Arguments that decode to something other than a mapping (a list,
    a number, a string) cannot be unpacked: the registered tool does not
    run, nothing is printed, and the call is answered by an error payload
    for a [TypeError], with the decoded arguments under [input]. *)
Theorem arguments_that_are_no_mapping_are_an_error :
  forall (fc : FunctionCall.t) (name : string) (tool_impl : BaseTool.t)
         (parsed_args : value) w,
    FunctionCall.name fc = Some name ->
    name <> "" ->
    get_tool name = Some tool_impl ->
    parse_arguments (FunctionCall.arguments fc) = Ok parsed_args ->
    (forall kwargs, parsed_args <> VDict kwargs) ->
    exists e : exn,
      exn_class e = "TypeError"
      /\ function_call_output get_tool fc w
         = (w, Ok [ ("type", VStr "function_call_output");
                    ("call_id", opt_str (FunctionCall.call_id fc));
                    ("output",
                       VStr (json_dumps
                               (VDict [ ("error",
                                         VStr ("Tool execution failed: " ++ exn_str e));
                                        ("input", parsed_args) ]))) ]).
Proof.
  intros fc name tool_impl parsed_args w Hname Hnonempty Hget Hparse Hshape.
  assert (Hcall : call_tool tool_impl parsed_args
                  = Raise (Exception "TypeError" "argument after ** must be a mapping")).
  { destruct parsed_args; try reflexivity. now destruct (Hshape entries). }
  eexists. split; [| rewrite (LoopFacts.function_call_output_unfold Client get_tool fc
                               parsed_args w Hparse), Hname,
                       (LoopFacts.execute_raised Client get_tool name tool_impl parsed_args
                          _ w Hnonempty Hget Hcall); reflexivity].
  reflexivity.
Qed.

(** A run of the loop body that sends fewer requests than it has passes
    ends the same way with more passes. *)
Lemma iterate_spare (passes : nat) tools model :
  forall loop_input w w' outcome,
    iterate responses_create environ get_tool passes tools model loop_input w
    = (w', outcome) ->
    (List.length (sent w') < List.length (sent w) + passes)%nat ->
    forall more : nat,
      iterate responses_create environ get_tool (passes + more) tools model loop_input w
      = (w', outcome).
Proof.
  induction passes as [| passes IH]; intros loop_input w w' outcome Hrun Hspare more.
  - cbn [iterate] in Hrun. injection Hrun as <- <-. lia.
  - cbn [iterate Nat.add] in Hrun |- *. unfold bind at 1 in Hrun. unfold bind at 1.
    destruct (iteration responses_create environ get_tool tools model loop_input w)
      as [w1 step] eqn:Hiter.
    destruct step as [[text | loop_input'] | e]; try exact Hrun.
    destruct (iteration_sends tools model loop_input w w1 _ Hiter)
      as [[_ Habsurd] | [Hsent _]]; [discriminate |].
    apply IH; [exact Hrun |]. rewrite Hsent, length_app. cbn [List.length]. lia.
Qed.

(** X15.  [max_iterations] is a cap and nothing else: a run that sent
    fewer requests than its cap allows, whether it ended in an answer or in
    an exception, ends in the same answer or exception, and in the same
    world, under every larger cap. *)
Theorem larger_cap_same_run :
  forall input_list tools model (max_iterations larger : Z) w w' outcome,
    invoke_openai_loop responses_create environ get_tool input_list tools model
      max_iterations w
    = (w', outcome) ->
    (Z.of_nat (List.length (sent w')) < Z.of_nat (List.length (sent w)) + max_iterations)%Z ->
    (max_iterations <= larger)%Z ->
    invoke_openai_loop responses_create environ get_tool input_list tools model larger w
    = (w', outcome).
Proof.
  intros input_list tools model max_iterations larger w w' outcome Hrun Hspare Hlarger.
  unfold invoke_openai_loop in Hrun |- *.
  destruct (blank (getenv environ "OPENAI_API_KEY")); [exact Hrun |].
  cbn zeta in Hrun |- *.
  replace (Z.to_nat larger)
    with (Z.to_nat max_iterations + (Z.to_nat larger - Z.to_nat max_iterations))%nat
    by lia.
  apply iterate_spare; [exact Hrun | lia].
Qed.

End Run.

#[local] Existing Instance Sample.builtins.

(** The run that exhausts the default cap: five requests, the input list of
    each continuing that of the one before. *)
Lemma requests_are_bounded_and_grow_witness :
  exists new : list Request.t,
    sent (fst (invoke_openai_loop (Sample.always Sample.mixed_requests) Sample.environ
                 Sample.get_tool Sample.user_input None default_model
                 default_max_iterations (Sample.fresh tt)))
    = ([] ++ new)%list
    /\ (Z.of_nat (List.length new) <= Z.max 0 default_max_iterations)%Z
    /\ Forall (fun request =>
                 exists later, extends Sample.user_input later
                               /\ request = response_kwargs later None default_model) new
    /\ StronglySorted extends (map Request.input new).
Proof.
  apply (requests_are_bounded_and_grow unit (Sample.always Sample.mixed_requests)
           Sample.environ Sample.get_tool Sample.user_input None default_model
           default_max_iterations (Sample.fresh tt) _ _ (surjective_pairing _)).
Defined.

(** A provider with nothing left to say fails at the first call. *)
Lemma provider_failure_propagates_witness :
  invoke_openai_loop Sample.scripted Sample.environ Sample.get_tool Sample.user_input
    None default_model default_max_iterations (Sample.fresh [])
  = (MkWorld [] [response_kwargs Sample.user_input None default_model] [],
     Raise (Exception "APIConnectionError" "Connection error.")).
Proof.
  apply (provider_failure_propagates (list Response.t) Sample.scripted Sample.environ
           Sample.get_tool Sample.user_input None default_model default_max_iterations
           (Sample.fresh []) [] (Exception "APIConnectionError" "Connection error."));
    [reflexivity | unfold default_max_iterations; lia | reflexivity].
Defined.

Lemma output_that_is_not_json_is_an_error_witness :
  function_call_output Sample.plain_registry Sample.plain_call (Sample.fresh tt)
  = (MkWorld tt [] ["done"],
     Ok [ ("type", VStr "function_call_output");
          ("call_id", VStr "call_5");
          ("output",
             VStr (json_dumps
                     (VDict [ ("error", VStr "Tool execution failed: Expecting value");
                              ("input", VDict []) ]))) ]).
Proof.
  apply (output_that_is_not_json_is_an_error unit Sample.plain_registry Sample.plain_call "plain"
           Sample.plain_tool [] "done" (Exception "JSONDecodeError" "Expecting value")
           (Sample.fresh tt));
    [reflexivity | discriminate | reflexivity | reflexivity | reflexivity | reflexivity].
Defined.

Lemma arguments_that_are_no_mapping_are_an_error_witness :
  exists e : exn,
    exn_class e = "TypeError"
    /\ function_call_output Sample.get_tool Sample.array_arguments (Sample.fresh tt)
       = (Sample.fresh tt,
          Ok [ ("type", VStr "function_call_output");
               ("call_id", VStr "call_6");
               ("output",
                  VStr (json_dumps
                          (VDict [ ("error", VStr ("Tool execution failed: " ++ exn_str e));
                                   ("input", VList [VInt 1; VInt 2]) ]))) ]).
Proof.
  apply (arguments_that_are_no_mapping_are_an_error unit Sample.get_tool Sample.array_arguments
           "calculate_pension" Tools.calculate_pension_tool (VList [VInt 1; VInt 2])
           (Sample.fresh tt));
    [reflexivity | discriminate | reflexivity | vm_compute; reflexivity | discriminate].
Defined.

(** The pension scenario, which needs two of its five passes, under a cap
    of fifty. *)
Lemma larger_cap_same_run_witness :
  invoke_openai_loop Sample.scripted Sample.environ Sample.get_tool Sample.user_input
    None default_model 50
    (Sample.fresh [Sample.pension_request; Sample.pension_answer])
  = invoke_openai_loop Sample.scripted Sample.environ Sample.get_tool Sample.user_input
      None default_model default_max_iterations
      (Sample.fresh [Sample.pension_request; Sample.pension_answer]).
Proof.
  rewrite (surjective_pairing
             (invoke_openai_loop Sample.scripted Sample.environ Sample.get_tool
                Sample.user_input None default_model default_max_iterations
                (Sample.fresh [Sample.pension_request; Sample.pension_answer]))).
  apply (larger_cap_same_run (list Response.t) Sample.scripted Sample.environ
           Sample.get_tool Sample.user_input None default_model default_max_iterations 50
           (Sample.fresh [Sample.pension_request; Sample.pension_answer]) _ _
           (surjective_pairing _)).
  - vm_compute. reflexivity.
  - unfold default_max_iterations. lia.
Defined.

End RunFacts.

Module ScriptFacts.
Import Provider.

Section Script.

Context {builtins : Builtins}.
Variable environ : dict string.
Variable get_tool : string -> option BaseTool.t.

Hypothesis Hkey : blank (getenv environ "OPENAI_API_KEY") = false.

(** The loop body on a provider that answers from a script: every response
    that asks for tools costs one pass, and the first that asks for none
    ends the run. *)
Lemma iterate_on_script (requests : list Response.t) :
  forall (final : Response.t) (rest : list Response.t) (text : string)
         (passes : nat) tools model loop_input (w : World (list Response.t)),
    Forall (fun response => requested (parse_response response) <> 0%nat) requests ->
    requested (parse_response final) = 0%nat ->
    final_answer (parse_response final) = Ok text ->
    (List.length requests < passes)%nat ->
    client w = (requests ++ final :: rest)%list ->
    exists w',
      iterate Sample.scripted environ get_tool passes tools model loop_input w
      = (w', Ok text)
      /\ client w' = rest
      /\ List.length (sent w') = (List.length (sent w) + List.length requests + 1)%nat.
Proof.
  induction requests as [| response requests IH];
    intros final rest text passes tools model loop_input w Hall Hnone Hfinal Hlen Hclient;
    (destruct passes as [| passes]; [cbn in Hlen; lia |]).
  - pose proof (LoopFacts.invoke_openai_calls_once _ Sample.scripted environ
                  loop_input tools model w Hkey) as Hcall.
    rewrite Hclient in Hcall. cbn in Hcall.
    destruct (LoopFacts.iteration_returns _ Sample.scripted environ get_tool tools model
                loop_input w _ _ text Hcall Hnone Hfinal) as [_ Hrun].
    eexists. split; [apply Hrun |]. cbn [client sent].
    split; [reflexivity |]. rewrite length_app. cbn. lia.
  - pose proof (LoopFacts.invoke_openai_calls_once _ Sample.scripted environ
                  loop_input tools model w Hkey) as Hcall.
    rewrite Hclient in Hcall. cbn in Hcall.
    inversion Hall as [| ? ? Hsome Hlater]; subst.
    destruct (LoopFacts.iteration_resolves _ Sample.scripted environ get_tool tools model
                loop_input w _ _ Hcall Hsome)
      as (w2 & entries & Hiter & Hclient2 & Hsent2 & _).
    cbn [client sent] in Hclient2, Hsent2.
    cbn [List.length] in Hlen.
    assert (Hbudget : (List.length requests < passes)%nat) by lia.
    match type of Hiter with
    | _ = (_, Ok (Continue ?next)) =>
        destruct (IH final rest text passes tools model next w2 Hlater Hnone Hfinal
                    Hbudget Hclient2) as (w' & Hrun & Hrest & Hcount)
    end.
    exists w'. split.
    + cbn [iterate]. unfold bind at 1. rewrite Hiter. exact Hrun.
    + split; [exact Hrest |]. rewrite Hcount, Hsent2, length_app. cbn. lia.
Qed.

(** X1.  The loop against a provider that answers from a script.  When the
    first [k] responses ask for tools, the next one asks for none and has a
    final answer, and [k] is below [max_iterations], the loop returns that
    answer after exactly [k + 1] requests and leaves the rest of the script
    unread: it never calls the provider again once it has an answer. *)
Theorem answer_after_k_tool_rounds :
  forall (requests : list Response.t) (final : Response.t) (rest : list Response.t)
         (text : string) input_list tools model (max_iterations : Z)
         (w : World (list Response.t)),
    Forall (fun response => requested (parse_response response) <> 0%nat) requests ->
    requested (parse_response final) = 0%nat ->
    final_answer (parse_response final) = Ok text ->
    (Z.of_nat (List.length requests) < max_iterations)%Z ->
    client w = (requests ++ final :: rest)%list ->
    exists w',
      invoke_openai_loop Sample.scripted environ get_tool input_list tools model
        max_iterations w
      = (w', Ok text)
      /\ client w' = rest
      /\ List.length (sent w') = (List.length (sent w) + List.length requests + 1)%nat.
Proof.
  intros requests final rest text input_list tools model max_iterations w
    Hall Hnone Hfinal Hlen Hclient.
  unfold invoke_openai_loop. rewrite Hkey. cbn zeta.
  apply (iterate_on_script requests final rest text); try assumption. lia.
Qed.

End Script.

#[local] Existing Instance Sample.builtins.

(** The scenario of the spec: a request for [calculate_pension], then the
    final text, and a third response that is never asked for. *)
Lemma answer_after_k_tool_rounds_witness :
  exists w' : World (list Response.t),
    invoke_openai_loop Sample.scripted Sample.environ Sample.get_tool Sample.user_input
      None default_model default_max_iterations
      (Sample.fresh [Sample.pension_request; Sample.pension_answer; Sample.blank_answer])
    = (w', Ok "Your projected pension is ...")
    /\ client w' = [Sample.blank_answer]
    /\ List.length (sent w') = 2%nat.
Proof.
  apply (answer_after_k_tool_rounds Sample.environ Sample.get_tool eq_refl
           [Sample.pension_request] Sample.pension_answer [Sample.blank_answer]
           "Your projected pension is ..." Sample.user_input None default_model
           default_max_iterations
           (Sample.fresh [Sample.pension_request; Sample.pension_answer;
                          Sample.blank_answer])).
  - constructor; [discriminate | constructor].
  - reflexivity.
  - reflexivity.
  - unfold default_max_iterations. cbn. lia.
  - reflexivity.
Defined.

End ScriptFacts.

(* ================================================================== *)
(** * Further properties of the FSA/HSA calculator *)
(* ================================================================== *)

Module CalculatorFacts.

(** The keys the calculator files its amounts under, by account type. *)
Definition accounts_of (account_type : string) : list string :=
  if String.eqb account_type "fsa" then ["fsa"]
  else if String.eqb account_type "hsa" then ["hsa"]
  else if String.eqb account_type "both" then ["hsa"; "fsa"]
  else ["suggested_contribution"].

(** A rounded amount: a float, or the [int] zero that [max(..., 0)] may
    hand on. *)
Definition amount (v : value) : Prop :=
  (exists x : float, v = VFloat x) \/ v = VInt 0.

Section WithBuiltins.
Context {builtins : Builtins}.

Ltac compare_floats :=
  repeat match goal with
         | |- context [PrimFloat.ltb ?a ?b] => destruct (PrimFloat.ltb a b)
         | |- context [int_float_compare ?n ?x] =>
             destruct (int_float_compare n x) as [[| |] |]
         end.

(** The [if]/[elif] chain raises nothing, whatever the expenses: it fills
    [recommendations] with one amount per account of the account type. *)
Lemma recommend_fills (expenses : float) (account_type : string) :
  exists recommendations rationale : dict value,
    Tools.recommend expenses account_type = Ok (recommendations, rationale)
    /\ dict_keys recommendations = accounts_of account_type
    /\ Forall (fun entry => amount (snd entry)) recommendations.
Proof.
  unfold Tools.recommend, accounts_of.
  destruct (String.eqb account_type "fsa");
    [| destruct (String.eqb account_type "hsa");
       [| destruct (String.eqb account_type "both")]];
    unfold Py.min, Py.max, Py.sub, Py.lt, as_number; cbn [exc_bind];
    compare_floats; cbn [exc_bind Py.round Py.lt as_number Py.min Py.sub];
    compare_floats; cbn [exc_bind Py.round Py.lt as_number Py.min];
    compare_floats; cbn [exc_bind Py.round];
    (eexists; eexists; split; [reflexivity |]; split; [reflexivity |]);
    repeat (apply Forall_cons || apply Forall_nil); cbn [snd]; unfold amount; eauto.
Qed.


(** X16.  The result names the accounts of the normalised account type and no
    other: [fsa], [hsa], both of them with [hsa] first, or
    [suggested_contribution] for anything else (a missing account type, a
    type that is no string, a misspelling).  The type is compared after
    [str], [strip] and [lower].  Every amount is a float, or the [int] zero. *)
Theorem recommendations_follow_account_type :
  forall (kwargs result : dict value),
    Tools.FsaHsaCalculatorTool_result kwargs = Ok result ->
    exists recommendations : dict value,
      dict_get result "recommendations" = Some (VDict recommendations)
      /\ dict_keys recommendations
         = accounts_of
             (lower (strip (str (dict_get_default kwargs "account_type" (VStr "")))))
      /\ Forall (fun entry => amount (snd entry)) recommendations.
Proof.
  intros kwargs result Hresult.
  unfold Tools.FsaHsaCalculatorTool_result in Hresult.
  destruct (Tools.expenses_of kwargs) as [expenses | e]; [| discriminate].
  cbn [exc_bind] in Hresult.
  destruct (recommend_fills expenses
              (lower (strip (str (dict_get_default kwargs "account_type" (VStr ""))))))
    as (recommendations & rationale & Hfilled & Hkeys & Hamounts).
  rewrite Hfilled in Hresult. cbn [exc_bind] in Hresult. injection Hresult as <-.
  exists recommendations. split; [reflexivity |]. split; assumption.
Qed.

(** X17.  Expenses that come out as zero (absent, below zero, or not a number
    that [float] accepts) give a recommendation of 0.0 for every account:
    the tool answers, and recommends to set nothing aside. *)
Theorem zero_expenses_recommend_nothing :
  forall (kwargs : dict value),
    Tools.expenses_of kwargs = Ok 0%float ->
    exists result recommendations : dict value,
      Tools.FsaHsaCalculatorTool_result kwargs = Ok result
      /\ dict_get result "recommendations" = Some (VDict recommendations)
      /\ Forall (fun entry => snd entry = VFloat 0%float) recommendations.
Proof.
  intros kwargs Hzero. unfold Tools.FsaHsaCalculatorTool_result. rewrite Hzero.
  cbn [exc_bind]. unfold Tools.recommend.
  destruct (String.eqb _ "fsa");
    [| destruct (String.eqb _ "hsa"); [| destruct (String.eqb _ "both")]];
    (eexists; eexists; split; [vm_compute; reflexivity |];
     split; [reflexivity |]; repeat constructor).
Qed.

End WithBuiltins.

#[local] Existing Instance Sample.builtins.


Lemma recommendations_follow_account_type_witness :
  exists recommendations : dict value,
    dict_get
      [ ("input",
           VDict [ ("expected_medical_expenses", VFloat 1000);
                   ("account_type", VStr "both");
                   ("current_age", VNone);
                   ("retirement_age", VNone) ]);
        ("recommendations", VDict [ ("hsa", VFloat 500); ("fsa", VFloat 300) ]);
        ("assumptions",
           VDict [ ("target_ratio", VFloat Tools.target_ratio);
                   ("fsa_cap", VFloat Tools.FSA_CAP);
                   ("hsa_cap_individual", VFloat Tools.HSA_CAP_INDIVIDUAL) ]);
        ("rationale",
           VDict [ ("hsa", VStr
                      "Prioritize HSA for tax efficiency and rollover; allocate ~50% of target there first.");
                   ("fsa", VStr
                      "Allocate remaining target to FSA up to the cap; avoid exceeding likely expenses.") ]);
        ("disclaimer", VStr
           "This is a non-binding illustrative calculation. Consult plan documents and a tax advisor.") ]
      "recommendations"
    = Some (VDict recommendations)
    /\ dict_keys recommendations = ["hsa"; "fsa"]
    /\ Forall (fun entry => amount (snd entry)) recommendations.
Proof.
  apply (recommendations_follow_account_type
           [ ("expected_medical_expenses", VInt 1000); ("account_type", VStr " BOTH ") ]).
  vm_compute. reflexivity.
Defined.

Lemma zero_expenses_recommend_nothing_witness :
  exists result recommendations : dict value,
    Tools.FsaHsaCalculatorTool_result
      [ ("expected_medical_expenses", VStr "a lot"); ("account_type", VStr "HSA") ]
    = Ok result
    /\ dict_get result "recommendations" = Some (VDict recommendations)
    /\ Forall (fun entry => snd entry = VFloat 0%float) recommendations.
Proof.
  apply (zero_expenses_recommend_nothing
           [ ("expected_medical_expenses", VStr "a lot"); ("account_type", VStr "HSA") ]).
  vm_compute. reflexivity.
Defined.

End CalculatorFacts.

(* ================================================================== *)
(** * Further properties of the schema adapter *)
(* ================================================================== *)

Module SchemaFacts.
Import Converter.

(** The names of a list, each at its first occurrence, that are not among
    [seen]. *)
Fixpoint unseen (seen names : list string) : list string :=
  match names with
  | [] => []
  | name :: rest =>
      if existsb (String.eqb name) seen then unseen seen rest
      else name :: unseen (seen ++ [name]) rest
  end.

Lemma keys_set {V : Type} (d : dict V) (k : string) (v : V) :
  dict_keys (dict_set d k v)
  = if existsb (String.eqb k) (dict_keys d) then dict_keys d
    else (dict_keys d ++ [k])%list.
Proof.
  induction d as [| [k0 v0] d IH]; cbn [dict_set dict_keys map existsb app fst];
    [reflexivity |].
  destruct (String.eqb_spec k k0) as [-> | Hne]; cbn [orb map fst]; [reflexivity |].
  fold (dict_keys (dict_set d k v)). fold (dict_keys d). rewrite IH.
  destruct (existsb (String.eqb k) (dict_keys d)); reflexivity.
Qed.

Lemma properties_keys_order (inputs : list ToolInput.t) :
  forall acc : dict value,
    dict_keys (fold_left set_property inputs acc)
    = (dict_keys acc ++ unseen (dict_keys acc) (map ToolInput.name inputs))%list.
Proof.
  induction inputs as [| i inputs IH]; intros acc; cbn [fold_left map unseen].
  - now rewrite app_nil_r.
  - rewrite IH. unfold set_property. rewrite keys_set.
    destruct (existsb (String.eqb (ToolInput.name i)) (dict_keys acc));
      [reflexivity | now rewrite <- app_assoc].
Qed.

Lemma unseen_nodup (names : list string) :
  forall seen : list string,
    NoDup names -> (forall name, In name names -> ~ In name seen) ->
    unseen seen names = names.
Proof.
  induction names as [| name names IH]; intros seen Hnodup Hfresh; [reflexivity |].
  inversion Hnodup as [| ? ? Hnotin Hnodup']; subst. cbn [unseen].
  destruct (existsb (String.eqb name) seen) eqn:Hseen.
  - apply existsb_exists in Hseen. destruct Hseen as (k & Hin & Heq).
    apply String.eqb_eq in Heq. subst k. exfalso.
    apply (Hfresh name); [now left | exact Hin].
  - f_equal. apply IH; [exact Hnodup' |].
    intros k Hk Hin. apply in_app_or in Hin. destruct Hin as [Hin | [<- | []]].
    + apply (Hfresh k); [now right | exact Hin].
    + contradiction.
Qed.

(** X18.  The [required] array of a converted tool lists the parameter names in
    the order of their declaration, a name declared more than once at the
    place of its first declaration; when no name is declared twice it is the
    list of the declared names as it stands. *)
Theorem required_in_declaration_order :
  forall tool : Tool.t,
    dict_get (parameters_of tool) "required"
    = Some (VList (map VStr (unseen [] (map ToolInput.name (Tool.inputs tool)))))
    /\ (NoDup (map ToolInput.name (Tool.inputs tool)) ->
        dict_get (parameters_of tool) "required"
        = Some (VList (map VStr (map ToolInput.name (Tool.inputs tool))))).
Proof.
  intros tool.
  assert (Hkeys : dict_keys (properties_of (Tool.inputs tool))
                  = unseen [] (map ToolInput.name (Tool.inputs tool))).
  { unfold properties_of. now rewrite properties_keys_order. }
  split.
  - unfold parameters_of. cbn [dict_get String.eqb Ascii.eqb Bool.eqb].
    now rewrite Hkeys.
  - intros Hnodup. unfold parameters_of. cbn [dict_get String.eqb Ascii.eqb Bool.eqb].
    rewrite Hkeys, unseen_nodup; [reflexivity | exact Hnodup | intros ? ? []].
Qed.

(** X19.  When a name is declared more than once, the schema filed under it is
    that of its last declaration: the earlier ones leave no trace but the
    position of the name. *)
Theorem last_declaration_wins :
  forall (before after : list ToolInput.t) (tool_input : ToolInput.t),
    ~ In (ToolInput.name tool_input) (map ToolInput.name after) ->
    dict_get (properties_of (before ++ tool_input :: after)) (ToolInput.name tool_input)
    = Some (VDict (property_data tool_input)).
Proof.
  intros before after tool_input Hlast. unfold properties_of.
  rewrite fold_left_app. cbn [fold_left].
  rewrite ConverterFacts.properties_get_other by exact Hlast.
  unfold set_property. apply DictFacts.get_set_same.
Qed.

(** A parameter declared as a string and declared again as a map. *)
Lemma last_declaration_wins_witness :
  dict_get
    (properties_of
       ([ ToolInput.Build "plan" STRING "Plan identifier" true ]
        ++ ToolInput.Build "plan" DICT "Plan details" false
        :: [ ToolInput.Build "state" STRING "State" false ]))
    "plan"
  = Some (VDict (property_data (ToolInput.Build "plan" DICT "Plan details" false))).
Proof.
  apply (last_declaration_wins
           [ ToolInput.Build "plan" STRING "Plan identifier" true ]
           [ ToolInput.Build "state" STRING "State" false ]
           (ToolInput.Build "plan" DICT "Plan details" false)).
  cbn. intros [H | []]. discriminate H.
Defined.

End SchemaFacts.

(* ================================================================== *)
(** * Properties of the registries and of the activity *)
(* ================================================================== *)

Module AgentFacts.
Import Provider.

(** The input list the activity opens the conversation with: the system
    message unless the prompt is empty, then the user message, whose content
    is the text followed by one part per file. *)
Definition opening (system_prompt request_text : string) (files : list string)
    : list InputItem :=
  ((if String.eqb system_prompt "" then []
    else [ Entry [ ("role", VStr "system"); ("content", VStr system_prompt) ] ])
   ++ [ Entry
          [ ("role", VStr "user");
            ("content",
               VList (VDict [ ("type", VStr "input_text"); ("text", VStr request_text) ]
                      :: map (fun file_url =>
                                VDict [ ("type", VStr "input_file");
                                        ("file_url", VStr file_url) ])
                             files)) ] ])%list.

(** The files of a request, none when the argument is left out. *)
Definition files_of (request_files : option (list string)) : list string :=
  match request_files with
  | Some files => files
  | None => []
  end.

Lemma dict_get_in {V : Type} (d : dict V) (k : string) (v : V) :
  dict_get d k = Some v -> In (k, v) d.
Proof.
  induction d as [| [k0 v0] d IH]; cbn [dict_get]; [discriminate |].
  destruct (String.eqb_spec k k0) as [-> | Hne].
  - intros H. injection H as <-. now left.
  - intros H. right. now apply IH.
Qed.

Section WithBuiltins.
Context {builtins : Builtins}.

Lemma get_agent_benefits (agent_name : string) :
  Agents.get_agent agent_name
  = if String.eqb agent_name "benefits" then Ok Agents.benefits_agent
    else Raise (Exception "ValueError"
                  ("Agent '" ++ agent_name ++ "' not found. Available agents: "
                   ++ str (VList [VStr "benefits"]))).
Proof.
  unfold Agents.get_agent, Agents.AGENT_REGISTRY.
  cbn [dict_set dict_get dict_keys map fst].
  destruct (String.eqb agent_name "benefits"); reflexivity.
Qed.

Lemma agent_tools_registered (agent_name : string) (agent : Agent.t)
    (tool : BaseTool.t) :
  Agents.get_agent agent_name = Ok agent ->
  In tool (Agent.tools agent) ->
  Tools.get_tool (BaseTool.name tool) = Some tool.
Proof.
  intros Hagent Hin.
  rewrite get_agent_benefits in Hagent.
  destruct (String.eqb agent_name "benefits"); [| discriminate].
  injection Hagent as <-. cbn [Agents.benefits_agent Agent.tools In] in Hin.
  repeat (destruct Hin as [<- | Hin]; [reflexivity |]).
  destruct Hin.
Qed.

(** X20.  A tool is registered under the name it declares: the tool that runs
    for a function call is the one whose schema carried the name of the
    call. *)
Theorem registered_tools_answer_to_their_names :
  forall (name : string) (tool : BaseTool.t),
    Tools.get_tool name = Some tool -> BaseTool.name tool = name.
Proof.
  intros name tool Hget. unfold Tools.get_tool in Hget.
  apply dict_get_in in Hget.
  assert (Hregistry :
    Tools._TOOL_REGISTRY
    = [ ("calculate_pension", Tools.calculate_pension_tool);
        ("health_insurance_lookup", Tools.health_insurance_lookup_tool);
        ("pto_balance_lookup", Tools.pto_balance_tool);
        ("benefits_enrollment", Tools.benefits_enrollment_tool);
        ("fsa_hsa_calculator", Tools.fsa_hsa_calculator_tool) ]) by reflexivity.
  rewrite Hregistry in Hget. cbn [In] in Hget.
  repeat (destruct Hget as [Hget | Hget];
          [injection Hget as <- <-; reflexivity |]).
  destruct Hget.
Qed.

(** X21.  Every function a registered agent offers to the model can be executed:
    each function schema converted from the agent's definition, as [main.py]
    builds it, carries the name of one of the agent's tools, and the tool
    registry holds that very tool under that name.  A function call of the
    model for an offered function never falls to the placeholder for want
    of a tool. *)
Theorem offered_functions_are_executable :
  forall (agent_name : string) (agent : Agent.t) (f : dict value),
    Agents.get_agent agent_name = Ok agent ->
    In f (Converter.convert_tools_to_openai
            (AgentDefinition.tools (Agents.definition_of agent))) ->
    exists tool : BaseTool.t,
      In tool (Agent.tools agent)
      /\ dict_get f "name" = Some (VStr (BaseTool.name tool))
      /\ Tools.get_tool (BaseTool.name tool) = Some tool.
Proof.
  intros agent_name agent f Hagent Hin.
  rewrite ConverterFacts.convert_tools_to_openai_map in Hin.
  cbn [Agents.definition_of AgentDefinition.tools] in Hin. rewrite map_map in Hin.
  apply in_map_iff in Hin. destruct Hin as (tool & <- & Hin).
  exists tool. split; [exact Hin |]. split; [reflexivity |].
  exact (agent_tools_registered agent_name agent tool Hagent Hin).
Qed.

(** X22.  [get_agents] gives one agent per name, in the order of the names and
    with repetitions kept, when every name is registered; otherwise it
    raises for the first name that is not, and says nothing of the later
    ones. *)
Theorem get_agents_all_or_first_unknown :
  forall agent_names : list string,
    (Forall (fun name => name = "benefits") agent_names ->
     Agents.get_agents agent_names
     = Ok (map (fun _ => Agents.benefits_agent) agent_names))
    /\ (forall (known : list string) (unknown : string) (rest : list string),
           agent_names = (known ++ unknown :: rest)%list ->
           Forall (fun name => name = "benefits") known ->
           unknown <> "benefits" ->
           Agents.get_agents agent_names
           = Raise (Exception "ValueError"
                      ("Agent '" ++ unknown ++ "' not found. Available agents: "
                       ++ str (VList [VStr "benefits"])))).
Proof.
  intros agent_names. split.
  - intros Hall. induction Hall as [| name names -> _ IH]; [reflexivity |].
    cbn [Agents.get_agents map]. rewrite get_agent_benefits, IH. reflexivity.
  - intros known unknown rest -> Hall Hunknown.
    induction Hall as [| name names -> _ IH]; cbn [app Agents.get_agents].
    + rewrite get_agent_benefits.
      destruct (String.eqb_spec unknown "benefits"); [contradiction | reflexivity].
    + rewrite get_agent_benefits, IH. reflexivity.
Qed.

Section Activity.

Variable Client : Type.
Variable responses_create : Client -> Request.t -> Client * exc Response.t.
Variable environ : dict string.
Variable get_tool : string -> option BaseTool.t.
Variable LLMProvider_values : list (string * LLMProvider).
Variable OpenAIModel_values : list string.
Variable AnthropicModel_values : list string.
Variable GeminiModel_values : list string.

Lemma user_content_parts (request_text : string) (request_files : option (list string)) :
  Activities.user_content request_text request_files
  = VDict [ ("type", VStr "input_text"); ("text", VStr request_text) ]
    :: map (fun file_url =>
              VDict [ ("type", VStr "input_file"); ("file_url", VStr file_url) ])
           (files_of request_files).
Proof.
  assert (Hfold : forall (files : list string) (content : list value),
    fold_left
      (fun content file_url =>
         (content ++ [ VDict [ ("type", VStr "input_file");
                               ("file_url", VStr file_url) ] ])%list)
      files content
    = (content
       ++ map (fun file_url =>
                 VDict [ ("type", VStr "input_file"); ("file_url", VStr file_url) ])
              files)%list).
  { induction files as [| file files IH]; intros content; cbn [fold_left map].
    - now rewrite app_nil_r.
    - rewrite IH, <- app_assoc. reflexivity. }
  unfold Activities.user_content. cbv zeta.
  destruct request_files as [[| file files] |]; cbn [files_of]; try reflexivity.
  rewrite (Hfold (file :: files)). reflexivity.
Qed.

Lemma build_input_list_opening (system_prompt request_text : string)
    (request_files : option (list string)) :
  Activities.build_input_list system_prompt request_text request_files
  = opening system_prompt request_text (files_of request_files).
Proof.
  unfold Activities.build_input_list, opening. rewrite user_content_parts.
  destruct (String.eqb system_prompt ""); reflexivity.
Qed.

(** X23.  The activity turns away, before anything is sent or printed, every call
    it cannot serve: a call without an agent, an agent whose provider is not
    the value of OpenAI, an agent whose model is not an OpenAI model.  The
    world is left as it was, and what is raised is a [ValueError] or a
    [NotImplementedError]. *)
Theorem unserved_agent_reaches_no_provider :
  forall (request_text : string) (request_files : option (list string))
         (agent : option AgentDefinition.t) (w : World Client),
    (forall a : AgentDefinition.t,
        agent = Some a ->
        Activities.provider_of_value LLMProvider_values (AgentDefinition.llm_provider a) <> Some OPENAI
        \/ Activities.member (AgentDefinition.model a) OpenAIModel_values = false) ->
    exists e : exn,
      Activities.invoke_agent responses_create environ get_tool LLMProvider_values
        OpenAIModel_values AnthropicModel_values GeminiModel_values
        request_text request_files agent w = (w, Raise e)
      /\ (exn_class e = "ValueError" \/ exn_class e = "NotImplementedError").
Proof.
  intros request_text request_files agent w Hunserved.
  destruct agent as [a |]; [| eexists; split; [reflexivity | left; reflexivity]].
  specialize (Hunserved a eq_refl).
  unfold Activities.invoke_agent, Activities.parse_provider.
  destruct (Activities.provider_of_value LLMProvider_values (AgentDefinition.llm_provider a))
    as [[| |] |] eqn:Hprovider.
  - destruct Hunserved as [Hne | Hmodel]; [now destruct Hne |].
    unfold Activities.provider_tools.
    destruct (AgentDefinition.tools a) as [| tool tools];
      cbn [ToolConverter.convert_tools]; unfold bind, lift; rewrite Hmodel;
      (eexists; split; [reflexivity | left; reflexivity]).
  - unfold Activities.provider_tools.
    destruct (AgentDefinition.tools a) as [| tool tools];
      cbn [ToolConverter.convert_tools]; unfold bind, lift;
      [| eexists; split; [reflexivity | right; reflexivity]].
    destruct (Activities.member (AgentDefinition.model a) AnthropicModel_values);
      (eexists; split; [reflexivity |]); [right | left]; reflexivity.
  - unfold Activities.provider_tools.
    destruct (AgentDefinition.tools a) as [| tool tools];
      cbn [ToolConverter.convert_tools]; unfold bind, lift;
      [| eexists; split; [reflexivity | right; reflexivity]].
    destruct (Activities.member (AgentDefinition.model a) GeminiModel_values);
      (eexists; split; [reflexivity |]); [right | left]; reflexivity.
  - unfold bind, lift. eexists. split; [reflexivity | left; reflexivity].
Qed.

(** X24.  For a provider that is declared but not implemented, an agent with
    tools fails in the conversion of its tools, before its model is looked
    at: the [NotImplementedError] of the converter is raised even when the
    model is not one of the provider's, which an agent without tools is told
    by a [ValueError]. *)
Theorem conversion_fails_before_model_check :
  forall (request_text : string) (request_files : option (list string))
         (a : AgentDefinition.t) (provider_enum : LLMProvider) (w : World Client),
    Activities.provider_of_value LLMProvider_values (AgentDefinition.llm_provider a) = Some provider_enum ->
    provider_enum <> OPENAI ->
    (AgentDefinition.tools a <> [] ->
     exists e : exn,
       ToolConverter.convert_tools (AgentDefinition.tools a) provider_enum = Raise e
       /\ exn_class e = "NotImplementedError"
       /\ Activities.invoke_agent responses_create environ get_tool LLMProvider_values
        OpenAIModel_values AnthropicModel_values GeminiModel_values
        request_text request_files (Some a) w = (w, Raise e))
    /\ (AgentDefinition.tools a = [] ->
        Activities.member (AgentDefinition.model a)
          (match provider_enum with
           | OPENAI => OpenAIModel_values
           | ANTHROPIC => AnthropicModel_values
           | GEMINI => GeminiModel_values
           end) = false ->
        exists e : exn,
          exn_class e = "ValueError"
          /\ Activities.invoke_agent responses_create environ get_tool LLMProvider_values
        OpenAIModel_values AnthropicModel_values GeminiModel_values
        request_text request_files (Some a) w = (w, Raise e)).
Proof.
  intros request_text request_files a provider_enum w Hprovider Hother.
  unfold Activities.invoke_agent, Activities.parse_provider. rewrite Hprovider.
  unfold Activities.provider_tools.
  destruct provider_enum; [now destruct Hother | |]; split.
  - intros Htools. destruct (AgentDefinition.tools a) as [| tool tools];
      [now destruct Htools |].
    eexists. split; [reflexivity |]. split; reflexivity.
  - intros -> Hmodel. unfold bind, lift. rewrite Hmodel.
    eexists. split; [| reflexivity]. reflexivity.
  - intros Htools. destruct (AgentDefinition.tools a) as [| tool tools];
      [now destruct Htools |].
    eexists. split; [reflexivity |]. split; reflexivity.
  - intros -> Hmodel. unfold bind, lift. rewrite Hmodel.
    eexists. split; [| reflexivity]. reflexivity.
Qed.

(** X25.  What the activity sends for an agent it serves, whatever the provider
    answers: at most five requests (the loop's default cap, which the
    activity does not change), each for the agent's model, each with the
    agent's tools converted to function schemas and [tool_choice] auto (or
    with neither, for an agent without tools), and each with an input list
    that starts with the opening of the conversation: the system prompt
    unless it is empty, then the user's text and one part per file. *)
Theorem served_agent_requests :
  forall (request_text : string) (request_files : option (list string))
         (a : AgentDefinition.t) (w w' : World Client) (outcome : exc string),
    Activities.provider_of_value LLMProvider_values (AgentDefinition.llm_provider a) = Some OPENAI ->
    Activities.member (AgentDefinition.model a) OpenAIModel_values = true ->
    Activities.invoke_agent responses_create environ get_tool LLMProvider_values
        OpenAIModel_values AnthropicModel_values GeminiModel_values
        request_text request_files (Some a) w = (w', outcome) ->
    exists new : list Request.t,
      sent w' = (sent w ++ new)%list
      /\ (List.length new <= 5)%nat
      /\ Forall
           (fun request =>
              Request.model request = AgentDefinition.model a
              /\ Request.tools request
                 = match AgentDefinition.tools a with
                   | [] => None
                   | tools => Some (map Converter.openai_function tools)
                   end
              /\ Request.tool_choice request
                 = match AgentDefinition.tools a with
                   | [] => None
                   | _ => Some "auto"
                   end
              /\ exists suffix : list InputItem,
                   Request.input request
                   = (opening (AgentDefinition.system_prompt a) request_text
                        (files_of request_files)
                      ++ suffix)%list)
           new.
Proof.
  intros request_text request_files a w w' outcome Hprovider Hmodel Hrun.
  unfold Activities.invoke_agent, Activities.parse_provider in Hrun.
  rewrite Hprovider in Hrun.
  set (tools := match AgentDefinition.tools a with
                | [] => None
                | tools => Some (Converter.convert_tools_to_openai tools)
                end).
  assert (Htools : Activities.provider_tools a OPENAI = Ok tools).
  { unfold Activities.provider_tools, tools.
    destruct (AgentDefinition.tools a); reflexivity. }
  unfold bind at 1 in Hrun. unfold lift at 1 in Hrun.
  unfold bind at 1 in Hrun. rewrite Htools in Hrun. unfold lift at 1 in Hrun.
  rewrite Hmodel in Hrun. cbn [negb] in Hrun.
  rewrite build_input_list_opening in Hrun.
  unfold invoke_openai_loop in Hrun.
  destruct (blank (getenv environ "OPENAI_API_KEY")).
  - injection Hrun as <- <-. exists []. rewrite app_nil_r.
    repeat split; [cbn; lia | constructor].
  - cbn zeta in Hrun.
    destruct (RunFacts.iterate_sends Client responses_create environ get_tool _ _ _ _ _ _ _
                Hrun) as (new & Hsent & Hlen & Hall & _).
    exists new. split; [exact Hsent |]. split; [exact Hlen |].
    eapply Forall_impl; [| exact Hall].
    intros request (later & [suffix ->] & ->).
    unfold tools.
    destruct (AgentDefinition.tools a) as [| tool rest];
      [| rewrite ConverterFacts.convert_tools_to_openai_map];
      cbn [map response_kwargs Request.model Request.tools Request.tool_choice
           Request.input];
      repeat split; eexists; reflexivity.
Qed.

End Activity.
End WithBuiltins.

#[local] Existing Instance Sample.builtins.

Lemma registered_tools_answer_to_their_names_witness :
  BaseTool.name Tools.fsa_hsa_calculator_tool = "fsa_hsa_calculator".
Proof.
  apply (registered_tools_answer_to_their_names "fsa_hsa_calculator"
           Tools.fsa_hsa_calculator_tool).
  reflexivity.
Defined.

(** The function offered for the calculator by the benefits agent. *)
Lemma offered_functions_are_executable_witness :
  exists tool : BaseTool.t,
    In tool (Agent.tools Agents.benefits_agent)
    /\ dict_get (Converter.openai_function Sample.fsa_hsa_tool) "name"
       = Some (VStr (BaseTool.name tool))
    /\ Tools.get_tool (BaseTool.name tool) = Some tool.
Proof.
  apply (offered_functions_are_executable "benefits" Agents.benefits_agent
           (Converter.openai_function Sample.fsa_hsa_tool)).
  - reflexivity.
  - rewrite ConverterFacts.convert_tools_to_openai_map.
    cbn [Agents.definition_of AgentDefinition.tools Agents.benefits_agent Agent.tools
         map In].
    do 4 right. left. reflexivity.
Defined.

(** The benefits agent with a model that is no OpenAI model. *)
Lemma unserved_agent_reaches_no_provider_witness :
  exists e : exn,
    Activities.invoke_agent (Sample.always Sample.mixed_requests) Sample.environ
      Sample.get_tool Sample.LLMProvider_values Sample.OpenAIModel_values
      Sample.AnthropicModel_values Sample.GeminiModel_values
      "What will my pension be?" None (Some Sample.unknown_model_definition)
      (Sample.fresh tt)
    = (Sample.fresh tt, Raise e)
    /\ (exn_class e = "ValueError" \/ exn_class e = "NotImplementedError").
Proof.
  apply (unserved_agent_reaches_no_provider unit (Sample.always Sample.mixed_requests)
           Sample.environ Sample.get_tool Sample.LLMProvider_values
           Sample.OpenAIModel_values Sample.AnthropicModel_values
           Sample.GeminiModel_values "What will my pension be?" None
           (Some Sample.unknown_model_definition) (Sample.fresh tt)).
  intros a Ha. injection Ha as <-. right. reflexivity.
Defined.

(** The benefits agent, with its five tools, on the Anthropic provider and
    with a model that is none of Anthropic's. *)
Lemma conversion_fails_before_model_check_witness :
  Activities.member (AgentDefinition.model Sample.anthropic_definition)
    Sample.AnthropicModel_values = false
  /\ exists e : exn,
       ToolConverter.convert_tools (AgentDefinition.tools Sample.anthropic_definition)
         ANTHROPIC = Raise e
       /\ exn_class e = "NotImplementedError"
       /\ Activities.invoke_agent (Sample.always Sample.mixed_requests) Sample.environ
            Sample.get_tool Sample.LLMProvider_values Sample.OpenAIModel_values
            Sample.AnthropicModel_values Sample.GeminiModel_values
            "What will my pension be?" None (Some Sample.anthropic_definition)
            (Sample.fresh tt)
          = (Sample.fresh tt, Raise e).
Proof.
  split; [reflexivity |].
  assert (Hprovider :
    Activities.provider_of_value Sample.LLMProvider_values
      (AgentDefinition.llm_provider Sample.anthropic_definition) = Some ANTHROPIC)
    by reflexivity.
  assert (Hother : ANTHROPIC <> OPENAI) by discriminate.
  assert (Htools : AgentDefinition.tools Sample.anthropic_definition <> [])
    by discriminate.
  exact (proj1 (conversion_fails_before_model_check unit
                  (Sample.always Sample.mixed_requests) Sample.environ Sample.get_tool
                  Sample.LLMProvider_values Sample.OpenAIModel_values
                  Sample.AnthropicModel_values Sample.GeminiModel_values
                  "What will my pension be?" None Sample.anthropic_definition ANTHROPIC
                  (Sample.fresh tt) Hprovider Hother) Htools).
Defined.

(** The benefits agent, asked about two files, against a provider that asks
    for tools for ever. *)
Lemma served_agent_requests_witness :
  exists new : list Request.t,
    sent (fst (Activities.invoke_agent (Sample.always Sample.mixed_requests)
                 Sample.environ Sample.get_tool Sample.LLMProvider_values
                 Sample.OpenAIModel_values Sample.AnthropicModel_values
                 Sample.GeminiModel_values "What will my pension be?"
                 (Some ["https://files/a.pdf"; "https://files/b.pdf"])
                 (Some Sample.benefits_definition) (Sample.fresh tt)))
    = ([] ++ new)%list
    /\ (List.length new <= 5)%nat
    /\ Forall
         (fun request =>
            Request.model request = AgentDefinition.model Sample.benefits_definition
            /\ Request.tools request
               = match AgentDefinition.tools Sample.benefits_definition with
                 | [] => None
                 | tools => Some (map Converter.openai_function tools)
                 end
            /\ Request.tool_choice request
               = match AgentDefinition.tools Sample.benefits_definition with
                 | [] => None
                 | _ => Some "auto"
                 end
            /\ exists suffix : list InputItem,
                 Request.input request
                 = (opening (AgentDefinition.system_prompt Sample.benefits_definition)
                      "What will my pension be?"
                      (files_of (Some ["https://files/a.pdf"; "https://files/b.pdf"]))
                    ++ suffix)%list)
         new.
Proof.
  apply (served_agent_requests unit (Sample.always Sample.mixed_requests) Sample.environ
           Sample.get_tool Sample.LLMProvider_values Sample.OpenAIModel_values
           Sample.AnthropicModel_values Sample.GeminiModel_values
           "What will my pension be?"
           (Some ["https://files/a.pdf"; "https://files/b.pdf"])
           Sample.benefits_definition (Sample.fresh tt) _ _ eq_refl eq_refl
           (surjective_pairing _)).
Defined.

End AgentFacts.
